(** * Housing expense report: the derivation of FinancialTableGenerator.jsx

    A shallow embedding of the computation core of the React component
    [FinancialTableGenerator] (src/FinancialTableGenerator.jsx): parsing of
    the entered amounts, the totals, the percentage of income and its
    classification, the weekly-rent comparison, the report rows, the chart
    series and the narrative lines, together with the component's state
    transitions on the item list.

    ECMAScript numbers and the built-in functions the component calls
    (arithmetic, comparison, [toFixed], [Intl.NumberFormat]) are an
    interface, [Number], with two implementations: IEEE 754 binary64 (the
    numbers of a JavaScript engine) and exact rational arithmetic.  The
    locale in which [Intl.NumberFormat] prints is that of the environment,
    a parameter of both.  The grammar of [parseFloat] and of
    [Number(string)] is written once, over that interface.

    Text is a [string] of bytes: ASCII characters are themselves and any
    other character stands as its UTF-8 bytes. *)

From Stdlib Require Import ZArith QArith Qabs Qround Lqa List String Ascii Bool Lia.
From Stdlib Require Import DecimalString.
From Stdlib Require DecimalPos DecimalN.
From Stdlib Require Import Floats.
Import ListNotations.

Open Scope string_scope.
Open Scope Z_scope.

(* ================================================================= *)
(** ** ECMAScript numbers *)

(** The Number type and what the component does with it.
    - [of_decimal neg m e] is the number a decimal numeral denotes: [neg]
      is its sign, [m >= 0] its digits read as an integer and [e] the power
      of ten, so the numeral stands for [(-1)^neg * m * 10^e];
    - [infinity neg] and [nan] are [Infinity], [-Infinity] and [NaN];
    - [add], [sub], [mul], [div] are [+], [-], [*], [/] and [abs] is
      [Math.abs];
    - [leb a b] and [ltb a b] are [a <= b] and [a < b];
    - [isZero] holds of [+0] and [-0];
    - [toFixed2 x] is [x.toFixed(2)];
    - [format x] is [numberFormatter.format(x)] for the formatter
      [new Intl.NumberFormat()] of the environment's locale. *)
Class Number (num : Type) : Type := {
  of_decimal : bool -> Z -> Z -> num;
  infinity : bool -> num;
  nan : num;
  add : num -> num -> num;
  sub : num -> num -> num;
  mul : num -> num -> num;
  div : num -> num -> num;
  abs : num -> num;
  leb : num -> num -> bool;
  ltb : num -> num -> bool;
  isNaN : num -> bool;
  isZero : num -> bool;
  toFixed2 : num -> string;
  format : num -> string
}.

Declare Scope js_scope.
Delimit Scope js_scope with js.

Section Numbers.
Context {num : Type} {N : Number num}.

(** An integer literal of the source, such as [100] or [52]. *)
Definition int (z : Z) : num := of_decimal (z <? 0) (Z.abs z) 0.

(** A literal with [k] digits after the point: [dec 3 1] is [0.3]. *)
Definition dec (m : Z) (k : Z) : num := of_decimal (m <? 0) (Z.abs m) (- k).

(** ToBoolean on a number: [+0], [-0] and [NaN] are falsy. *)
Definition truthy (x : num) : bool := negb (isZero x || isNaN x).

(** [a || b] on numbers. *)
Definition or_else (a b : num) : num := if truthy a then a else b.

End Numbers.

Notation "a + b" := (add a b) : js_scope.
Notation "a - b" := (sub a b) : js_scope.
Notation "a * b" := (mul a b) : js_scope.
Notation "a / b" := (div a b) : js_scope.
Notation "a <=? b" := (leb a b) : js_scope.
Notation "a <? b" := (ltb a b) : js_scope.
Notation "a >? b" := (ltb b a) : js_scope.
Notation "a >=? b" := (leb b a) : js_scope.
Notation "a '|||' b" := (or_else a b) (at level 50, left associativity) : js_scope.

(* ================================================================= *)
(** ** Strings: the built-in methods the component calls *)

Definition comma : ascii := ascii_of_nat 44.
Definition dot : ascii := ascii_of_nat 46.

(** [s.replace(/,/g, '')]: every comma is removed. *)
Fixpoint remove_commas (s : string) : string :=
  match s with
  | EmptyString => EmptyString
  | String c r => if Ascii.eqb c comma then remove_commas r else String c (remove_commas r)
  end.

(** [s.split('.')]: the pieces between the dots, at least one. *)
Fixpoint split_dot (s : string) : list string :=
  match s with
  | EmptyString => [EmptyString]
  | String c r =>
      if Ascii.eqb c dot then EmptyString :: split_dot r
      else match split_dot r with
           | [] => [String c EmptyString]
           | p :: ps => String c p :: ps
           end
  end.

(** [s.startsWith(p)]. *)
Definition startsWith (s p : string) : bool := String.prefix p s.

(** A template literal prints a missing value as the word undefined. *)
Definition show_opt (o : option string) : string :=
  match o with Some s => s | None => "undefined" end.

(** [xs.includes(x)] on an array of strings. *)
Definition includes (xs : list string) (x : string) : bool :=
  existsb (String.eqb x) xs.

(** [xs.slice(a, b)] for [0 <= a <= b]. *)
Definition slice {A : Type} (a b : nat) (xs : list A) : list A :=
  firstn (b - a) (skipn a xs).

(** [xs.push(x)], as a new list. *)
Definition push {A : Type} (xs : list A) (x : A) : list A := (xs ++ [x])%list.

(** [xs.find(p)]: the first element that satisfies [p]. *)
Definition find_first {A : Type} (p : A -> bool) (xs : list A) : option A :=
  List.find p xs.

(* ----------------------------------------------------------------- *)
(** *** White space and the numeric grammar *)

(** One-byte white space and line terminators: TAB, LF, VT, FF, CR, SP. *)
Definition ws1 (c : ascii) : bool :=
  let n := nat_of_ascii c in
  ((9 <=? n) && (n <=? 13))%nat || (n =? 32)%nat.

(** U+00A0 (no-break space), as UTF-8. *)
Definition ws2 (a b : ascii) : bool :=
  ((nat_of_ascii a =? 194) && (nat_of_ascii b =? 160))%nat.

(** Three-byte white space: U+1680, U+2000 to U+200A, U+2028, U+2029,
    U+202F, U+205F, U+3000 and U+FEFF. *)
Definition ws3 (a b c : ascii) : bool :=
  let x := nat_of_ascii a in
  let y := nat_of_ascii b in
  let z := nat_of_ascii c in
  ((x =? 225) && (y =? 154) && (z =? 128)
   || (x =? 226) && (y =? 128) && (((128 <=? z) && (z <=? 138)) || (z =? 168) || (z =? 169) || (z =? 175))
   || (x =? 226) && (y =? 129) && (z =? 159)
   || (x =? 227) && (y =? 128) && (z =? 128)
   || (x =? 239) && (y =? 187) && (z =? 191))%nat.

(** TrimString(s, start). *)
Fixpoint trim_start (s : string) : string :=
  match s with
  | EmptyString => EmptyString
  | String a r =>
      if ws1 a then trim_start r
      else match r with
           | EmptyString => s
           | String b r2 =>
               if ws2 a b then trim_start r2
               else match r2 with
                    | EmptyString => s
                    | String c r3 => if ws3 a b c then trim_start r3 else s
                    end
           end
  end.

(** TrimString(s, end): the text up to the point where only white space
    is left. *)
Fixpoint trim_end (s : string) : string :=
  match s with
  | EmptyString => EmptyString
  | String a r =>
      match trim_start s with
      | EmptyString => EmptyString
      | _ => String a (trim_end r)
      end
  end.

Definition is_digit (c : ascii) : bool :=
  let n := nat_of_ascii c in ((48 <=? n) && (n <=? 57))%nat.

Definition digit_value (c : ascii) : Z := Z.of_nat (nat_of_ascii c) - 48.

(** The longest run of decimal digits at the head of [s], read after the
    digits already in [acc]: the value, how many digits were read and the
    rest of the text. *)
Fixpoint digits (s : string) (acc : Z) (n : Z) : Z * Z * string :=
  match s with
  | String c r =>
      if is_digit c then digits r (10 * acc + digit_value c) (n + 1)
      else (acc, n, s)
  | EmptyString => (acc, n, s)
  end.

(** What a numeral denotes before it is turned into a number. *)
Inductive numeral : Type :=
| NumInfinity (neg : bool)
| NumDecimal (neg : bool) (m : Z) (e : Z).

(** ExponentPart: [e] or [E], an optional sign and at least one digit.
    Without a digit the exponent is no part of the numeral. *)
Definition exponent_part (s : string) : Z * string :=
  match s with
  | String c r =>
      if (Ascii.eqb c "e" || Ascii.eqb c "E")%char then
        let '(neg, r1) :=
          match r with
          | String sg r' =>
              if Ascii.eqb sg "-"%char then (true, r')
              else if Ascii.eqb sg "+"%char then (false, r')
              else (false, r)
          | EmptyString => (false, r)
          end in
        let '(v, n, r2) := digits r1 0 0 in
        if n =? 0 then (0, s) else ((if neg then - v else v), r2)
      else (0, s)
  | EmptyString => (0, s)
  end.

(** The longest prefix of [s] that is a StrUnsignedDecimalLiteral, with the
    text after it. *)
Definition unsigned_decimal (neg : bool) (s : string) : option (numeral * string) :=
  if String.prefix "Infinity" s then
    Some (NumInfinity neg, String.substring 8 (String.length s - 8) s)
  else
    let '(ip, ni, r1) := digits s 0 0 in
    let '(m, nf, r2) :=
      match r1 with
      | String c r =>
          if Ascii.eqb c dot then digits r ip 0 else (ip, 0, r1)
      | EmptyString => (ip, 0, r1)
      end in
    if (ni =? 0) && (nf =? 0) then None
    else
      let '(e, r3) := exponent_part r2 in
      Some (NumDecimal neg m (e - nf), r3).

(** The longest prefix of [s] that is a StrDecimalLiteral. *)
Definition decimal_prefix (s : string) : option (numeral * string) :=
  match s with
  | String c r =>
      if Ascii.eqb c "-"%char then unsigned_decimal true r
      else if Ascii.eqb c "+"%char then unsigned_decimal false r
      else unsigned_decimal false s
  | EmptyString => None
  end.

(** Digits of a NonDecimalIntegerLiteral in base 2, 8 or 16. *)
Definition base_digit (base : Z) (c : ascii) : option Z :=
  let n := Z.of_nat (nat_of_ascii c) in
  let v :=
    if (48 <=? n) && (n <=? 57) then n - 48
    else if (97 <=? n) && (n <=? 102) then n - 87
    else if (65 <=? n) && (n <=? 70) then n - 55
    else 16 in
  if v <? base then Some v else None.

Fixpoint base_digits (base : Z) (s : string) (acc : Z) : option Z :=
  match s with
  | EmptyString => Some acc
  | String c r =>
      match base_digit base c with
      | Some v => base_digits base r (base * acc + v)
      | None => None
      end
  end.

(** [0x], [0o] and [0b] numerals, upper or lower case, with at least one
    digit and no sign. *)
Definition non_decimal (s : string) : option Z :=
  match s with
  | String z (String k (String c r)) =>
      if Ascii.eqb z "0"%char then
        let body := String c r in
        if (Ascii.eqb k "x" || Ascii.eqb k "X")%char then base_digits 16 body 0
        else if (Ascii.eqb k "o" || Ascii.eqb k "O")%char then base_digits 8 body 0
        else if (Ascii.eqb k "b" || Ascii.eqb k "B")%char then base_digits 2 body 0
        else None
      else None
  | _ => None
  end.

Section Conversions.
Context {num : Type} {N : Number num}.

Definition of_numeral (n : numeral) : num :=
  match n with
  | NumInfinity neg => infinity neg
  | NumDecimal neg m e => of_decimal neg m e
  end.

(** [parseFloat(s)]: leading white space is skipped, the longest numeral at
    the head is read and whatever follows it is ignored; [NaN] when no
    numeral starts the text. *)
Definition parseFloat (s : string) : num :=
  match decimal_prefix (trim_start s) with
  | Some (n, _) => of_numeral n
  | None => nan
  end.

(** [Number(s)]: the whole trimmed text must be a numeral; the empty text
    is [0]. *)
Definition toNumber (s : string) : num :=
  let t := trim_end (trim_start s) in
  match t with
  | EmptyString => int 0
  | _ =>
      match decimal_prefix t with
      | Some (n, EmptyString) => of_numeral n
      | _ =>
          match non_decimal t with
          | Some v => of_decimal false v 0
          | None => nan
          end
      end
  end.

End Conversions.

(* ================================================================= *)
(** ** The component *)

(** [INPUT_CATEGORIES] and [PERIOD_OPTIONS]. *)
Definition INPUT_CATEGORIES : list string :=
  ["Earnings"; "Rent/Interest Paid"; "Insurance Paid"; "Maintenance";
   "Rates (Taxes)"; "Principal Paid"].

Definition PERIOD_OPTIONS : list string :=
  ["Q1"; "Q2"; "Q3"; "Q4"; "6 Months"; "Full Year"].

(** An entry of the [items] state: what the user typed. *)
Record item : Type := { name : string; amount : string }.

(** An entry of [parsed] and of [finalItems]. *)
Record entry (num : Type) : Type := { ename : string; value : num }.
Arguments ename {num} _.
Arguments value {num} _.

(** An entry of [tableData]. *)
Record row (num : Type) : Type := { rname : string; rvalue : num; percent : string }.
Arguments rname {num} _.
Arguments rvalue {num} _.
Arguments percent {num} _.

(** [weeks]: the number of weeks of the selected period. *)
Definition weeks (period : string) : Z :=
  if startsWith period "Q" then 13
  else if String.eqb period "6 Months" then 26
  else 52.

Section Derivation.
Context {num : Type} {N : Number num}.
Open Scope js_scope.

Definition getClassification (percent : num) : string :=
  if percent <=? int 30 then "Ideal (≤30%)"
  else if percent <=? int 50 then "Cost-burdened (30–50%)"
  else "Severely cost-burdened (>50%)".

(** [formatAmount]: two decimals, the integer part through the locale's
    formatter, and no decimals at all when they are [00]. *)
Definition formatAmount (amount : num) : string :=
  let parts := split_dot (toFixed2 amount) in
  let intPart := hd EmptyString parts in
  let decPart := nth_error parts 1 in
  let formattedInt := format (toNumber intPart) in
  match decPart with
  | Some "00" => formattedInt
  | _ => formattedInt ++ "." ++ show_opt decPart
  end.

(** [parseFloat(it.amount.replace(/,/g, '')) || 0]. *)
Definition parseAmount (amount : string) : num :=
  parseFloat (remove_commas amount) ||| int 0.

Definition parsed (items : list item) : list (entry num) :=
  map (fun it => {| ename := name it; value := parseAmount (amount it) |}) items.

(** [parsed.find(n => n.name === key)?.value || 0]. *)
Definition value_of (key : string) (parsed : list (entry num)) : num :=
  match find_first (fun n => String.eqb (ename n) key) parsed with
  | Some n => value n ||| int 0
  | None => int 0
  end.

Definition income (parsed : list (entry num)) : num := value_of "Earnings" parsed.

Definition nonPrincipal (parsed : list (entry num)) : num :=
  fold_left (fun sum n => sum + value n)
    (filter (fun n => includes (slice 1 5 INPUT_CATEGORIES) (ename n)) parsed)
    (int 0).

Definition exp30 (income : num) : num := income * dec 3 1.
Definition exp50 (income : num) : num := income * dec 5 1.

Definition pctIncome (income nonPrincipal : num) : num :=
  if truthy income then (nonPrincipal / income) * int 100 else int 0.

Definition weeklyRent (nonPrincipal : num) (weeks : Z) : num :=
  nonPrincipal / int weeks.

Definition affordableWeekly (income : num) (weeks : Z) : num :=
  if truthy income then (income / int weeks) * dec 3 1 else int 0.

Definition finalItems (parsed : list (entry num)) (nonPrincipal weeklyRent affordableWeekly : num)
  : list (entry num) :=
  let base :=
    (parsed ++
     [ {| ename := "Total Non-Principal Housing Expense"; value := nonPrincipal |};
       {| ename := "Total Mortgage Outlay";
          value := value_of "Rent/Interest Paid" parsed + value_of "Principal Paid" parsed |} ])%list in
  (base ++
   [ {| ename := "Estimated Weekly Rent"; value := weeklyRent |};
     {| ename := "Affordable Weekly Rent"; value := affordableWeekly |} ])%list.

Definition tableRow (income affordableWeekly : num) (it : entry num) : row num :=
  if String.eqb (ename it) "Estimated Weekly Rent" then
    let diff := value it - affordableWeekly in
    {| rname := ename it; rvalue := value it;
       percent := if diff >? int 0 then "Overspending by $" ++ formatAmount diff
                  else "Under by $" ++ formatAmount (abs diff) |}
  else if includes ["Affordable Weekly Rent"; "Earnings"] (ename it) then
    {| rname := ename it; rvalue := value it; percent := "" |}
  else
    {| rname := ename it; rvalue := value it;
       percent := if truthy income then toFixed2 ((value it / income) * int 100) ++ "%" else "" |}.

Definition tableData (finalItems : list (entry num)) (income affordableWeekly : num) : list (row num) :=
  map (tableRow income affordableWeekly) finalItems.

Definition chartItems (tableData : list (row num)) : list (row num) :=
  filter (fun d => negb (String.eqb (rname d) "Earnings") && (parseFloat (percent d) >=? int 4)) tableData.

(** [(weeklyRent - affordableWeekly) * weeks], the amount of the last
    narrative line. *)
Definition totalDiff (weeklyRent affordableWeekly : num) (weeks : Z) : num :=
  (weeklyRent - affordableWeekly) * int weeks.

Definition templates (period : string) (parsed : list (entry num))
    (income nonPrincipal pctIncome weeklyRent affordableWeekly : num) (weeks : Z) : list string :=
  let t : list string := [] in
  let t := push t ("Non-Principal Housing Expense (" ++ period ++ "): $" ++ formatAmount nonPrincipal
                   ++ " (" ++ toFixed2 pctIncome ++ "% of income)") in
  let t := push t ("Classification: " ++ getClassification pctIncome) in
  let pp := find_first (fun d => String.eqb (ename d) "Principal Paid") parsed in
  let t :=
    match pp with
    | Some pp =>
        push t ("Principal Paid: $" ++ formatAmount (value pp) ++ " ("
                ++ (if truthy income then toFixed2 ((value pp / income) * int 100) else "0.00")
                ++ "% of income)")
    | None => t
    end in
  let totalDiff := totalDiff weeklyRent affordableWeekly weeks in
  push t (if totalDiff >? int 0
          then "Total overspending for " ++ period ++ ": $" ++ formatAmount totalDiff
          else "Total savings for " ++ period ++ ": $" ++ formatAmount (abs totalDiff)).

(** Everything one render derives from the [items] and the [period]. *)
Record report : Type := {
  r_parsed : list (entry num);
  r_income : num;
  r_nonPrincipal : num;
  r_exp30 : num;
  r_exp50 : num;
  r_pctIncome : num;
  r_classification : string;
  r_weeks : Z;
  r_weeklyRent : num;
  r_affordableWeekly : num;
  r_finalItems : list (entry num);
  r_tableData : list (row num);
  r_chartItems : list (row num);
  r_templates : list string
}.

Definition derive (items : list item) (period : string) : report :=
  let parsed := parsed items in
  let income := income parsed in
  let nonPrincipal := nonPrincipal parsed in
  let pctIncome := pctIncome income nonPrincipal in
  let weeks := weeks period in
  let weeklyRent := weeklyRent nonPrincipal weeks in
  let affordableWeekly := affordableWeekly income weeks in
  let finalItems := finalItems parsed nonPrincipal weeklyRent affordableWeekly in
  let tableData := tableData finalItems income affordableWeekly in
  {| r_parsed := parsed;
     r_income := income;
     r_nonPrincipal := nonPrincipal;
     r_exp30 := exp30 income;
     r_exp50 := exp50 income;
     r_pctIncome := pctIncome;
     r_classification := getClassification pctIncome;
     r_weeks := weeks;
     r_weeklyRent := weeklyRent;
     r_affordableWeekly := affordableWeekly;
     r_finalItems := finalItems;
     r_tableData := tableData;
     r_chartItems := chartItems tableData;
     r_templates := templates period parsed income nonPrincipal pctIncome weeklyRent affordableWeekly weeks |}.

End Derivation.

(* ================================================================= *)
(** ** The component's state and its handlers *)

Record state : Type := {
  period : string;
  year : string;
  items : list item;
  notes : string;
  showReport : bool
}.

(** The [items] the component starts with and returns to on "clear". *)
Definition initialItems : list item :=
  map (fun name => {| name := name; amount := "" |}) INPUT_CATEGORIES.

Definition initialState (initialPeriod initialYear : string) : state :=
  {| period := initialPeriod; year := initialYear; items := initialItems;
     notes := ""; showReport := false |}.

(** The two keys of an item that [handleChange] can be asked to set. *)
Inductive field : Type := FieldName | FieldAmount.

Definition set_field (it : item) (f : field) (v : string) : item :=
  match f with
  | FieldName => {| name := v; amount := amount it |}
  | FieldAmount => {| name := name it; amount := v |}
  end.

(** [xs.map((x, i) => f(x, i))], counting from [i]. *)
Fixpoint mapi_from {A B : Type} (f : A -> nat -> B) (i : nat) (xs : list A) : list B :=
  match xs with
  | [] => []
  | x :: r => f x i :: mapi_from f (S i) r
  end.

Definition handleChange (index : nat) (f : field) (v : string) (prev : list item) : list item :=
  mapi_from (fun it i => if Nat.eqb i index then set_field it f v else it) 0 prev.

Definition handleAddRow (prev : list item) : list item :=
  (prev ++ [ {| name := ""; amount := "" |} ])%list.

(** [clearAll]: everything returns to its initial value. *)
Definition clearAll (initialPeriod initialYear : string) : state :=
  initialState initialPeriod initialYear.

(** What the user can do: the handlers wired to the form and to the
    report view.  The name of a row has no change handler; an amount is
    stored with its commas removed. *)
Inductive event : Type :=
| SelectPeriod (p : string)
| TypeYear (y : string)
| TypeAmount (index : nat) (text : string)
| AddCategory
| GenerateReport
| EditData
| ClearData
| TypeNotes (text : string)
| InsertPrompt (prompt : string).

Definition step (initialPeriod initialYear : string) (s : state) (e : event) : state :=
  match e with
  | SelectPeriod p =>
      {| period := p; year := year s; items := items s; notes := notes s; showReport := showReport s |}
  | TypeYear y =>
      {| period := period s; year := y; items := items s; notes := notes s; showReport := showReport s |}
  | TypeAmount index text =>
      {| period := period s; year := year s;
         items := handleChange index FieldAmount (remove_commas text) (items s);
         notes := notes s; showReport := showReport s |}
  | AddCategory =>
      {| period := period s; year := year s; items := handleAddRow (items s);
         notes := notes s; showReport := showReport s |}
  | GenerateReport =>
      {| period := period s; year := year s; items := items s; notes := notes s; showReport := true |}
  | EditData =>
      {| period := period s; year := year s; items := items s; notes := notes s; showReport := false |}
  | ClearData => clearAll initialPeriod initialYear
  | TypeNotes text =>
      {| period := period s; year := year s; items := items s; notes := text; showReport := showReport s |}
  | InsertPrompt prompt =>
      {| period := period s; year := year s; items := items s;
         notes := match prompt with
                  | EmptyString => notes s
                  | _ => match notes s with
                         | EmptyString => prompt
                         | prev => prev ++ String (ascii_of_nat 10) prompt
                         end
                  end;
         showReport := showReport s |}
  end.

(** The states a session can be in. *)
Inductive reachable (initialPeriod initialYear : string) : state -> Prop :=
| reach_initial : reachable initialPeriod initialYear (initialState initialPeriod initialYear)
| reach_step : forall s e,
    reachable initialPeriod initialYear s ->
    reachable initialPeriod initialYear (step initialPeriod initialYear s e).

(** A row the user added: one after the six reserved rows. *)
Definition user_added (index : nat) : bool := negb (index <? List.length INPUT_CATEGORIES)%nat.

(* ================================================================= *)
(** ** The colour of the classification *)

(** [classificationColor]: the style class, read back off the label. *)
Definition classificationColor (classification : string) : string :=
  if startsWith classification "Ideal" then "text-green-600"
  else if startsWith classification "Cost-burdened" then "text-yellow-600"
  else "text-red-600".

(* ================================================================= *)
(** ** Rendering of exact values, shared by both implementations *)

(** The decimal digits of a natural number; [0] is one digit. *)
Definition Z_digits (z : Z) : string :=
  NilZero.string_of_uint (N.to_uint (Z.to_N z)).

(** [z] on at least [k] digits, zeros first. *)
Fixpoint zeros (k : nat) : string :=
  match k with O => EmptyString | S k' => String "0"%char (zeros k') end.

Definition pad_digits (k : nat) (z : Z) : string :=
  let d := Z_digits z in zeros (k - String.length d) ++ d.

(** [toFixed(2)] of a rational [q >= 0] below [10^21]: the integer [n]
    nearest to [100 q], the larger one on a tie, with a point before its
    last two digits. *)
Definition fixed2 (q : Q) : string :=
  let n := Qfloor (q * (100 # 1) + (1 # 2)) in
  Z_digits (n / 100) ++ "." ++ pad_digits 2 (n mod 100).

(** A comma before every group of three digits, counted from the right. *)
Fixpoint group_from (s : string) (k : nat) : string :=
  match s with
  | EmptyString => EmptyString
  | String c r =>
      match r with
      | EmptyString => s
      | _ => match k with
             | 1%nat => String c (String comma (group_from r 3))
             | _ => String c (group_from r (k - 1))
             end
      end
  end.

Definition group3 (s : string) : string :=
  group_from s (S ((String.length s - 1) mod 3)).

(** Trailing zeros of a fraction are not printed. *)
Fixpoint strip_zeros (s : string) : string :=
  match s with
  | EmptyString => EmptyString
  | String c r =>
      match strip_zeros r with
      | EmptyString => if Ascii.eqb c "0"%char then EmptyString else String c EmptyString
      | r' => String c r'
      end
  end.

(** [new Intl.NumberFormat('en-US').format] of a decimal value [q >= 0]:
    grouped integer digits and at most three fraction digits, half rounded
    away from zero. *)
Definition en_US (q : Q) : string :=
  let n := Qfloor (q * (1000 # 1) + (1 # 2)) in
  let f := strip_zeros (pad_digits 3 (n mod 1000)) in
  group3 (Z_digits (n / 1000)) ++
  match f with EmptyString => EmptyString | _ => "." ++ f end.

(** The same in a locale that writes the point for the comma and the
    comma for the point, as de-DE does. *)
Fixpoint swap_separators (s : string) : string :=
  match s with
  | EmptyString => EmptyString
  | String c r =>
      String (if Ascii.eqb c comma then dot else if Ascii.eqb c dot then comma else c)
             (swap_separators r)
  end.

Definition de_DE (q : Q) : string := swap_separators (en_US q).

(* ================================================================= *)
(** ** The locale of the environment *)

(** [numberFormatter] is [new Intl.NumberFormat()], built without a locale:
    it prints in the default locale of the environment the page runs in,
    which the component does not choose.  The locale is therefore a
    parameter of both implementations of the numbers.  A locale says how
    a finite value is printed, given its sign and its magnitude [q >= 0],
    and what is printed for the two infinities and for [NaN]. *)
Class Locale : Type := {
  finite_text : bool -> Q -> string;
  infinite_text : bool -> string;
  nan_text : string
}.

Definition en_US_locale : Locale := {|
  finite_text := fun neg q => (if neg then "-" else "") ++ en_US q;
  infinite_text := fun neg => if neg then "-∞" else "∞";
  nan_text := "NaN"
|}.

Definition de_DE_locale : Locale := {|
  finite_text := fun neg q => (if neg then "-" else "") ++ de_DE q;
  infinite_text := fun neg => if neg then "-∞" else "∞";
  nan_text := "NaN"
|}.

(* ================================================================= *)
(** ** Exact arithmetic *)

Module Exact.

(** Rationals, kept in lowest terms, with the two infinities and [NaN];
    there is one zero. *)
Inductive xnum : Type :=
| XNaN
| XInf (neg : bool)
| XFin (q : Q).

Definition Qneg (q : Q) : bool := Qnum q <? 0.
Definition Qzero (q : Q) : bool := Qnum q =? 0.

Definition x_of_decimal (neg : bool) (m e : Z) : xnum :=
  XFin (Qred (inject_Z (if neg then - m else m) * Qpower (10 # 1) e)).

Definition x_add (a b : xnum) : xnum :=
  match a, b with
  | XNaN, _ | _, XNaN => XNaN
  | XInf s, XInf t => if Bool.eqb s t then XInf s else XNaN
  | XInf s, XFin _ | XFin _, XInf s => XInf s
  | XFin p, XFin q => XFin (Qred (p + q))
  end.

Definition x_sub (a b : xnum) : xnum :=
  match a, b with
  | XNaN, _ | _, XNaN => XNaN
  | XInf s, XInf t => if Bool.eqb s t then XNaN else XInf s
  | XInf s, XFin _ => XInf s
  | XFin _, XInf s => XInf (negb s)
  | XFin p, XFin q => XFin (Qred (p - q))
  end.

Definition x_mul (a b : xnum) : xnum :=
  match a, b with
  | XNaN, _ | _, XNaN => XNaN
  | XInf s, XInf t => XInf (xorb s t)
  | XInf s, XFin q | XFin q, XInf s => if Qzero q then XNaN else XInf (xorb s (Qneg q))
  | XFin p, XFin q => XFin (Qred (p * q))
  end.

Definition x_div (a b : xnum) : xnum :=
  match a, b with
  | XNaN, _ | _, XNaN => XNaN
  | XInf _, XInf _ => XNaN
  | XInf s, XFin q => XInf (xorb s (Qneg q))
  | XFin _, XInf _ => XFin 0
  | XFin p, XFin q =>
      if Qzero q then (if Qzero p then XNaN else XInf (Qneg p))
      else XFin (Qred (p / q))
  end.

Definition x_abs (a : xnum) : xnum :=
  match a with
  | XNaN => XNaN
  | XInf _ => XInf false
  | XFin q => XFin (Qred (Qabs q))
  end.

Definition x_leb (a b : xnum) : bool :=
  match a, b with
  | XNaN, _ | _, XNaN => false
  | XInf s, XInf t => s || negb t
  | XInf s, XFin _ => s
  | XFin _, XInf t => negb t
  | XFin p, XFin q => Qle_bool p q
  end.

Definition x_ltb (a b : xnum) : bool :=
  match a, b with
  | XNaN, _ | _, XNaN => false
  | XInf s, XInf t => s && negb t
  | XInf s, XFin _ => s
  | XFin _, XInf t => negb t
  | XFin p, XFin q => negb (Qle_bool q p)
  end.

Definition x_isNaN (a : xnum) : bool :=
  match a with XNaN => true | _ => false end.

Definition x_isZero (a : xnum) : bool :=
  match a with XFin q => Qzero q | _ => false end.

(** Exact arithmetic has no precision to run out of, so [toFixed] keeps
    the fixed notation at every magnitude. *)
Definition x_toFixed2 (a : xnum) : string :=
  match a with
  | XNaN => "NaN"
  | XInf s => if s then "-Infinity" else "Infinity"
  | XFin q => (if Qneg q then "-" else "") ++ fixed2 (Qabs q)
  end.

(** [numberFormatter.format], in the locale of the environment. *)
Definition x_format {loc : Locale} (a : xnum) : string :=
  match a with
  | XNaN => nan_text
  | XInf s => infinite_text s
  | XFin q => finite_text (Qneg q) (Qabs q)
  end.

#[export] Instance xnum_Number {loc : Locale} : Number xnum := {
  of_decimal := x_of_decimal;
  infinity := XInf;
  nan := XNaN;
  add := x_add;
  sub := x_sub;
  mul := x_mul;
  div := x_div;
  abs := x_abs;
  leb := x_leb;
  ltb := x_ltb;
  isNaN := x_isNaN;
  isZero := x_isZero;
  toFixed2 := x_toFixed2;
  format := x_format
}.

End Exact.

(* ================================================================= *)
(** ** IEEE 754 binary64: the numbers of a JavaScript engine *)

Module Binary64.

(** The double nearest to [m * 10^e] for [m > 0], ties to even.  A
    quotient is taken with more than 64 bits and one more bit that records
    whether anything was cut off; rounding such a value to 53 bits gives
    the correctly rounded result. *)
Definition nearest_double (m e : Z) : spec_float :=
  if 0 <=? e then binary_normalize prec emax (m * 10 ^ e) 0 false
  else
    let d := 10 ^ (- e) in
    let k := Z.max 0 (66 + Z.log2 d - Z.log2 m) in
    let q := (m * 2 ^ k) / d in
    let sticky := if (m * 2 ^ k) mod d =? 0 then 0 else 1 in
    binary_normalize prec emax (2 * q + sticky) (- k - 1) false.

Definition f_of_decimal (neg : bool) (m e : Z) : float :=
  let x := if m <=? 0 then PrimFloat.zero else SF2Prim (nearest_double m e) in
  if neg then PrimFloat.opp x else x.

Definition f_infinity (neg : bool) : float :=
  if neg then PrimFloat.neg_infinity else PrimFloat.infinity.

(** The exact value of a finite double with mantissa [m] and exponent [e]. *)
Definition exact_value (m : positive) (e : Z) : Q :=
  Qred (inject_Z (Zpos m) * Qpower (2 # 1) e).

(** The [n] with [10^(n-1) <= q < 10^n], for [q > 0]. *)
Definition magnitude (q : Q) : Z :=
  let est := (Z.log2 (Qnum q) - Z.log2 (Zpos (Qden q))) * 30103 / 100000 in
  let fits n := Qle_bool (Qpower (10 # 1) (n - 1)) q && negb (Qle_bool (Qpower (10 # 1) n) q) in
  match List.find fits [est - 1; est; est + 1; est + 2] with
  | Some n => n
  | None => est
  end.

(** The candidates for the digits of [x] on [k] places: the integers [s]
    of [k] digits next to [q / 10^(n-k)] whose numeral [s * 10^(n-k)]
    reads back as [x], each with its distance to [q]. *)
Definition candidates (x : float) (q : Q) (k n : Z) : list (Z * Z * Q) :=
  let lo := Qfloor (q / Qpower (10 # 1) (n - k)) in
  let ok s :=
    (10 ^ (k - 1) <=? s) && (s <? 10 ^ k) && PrimFloat.eqb (f_of_decimal false s (n - k)) x in
  map (fun s => (s, n, Qabs (inject_Z s * Qpower (10 # 1) (n - k) - q)))
      (filter ok [lo; lo + 1]).

(** Of the candidates the one nearest to [q], the even one on a tie. *)
Definition closest (cs : list (Z * Z * Q)) : option (Z * Z * Q) :=
  fold_left
    (fun best c =>
       let '(s, n, d) := c in
       match best with
       | None => Some (s, n, d)
       | Some (s0, n0, d0) =>
           if negb (Qle_bool d0 d) || (Qeq_bool d d0 && Z.even s && negb (Z.even s0))
           then Some (s, n, d) else best
       end)
    cs None.

(** The shortest digits of a double [x > 0] of exact value [q]: the
    integer [s] of [k] digits and the exponent [n] with [s * 10^(n-k)]
    reading back as [x] and [k] as small as possible. *)
Fixpoint shortest_from (fuel : nat) (x : float) (q : Q) (k : Z) : Z * Z * Z :=
  let n0 := magnitude q in
  match closest (candidates x q k n0 ++ candidates x q k (n0 + 1)) with
  | Some (s, n, _) => (s, k, n)
  | None =>
      match fuel with
      | O => (0, k, n0)
      | S fuel' => shortest_from fuel' x q (k + 1)
      end
  end.

Definition shortest (x : float) (q : Q) : Z * Z * Z := shortest_from 17 x q 1.

(** Number::toString of a double [x > 0]. *)
Definition toString_pos (x : float) (q : Q) : string :=
  let '(s, k, n) := shortest x q in
  let ds := Z_digits s in
  let expo := (if n - 1 <? 0 then "-" else "+") ++ Z_digits (Z.abs (n - 1)) in
  if (k <=? n) && (n <=? 21) then ds ++ zeros (Z.to_nat (n - k))
  else if (0 <? n) && (n <=? 21) then
    String.substring 0 (Z.to_nat n) ds ++ "." ++ String.substring (Z.to_nat n) (Z.to_nat (k - n)) ds
  else if (-6 <? n) && (n <=? 0) then "0." ++ zeros (Z.to_nat (- n)) ++ ds
  else if k =? 1 then ds ++ "e" ++ expo
  else String.substring 0 1 ds ++ "." ++ String.substring 1 (Z.to_nat (k - 1)) ds ++ "e" ++ expo.

(** [x.toFixed(2)]: fixed notation below [10^21] and Number::toString
    from there on. *)
Definition f_toFixed2 (x : float) : string :=
  match Prim2SF x with
  | S754_nan => "NaN"
  | S754_infinity s => if s then "-Infinity" else "Infinity"
  | S754_zero _ => "0.00"
  | S754_finite s m e =>
      let q := exact_value m e in
      (if s then "-" else "") ++
      (if Qle_bool (inject_Z (10 ^ 21)) q then toString_pos (PrimFloat.abs x) q else fixed2 q)
  end.

(** [numberFormatter.format(x)], in the locale of the environment: the
    formatter is given the value of the shortest digits of [x]. *)
Definition f_format {loc : Locale} (x : float) : string :=
  match Prim2SF x with
  | S754_nan => nan_text
  | S754_infinity s => infinite_text s
  | S754_zero s => finite_text s 0
  | S754_finite sg m e =>
      let '(s, k, n) := shortest (PrimFloat.abs x) (exact_value m e) in
      finite_text sg (inject_Z s * Qpower (10 # 1) (n - k))
  end.

#[export] Instance float_Number {loc : Locale} : Number float := {
  of_decimal := f_of_decimal;
  infinity := f_infinity;
  nan := PrimFloat.nan;
  add := PrimFloat.add;
  sub := PrimFloat.sub;
  mul := PrimFloat.mul;
  div := PrimFloat.div;
  abs := PrimFloat.abs;
  leb := PrimFloat.leb;
  ltb := PrimFloat.ltb;
  isNaN := PrimFloat.is_nan;
  isZero := PrimFloat.is_zero;
  toFixed2 := f_toFixed2;
  format := f_format
}.

End Binary64.

(* ================================================================= *)
(** ** Example inputs *)

(** The items of the specification's worked example. *)
Definition spec_items : list item :=
  [ {| name := "Earnings"; amount := "1000" |};
    {| name := "Rent/Interest Paid"; amount := "300" |};
    {| name := "Insurance Paid"; amount := "50" |};
    {| name := "Maintenance"; amount := "20" |};
    {| name := "Rates (Taxes)"; amount := "30" |};
    {| name := "Principal Paid"; amount := "100" |} ].

(** The state after a sequence of events, from the initial state. *)
Definition run (initialPeriod initialYear : string) (events : list event) : state :=
  fold_left (step initialPeriod initialYear) events (initialState initialPeriod initialYear).

(** A session: the amounts of the example are typed in, a category is
    added and given an amount, and the report is generated. *)
Definition example_session : list event :=
  [ TypeAmount 0 "1,000"; TypeAmount 1 "300"; TypeAmount 2 "50"; TypeAmount 3 "20";
    TypeAmount 4 "30"; TypeAmount 5 "100"; AddCategory; TypeAmount 6 "1,500";
    GenerateReport ].

Definition added_row : item := {| name := ""; amount := "1500" |}.

(** The items without earnings: rent of 520 and nothing else. *)
Definition items_without_income : list item :=
  [ {| name := "Earnings"; amount := "" |};
    {| name := "Rent/Interest Paid"; amount := "520" |};
    {| name := "Insurance Paid"; amount := "" |};
    {| name := "Maintenance"; amount := "" |};
    {| name := "Rates (Taxes)"; amount := "" |};
    {| name := "Principal Paid"; amount := "" |} ].

(** Amounts that are the word Infinity, as pasted into the fields for the
    earnings and the rent. *)
Definition items_with_infinite_amounts : list item :=
  [ {| name := "Earnings"; amount := "Infinity" |};
    {| name := "Rent/Interest Paid"; amount := "Infinity" |};
    {| name := "Insurance Paid"; amount := "" |};
    {| name := "Maintenance"; amount := "" |};
    {| name := "Rates (Taxes)"; amount := "" |};
    {| name := "Principal Paid"; amount := "" |} ].

(** Earnings of 1000 with an infinite rent and an insurance of minus
    infinity. *)
Definition items_with_opposite_infinities : list item :=
  [ {| name := "Earnings"; amount := "1000" |};
    {| name := "Rent/Interest Paid"; amount := "Infinity" |};
    {| name := "Insurance Paid"; amount := "-Infinity" |};
    {| name := "Maintenance"; amount := "" |};
    {| name := "Rates (Taxes)"; amount := "" |};
    {| name := "Principal Paid"; amount := "" |} ].

(* ================================================================= *)
(** ** The specification's words, to compare the code with *)

Section Specification.
Context {num : Type} {N : Number num}.
Open Scope js_scope.

(** The four interior reserved categories. *)
Definition interior (n : string) : bool :=
  String.eqb n "Rent/Interest Paid" || String.eqb n "Insurance Paid"
  || String.eqb n "Maintenance" || String.eqb n "Rates (Taxes)".

(** computeNonPrincipal: the values of the entries of an interior
    category, added in the order of the list to a total that starts at 0;
    every other entry leaves the total as it is. *)
Fixpoint sum_interior (total : num) (parsed : list (entry num)) : num :=
  match parsed with
  | [] => total
  | n :: rest => sum_interior (if interior (ename n) then total + value n else total) rest
  end.

Definition computeNonPrincipal (parsed : list (entry num)) : num :=
  sum_interior (int 0) parsed.

(** The value of the item named [key], taken as 0 when there is none. *)
Fixpoint item_value (key : string) (parsed : list (entry num)) : num :=
  match parsed with
  | [] => int 0
  | n :: rest => if String.eqb (ename n) key then value n else item_value key rest
  end.

(** An item of that name is present. *)
Definition present (key : string) (items : list item) : bool :=
  existsb (fun it => String.eqb (name it) key) items.

(** The numbers with another division, everything else as it was. *)
Definition with_div (d : num -> num -> num) : Number num :=
  {| of_decimal := of_decimal; infinity := infinity; nan := nan;
     add := add; sub := sub; mul := mul; div := d; abs := abs;
     leb := leb; ltb := ltb; isNaN := isNaN; isZero := isZero;
     toFixed2 := toFixed2; format := format |}.

(** The numbers whose division by a zero yields [z a b], whatever [z]
    is, and is the division of [N] on every other divisor. *)
Definition division_by_zero_is (z : num -> num -> num) : Number num :=
  with_div (fun a b => if isZero b then z a b else a / b).

End Specification.

(* ================================================================= *)
(** ** Notions to state properties of a session with *)

(** The text holds a comma. *)
Fixpoint has_comma (s : string) : bool :=
  match s with
  | EmptyString => false
  | String c r => Ascii.eqb c comma || has_comma r
  end.

(** How many rows "Add Category" has added since the data was last
    cleared, after the events. *)
Definition rows_added (events : list event) : nat :=
  fold_left (fun k e => match e with
                        | AddCategory => S k
                        | ClearData => 0%nat
                        | _ => k
                        end) events 0%nat.

(** The six reserved rows with the given amounts. *)
Definition reserved_rows (a0 a1 a2 a3 a4 a5 : string) : list item :=
  [ {| name := "Earnings"; amount := a0 |};
    {| name := "Rent/Interest Paid"; amount := a1 |};
    {| name := "Insurance Paid"; amount := a2 |};
    {| name := "Maintenance"; amount := a3 |};
    {| name := "Rates (Taxes)"; amount := a4 |};
    {| name := "Principal Paid"; amount := a5 |} ].

(** The text is made of decimal digits only. *)
Fixpoint all_digits (s : string) : bool :=
  match s with
  | EmptyString => true
  | String c r => is_digit c && all_digits r
  end.

(** A text that cannot continue the fraction of a numeral: it is empty or
    starts with a character that is neither a digit nor an exponent
    letter. *)
Definition ends_fraction (s : string) : bool :=
  match s with
  | EmptyString => true
  | String c _ => negb (is_digit c || Ascii.eqb c "e" || Ascii.eqb c "E")
  end.

(** A text that cannot continue a numeral of digits: it is empty or starts
    with a character that is neither a digit, nor an exponent letter, nor
    the point. *)
Definition ends_integer (s : string) : bool :=
  match s with
  | EmptyString => true
  | String c _ => negb (is_digit c || Ascii.eqb c "e" || Ascii.eqb c "E" || Ascii.eqb c dot)
  end.

(** The number a text of decimal digits spells, read after the digits
    already in [acc]. *)
Fixpoint decimal_value (s : string) (acc : Z) : Z :=
  match s with
  | EmptyString => acc
  | String c r => decimal_value r (10 * acc + digit_value c)
  end.

(** A text of one-byte white space. *)
Fixpoint blank (s : string) : bool :=
  match s with
  | EmptyString => true
  | String c r => ws1 c && blank r
  end.

(** [pad_digits 2 b] is two digits that spell [b]. *)
Definition two_digits_spell (b : Z) : bool :=
  match pad_digits 2 b with
  | String c1 (String c2 EmptyString) =>
      is_digit c1 && is_digit c2 && (10 * digit_value c1 + digit_value c2 =? b)
      && negb (String.eqb (pad_digits 2 b) "00" && negb (b =? 0))
  | _ => false
  end.

(* ================================================================= *)
(** ** What the proofs use of the numbers *)

(** Comparison is that of an order on the numbers other than [NaN], a
    comparison with [NaN] is false, and the integer literals of the source
    that matter are what they say: [0] is a zero, [30 <= 50], and the week
    counts 13, 26 and 52 are not zero. *)
Class NumberLaws (num : Type) {N : Number num} : Prop := {
  leb_defined : forall a b : num, leb a b = true -> isNaN a = false /\ isNaN b = false;
  ltb_leb : forall a b : num, ltb a b = true -> leb b a = false;
  leb_ltb : forall a b : num, isNaN a = false -> isNaN b = false -> leb a b = false -> ltb b a = true;
  leb_trans : forall a b c : num, leb a b = true -> leb b c = true -> leb a c = true;
  nan_isNaN : isNaN (nan : num) = true;
  zero_isZero : isZero (int 0 : num) = true;
  zero_defined : isNaN (int 0 : num) = false;
  thresholds : leb (int 30 : num) (int 50) = true;
  weeks_nonzero : isZero (int 13 : num) = false /\ isZero (int 26 : num) = false
                  /\ isZero (int 52 : num) = false
}.

Module ExactLaws.
Import Exact.

Lemma Qle_bool_false (p q : Q) : Qle_bool p q = false -> Qle_bool q p = true.
Proof.
  intros H. apply Qle_bool_iff. destruct (Qlt_le_dec q p) as [Hlt | Hle].
  - apply Qlt_le_weak. exact Hlt.
  - apply Qle_bool_iff in Hle. congruence.
Qed.

#[export] Instance xnum_laws {loc : Locale} : NumberLaws xnum.
Proof.
  constructor.
  - intros [| s | p] [| t | q]; simpl; intros H; try discriminate; auto.
  - intros [| s | p] [| t | q]; simpl; intros H; try discriminate;
      try (destruct s; try destruct t; simpl in *; congruence).
    + destruct t; simpl in *; congruence.
    + now apply negb_true_iff in H.
  - intros [| s | p] [| t | q]; simpl; intros Ha Hb H; try discriminate;
      try (destruct s; try destruct t; simpl in *; congruence).
    + destruct t; simpl in *; congruence.
    + rewrite H. reflexivity.
  - intros [| s | p] [| t | q] [| u | r]; simpl; intros H1 H2; try discriminate;
      try (destruct s; try destruct t; try destruct u; simpl in *; congruence).
    + destruct t; try destruct u; simpl in *; congruence.
    + destruct t; simpl in *; congruence.
    + destruct u; simpl in *; congruence.
    + apply Qle_bool_iff. apply Qle_bool_iff in H1, H2. eapply Qle_trans; eassumption.
  - reflexivity.
  - reflexivity.
  - reflexivity.
  - reflexivity.
  - repeat split; reflexivity.
Qed.

End ExactLaws.

Module Binary64Laws.
Import Binary64.

(** A double is [NaN] exactly when its specification is. *)
Lemma is_nan_spec (x : float) : PrimFloat.is_nan x = true <-> Prim2SF x = S754_nan.
Proof.
  unfold Prim2SF. destruct (PrimFloat.is_nan x); split; intros H; try easy.
  destruct (PrimFloat.is_zero x); [discriminate |].
  destruct (PrimFloat.is_infinity x); [discriminate |].
  destruct (FloatOps.Z.frexp x) as [r ex].
  destruct (shr_fexp prec emax _ _ _) as [shr e'].
  destruct (shr_m shr); discriminate.
Qed.

Lemma not_nan_spec (x : float) : Prim2SF x <> S754_nan -> PrimFloat.is_nan x = false.
Proof.
  intros H. destruct (PrimFloat.is_nan x) eqn:E; [| reflexivity].
  apply is_nan_spec in E. contradiction.
Qed.

(** The comparison of specifications, as an order. *)
Lemma SFcompare_defined (x y : spec_float) (c : comparison) :
  SFcompare x y = Some c -> x <> S754_nan /\ y <> S754_nan.
Proof.
  destruct x, y; simpl; intros H; split; congruence.
Qed.

Ltac compare_cases :=
  repeat match goal with
         | |- context [Z.compare ?a ?b] => destruct (Z.compare_spec a b)
         | H : context [Z.compare ?a ?b] |- _ => destruct (Z.compare_spec a b)
         | |- context [Pos.compare_cont Eq ?a ?b] =>
             change (Pos.compare_cont Eq a b) with (Pos.compare a b);
             destruct (Pos.compare_spec a b)
         | H : context [Pos.compare_cont Eq ?a ?b] |- _ =>
             change (Pos.compare_cont Eq a b) with (Pos.compare a b) in H;
             destruct (Pos.compare_spec a b)
         end.

Lemma SFltb_SFleb (x y : spec_float) : SFltb x y = true -> SFleb y x = false.
Proof.
  unfold SFltb, SFleb.
  destruct x as [s | s | | s m e], y as [t | t | | t n f]; simpl; try discriminate;
    try (destruct s; try destruct t; simpl; congruence).
  destruct s, t; simpl; try congruence; compare_cases; simpl; subst; try congruence; lia.
Qed.

Lemma SFleb_SFltb (x y : spec_float) :
  x <> S754_nan -> y <> S754_nan -> SFleb x y = false -> SFltb y x = true.
Proof.
  unfold SFltb, SFleb.
  destruct x as [s | s | | s m e], y as [t | t | | t n f]; simpl; try congruence;
    try (destruct s; try destruct t; simpl; congruence).
  intros _ _.
  destruct s, t; simpl; try congruence; compare_cases; simpl; subst; try congruence; lia.
Qed.

Lemma SFleb_trans (x y z : spec_float) :
  SFleb x y = true -> SFleb y z = true -> SFleb x z = true.
Proof.
  unfold SFleb.
  destruct x as [s | s | | s m e], y as [t | t | | t n f], z as [u | u | | u p g];
    simpl; try discriminate; try reflexivity;
    try (destruct s; simpl; try discriminate; try reflexivity);
    try (destruct t; simpl; try discriminate; try reflexivity);
    try (destruct u; simpl; try discriminate; try reflexivity).
  all: compare_cases; simpl; subst; try discriminate; try reflexivity; try lia.
Qed.

#[export] Instance float_laws {loc : Locale} : NumberLaws float.
Proof.
  constructor.
  - intros a b. simpl. rewrite leb_spec. unfold SFleb.
    destruct (SFcompare (Prim2SF a) (Prim2SF b)) as [c |] eqn:E; [| discriminate].
    intros _. apply SFcompare_defined in E. destruct E as [Ha Hb].
    split; apply not_nan_spec; assumption.
  - intros a b. simpl. rewrite ltb_spec, leb_spec. apply SFltb_SFleb.
  - intros a b Ha Hb. simpl in *. rewrite ltb_spec, leb_spec.
    apply SFleb_SFltb; intros E; apply is_nan_spec in E; congruence.
  - intros a b c. simpl. rewrite !leb_spec. apply SFleb_trans.
  - reflexivity.
  - reflexivity.
  - reflexivity.
  - reflexivity.
  - repeat split; reflexivity.
Qed.

End Binary64Laws.


Import Exact Binary64 ExactLaws Binary64Laws.

(* ================================================================= *)
(** ** The item list of a session *)

Lemma handleChange_amount_names (index : nat) (v : string) (prev : list item) :
  map name (handleChange index FieldAmount v prev) = map name prev.
Proof.
  unfold handleChange. generalize 0%nat as i.
  induction prev as [| it rest IH]; intros i; simpl; [reflexivity |].
  rewrite IH. destruct (Nat.eqb i index); reflexivity.
Qed.

(** Whatever the user does, the list is the six reserved rows followed by
    rows without a name. *)
Lemma reachable_names (ip iy : string) (s : state) :
  reachable ip iy s ->
  exists k : nat, map name (items s) = (INPUT_CATEGORIES ++ repeat EmptyString k)%list.
Proof.
  induction 1 as [| s e _ [k IH]].
  - exists 0%nat. reflexivity.
  - destruct e; cbn [step items]; try (exists k; exact IH).
    + exists k. rewrite handleChange_amount_names. exact IH.
    + exists (S k). unfold handleAddRow.
      rewrite map_app, IH, <- app_assoc. cbn [map name].
      rewrite <- repeat_cons. reflexivity.
    + exists 0%nat. reflexivity.
Qed.

Lemma user_added_unnamed (ip iy : string) (s : state) (i : nat) (it : item) :
  reachable ip iy s -> nth_error (items s) i = Some it -> user_added i = true ->
  name it = EmptyString.
Proof.
  intros Hr Hi Hu. destruct (reachable_names ip iy s Hr) as [k Hk].
  assert (Hn : nth_error (map name (items s)) i = Some (name it))
    by (rewrite nth_error_map, Hi; reflexivity).
  rewrite Hk in Hn. unfold user_added in Hu.
  apply negb_true_iff, Nat.ltb_ge in Hu.
  rewrite nth_error_app2 in Hn by exact Hu.
  apply nth_error_In, repeat_spec in Hn. exact Hn.
Qed.

(* ================================================================= *)
(** ** The totals *)

Section Totals.
Context {num : Type} {N : Number num}.
Open Scope js_scope.

Lemma slice_categories :
  slice 1 5 INPUT_CATEGORIES
  = ["Rent/Interest Paid"; "Insurance Paid"; "Maintenance"; "Rates (Taxes)"].
Proof. reflexivity. Qed.

Lemma includes_interior (n : string) :
  includes (slice 1 5 INPUT_CATEGORIES) n = interior n.
Proof.
  rewrite slice_categories. unfold includes, interior. simpl.
  rewrite orb_false_r, !orb_assoc. reflexivity.
Qed.

Lemma fold_filter_interior (parsed : list (entry num)) (total : num) :
  fold_left (fun sum n => sum + value n)
    (filter (fun n => includes (slice 1 5 INPUT_CATEGORIES) (ename n)) parsed) total
  = sum_interior total parsed.
Proof.
  revert total. induction parsed as [| n rest IH]; intros total; [reflexivity |].
  cbn [filter sum_interior]. rewrite includes_interior.
  destruct (interior (ename n)); cbn [fold_left]; apply IH.
Qed.

Lemma nonPrincipal_skip (before after : list (entry num)) (n : entry num) :
  interior (ename n) = false ->
  nonPrincipal (before ++ n :: after) = nonPrincipal (before ++ after).
Proof.
  intros H. unfold nonPrincipal. rewrite !filter_app. cbn [filter].
  rewrite includes_interior, H. reflexivity.
Qed.

Lemma parsed_app (a b : list item) : parsed (a ++ b) = (parsed a ++ parsed b)%list.
Proof. apply map_app. Qed.

End Totals.

(** C1. The non-principal housing total of the derivation is the sum of the
    values of exactly the entries named "Rent/Interest Paid", "Insurance
    Paid", "Maintenance" and "Rates (Taxes)", added in list order from 0.
    An entry of any other name, "Earnings" and "Principal Paid" among them,
    can be taken out of the list without changing the total; and in every
    state of a session the rows the user added carry no such name, so they
    contribute nothing. *)
Theorem nonPrincipal_is_sum_of_interior_categories
  {num : Type} {N : Number num} :
  (forall parsed : list (entry num), nonPrincipal parsed = computeNonPrincipal parsed)
  /\ (forall n : string,
        interior n = true
        <-> In n ["Rent/Interest Paid"; "Insurance Paid"; "Maintenance"; "Rates (Taxes)"])
  /\ (forall (before after : list (entry num)) (n : entry num),
        interior (ename n) = false ->
        nonPrincipal (before ++ n :: after) = nonPrincipal (before ++ after))
  /\ interior "Earnings" = false
  /\ interior "Principal Paid" = false
  /\ (forall (ip iy : string) (s : state) (before after : list item) (it : item),
        reachable ip iy s ->
        items s = (before ++ it :: after)%list ->
        user_added (List.length before) = true ->
        interior (name it) = false
        /\ nonPrincipal (parsed (num := num) (items s))
           = nonPrincipal (parsed (num := num) (before ++ after))).
Proof.
  split; [| split; [| split; [| split; [| split]]]].
  - intros parsed. unfold nonPrincipal, computeNonPrincipal. apply fold_filter_interior.
  - intros n. unfold interior. simpl. rewrite !orb_true_iff, !String.eqb_eq.
    intuition congruence.
  - intros before after n. apply nonPrincipal_skip.
  - reflexivity.
  - reflexivity.
  - intros ip iy s before after it Hr Hs Hu.
    assert (Hn : name it = EmptyString).
    { apply (user_added_unnamed ip iy s (List.length before) it Hr); [| exact Hu].
      rewrite Hs, nth_error_app2 by apply Nat.le_refl.
      rewrite Nat.sub_diag. reflexivity. }
    assert (Hi : interior (name it) = false) by (rewrite Hn; reflexivity).
    split; [exact Hi |].
    rewrite Hs, !parsed_app. simpl. apply nonPrincipal_skip. exact Hi.
Qed.

(* ================================================================= *)
(** ** The report rows and the narrative *)

Section Rows.
Context {num : Type} {N : Number num}.
Open Scope js_scope.

Lemma or_else_zero_twice (x : num) : (x ||| int 0) ||| int 0 = x ||| int 0.
Proof.
  unfold or_else. destruct (truthy x) eqn:E.
  - rewrite E. reflexivity.
  - destruct (truthy (int 0)); reflexivity.
Qed.

(** Looking an entry up in [parsed] needs no second default: its values
    went through [|| 0] already. *)
Lemma value_of_parsed (key : string) (items : list item) :
  value_of key (parsed items) = item_value key (parsed items).
Proof.
  unfold value_of, find_first.
  induction items as [| it rest IH]; [reflexivity |].
  cbn [parsed map List.find item_value ename value].
  destruct (String.eqb (name it) key).
  - unfold parseAmount. apply or_else_zero_twice.
  - exact IH.
Qed.

Lemma find_parsed_present (key : string) (items : list item) :
  match find_first (fun d : entry num => String.eqb (ename d) key) (parsed items) with
  | Some _ => present key items = true
  | None => present key items = false
  end.
Proof.
  unfold find_first, present.
  induction items as [| it rest IH]; [reflexivity |].
  cbn [parsed map List.find existsb ename].
  destruct (String.eqb (name it) key); [reflexivity | exact IH].
Qed.

Lemma templates_length (period : string) (items : list item)
    (income nonPrincipal pctIncome weeklyRent affordableWeekly : num) (weeks : Z) :
  List.length (templates period (parsed items) income nonPrincipal pctIncome
                 weeklyRent affordableWeekly weeks)
  = if present "Principal Paid" items then 4%nat else 3%nat.
Proof.
  unfold templates, push.
  pose proof (find_parsed_present "Principal Paid" items) as H.
  destruct (find_first _ (parsed items)); rewrite H; reflexivity.
Qed.

Lemma tableRow_name (income affordableWeekly : num) (it : entry num) :
  rname (tableRow income affordableWeekly it) = ename it.
Proof.
  unfold tableRow.
  destruct (String.eqb (ename it) "Estimated Weekly Rent"); [reflexivity |].
  destruct (includes _ (ename it)); reflexivity.
Qed.

Lemma tableRow_value (income affordableWeekly : num) (it : entry num) :
  rvalue (tableRow income affordableWeekly it) = value it.
Proof.
  unfold tableRow.
  destruct (String.eqb (ename it) "Estimated Weekly Rent"); [reflexivity |].
  destruct (includes _ (ename it)); reflexivity.
Qed.

Lemma tableData_names (final : list (entry num)) (income affordableWeekly : num) :
  map rname (tableData final income affordableWeekly) = map ename final.
Proof.
  unfold tableData. rewrite map_map. apply map_ext. apply tableRow_name.
Qed.

Lemma tableData_values (final : list (entry num)) (income affordableWeekly : num) :
  map rvalue (tableData final income affordableWeekly) = map value final.
Proof.
  unfold tableData. rewrite map_map. apply map_ext. apply tableRow_value.
Qed.

Lemma parsed_names (items : list item) : map ename (parsed (num := num) items) = map name items.
Proof. unfold parsed. rewrite map_map. reflexivity. Qed.

End Rows.

(** C6. The narrative of the derivation has four lines when an item named
    "Principal Paid" is present in the items and three lines when none is.
    Presence is all that counts: the amount of that item does not matter,
    and since the reserved row is part of every state of a session, the
    narrative of a session always has four lines. *)
Theorem narrative_line_count {num : Type} {N : Number num} :
  (forall (items : list item) (period : string),
     List.length (r_templates (derive (num := num) items period))
     = if present "Principal Paid" items then 4%nat else 3%nat)
  /\ (forall (before after : list item) (amount period : string),
        List.length (r_templates (derive (num := num)
          (before ++ {| name := "Principal Paid"; amount := amount |} :: after) period)) = 4%nat)
  /\ (forall (ip iy : string) (s : state),
        reachable ip iy s ->
        List.length (r_templates (derive (num := num) (items s) (period s))) = 4%nat).
Proof.
  assert (H : forall (items : list item) (period : string),
             List.length (r_templates (derive (num := num) items period))
             = if present "Principal Paid" items then 4%nat else 3%nat).
  { intros items period. unfold derive. cbn [r_templates]. apply templates_length. }
  split; [exact H | split].
  - intros before after amount period. rewrite H. unfold present.
    rewrite existsb_app. cbn [existsb name]. rewrite String.eqb_refl, orb_true_r.
    reflexivity.
  - intros ip iy s Hr. rewrite H.
    destruct (reachable_names ip iy s Hr) as [k Hk].
    replace (present "Principal Paid" (items s))
      with (existsb (String.eqb "Principal Paid") (map name (items s))).
    + rewrite Hk. reflexivity.
    + unfold present. generalize (items s) as l.
      induction l as [| it rest IH]; [reflexivity |].
      cbn [map existsb]. rewrite IH, (String.eqb_sym (name it)). reflexivity.
Qed.

(** C8. The rows of the report are the parsed items in their order, followed
    by "Total Non-Principal Housing Expense", "Total Mortgage Outlay",
    "Estimated Weekly Rent" and "Affordable Weekly Rent" in that order, and
    a row keeps the name and the value of its entry.  The value of "Total
    Mortgage Outlay" is the value of the item named "Rent/Interest Paid"
    plus the value of the item named "Principal Paid", each 0 when there
    is no such item. *)
Theorem report_rows_in_fixed_order {num : Type} {N : Number num}
    (items : list item) (period : string) :
  let r := derive (num := num) items period in
  r_finalItems r
  = (parsed items ++
     [ {| ename := "Total Non-Principal Housing Expense"; value := nonPrincipal (parsed items) |};
       {| ename := "Total Mortgage Outlay";
          value := add (item_value "Rent/Interest Paid" (parsed items))
                       (item_value "Principal Paid" (parsed items)) |};
       {| ename := "Estimated Weekly Rent"; value := r_weeklyRent r |};
       {| ename := "Affordable Weekly Rent"; value := r_affordableWeekly r |} ])%list
  /\ map rname (r_tableData r)
     = (map name items ++
        ["Total Non-Principal Housing Expense"; "Total Mortgage Outlay";
         "Estimated Weekly Rent"; "Affordable Weekly Rent"])%list
  /\ map rvalue (r_tableData r) = map value (r_finalItems r)
  /\ List.length (r_tableData r) = (List.length items + 4)%nat.
Proof.
  intros r.
  assert (Hf : r_finalItems r
    = (parsed items ++
     [ {| ename := "Total Non-Principal Housing Expense"; value := nonPrincipal (parsed items) |};
       {| ename := "Total Mortgage Outlay";
          value := add (item_value "Rent/Interest Paid" (parsed items))
                       (item_value "Principal Paid" (parsed items)) |};
       {| ename := "Estimated Weekly Rent"; value := r_weeklyRent r |};
       {| ename := "Affordable Weekly Rent"; value := r_affordableWeekly r |} ])%list).
  { subst r. unfold derive. cbn [r_finalItems r_weeklyRent r_affordableWeekly].
    unfold finalItems. rewrite !value_of_parsed, <- app_assoc. reflexivity. }
  assert (Hn : map rname (r_tableData r) = map ename (r_finalItems r)).
  { subst r. unfold derive. cbn [r_tableData r_finalItems]. apply tableData_names. }
  split; [exact Hf | split; [| split]].
  - rewrite Hn, Hf, map_app, parsed_names. reflexivity.
  - subst r. unfold derive. cbn [r_tableData r_finalItems]. apply tableData_values.
  - rewrite <- (length_map rname), Hn, Hf, length_map, length_app.
    unfold parsed. rewrite length_map. reflexivity.
Qed.

(* ================================================================= *)
(** ** The percent column and the chart *)

Section Percent.
Context {num : Type} {N : Number num}.
Open Scope js_scope.

Lemma truthy_not_zero (x : num) : truthy x = true -> isZero x = false.
Proof.
  unfold truthy. intros H. apply negb_true_iff, orb_false_iff in H. apply H.
Qed.

Lemma truthy_defined (x : num) : truthy x = true -> isNaN x = false.
Proof.
  unfold truthy. intros H. apply negb_true_iff, orb_false_iff in H. apply H.
Qed.

Lemma zero_falsy (x : num) : isZero x = true -> truthy x = false.
Proof. unfold truthy. intros H. rewrite H. reflexivity. Qed.

Lemma tableRow_percent_reserved (income affordableWeekly : num) (it : entry num) :
  ename it = "Earnings" \/ ename it = "Affordable Weekly Rent" ->
  percent (tableRow income affordableWeekly it) = "".
Proof.
  unfold tableRow. intros [H | H]; rewrite H; reflexivity.
Qed.

Lemma tableRow_percent_no_income (income affordableWeekly : num) (it : entry num) :
  truthy income = false -> ename it <> "Estimated Weekly Rent" ->
  percent (tableRow income affordableWeekly it) = "".
Proof.
  unfold tableRow. intros Hi Hn.
  destruct (String.eqb_spec (ename it) "Estimated Weekly Rent") as [E | _]; [contradiction |].
  destruct (includes _ (ename it)); [reflexivity |].
  cbn [percent]. rewrite Hi. reflexivity.
Qed.

Lemma In_tableData (final : list (entry num)) (income affordableWeekly : num) (d : row num) :
  In d (tableData final income affordableWeekly) ->
  exists it, In it final /\ d = tableRow income affordableWeekly it.
Proof.
  unfold tableData. rewrite in_map_iff. intros [it [E H]]. exists it. split; [exact H | now symmetry].
Qed.

(** The text in the percent field of a row named "Estimated Weekly Rent". *)
Lemma tableRow_percent_weekly (income affordableWeekly : num) (it : entry num) :
  ename it = "Estimated Weekly Rent" ->
  percent (tableRow income affordableWeekly it)
  = if value it - affordableWeekly >? int 0
    then "Overspending by $" ++ formatAmount (value it - affordableWeekly)
    else "Under by $" ++ formatAmount (abs (value it - affordableWeekly)).
Proof.
  unfold tableRow. intros H. rewrite H. reflexivity.
Qed.

Lemma weekly_row_in_table (items : list item) (period : string) :
  exists w : row num,
    In w (r_tableData (derive items period)) /\ rname w = "Estimated Weekly Rent".
Proof.
  unfold derive. cbn [r_tableData].
  set (inc := income (parsed items)).
  set (wr := weeklyRent (nonPrincipal (parsed items)) (weeks period)).
  set (aw := affordableWeekly inc (weeks period)).
  exists (tableRow inc aw {| ename := "Estimated Weekly Rent"; value := wr |}).
  split; [| apply tableRow_name].
  unfold tableData, finalItems. apply in_map, in_or_app. right. left. reflexivity.
Qed.

End Percent.

(** C4, as amended.  In the report table the percent field of every row
    named "Earnings" or "Affordable Weekly Rent" is the empty string, for
    every input; and when income is 0 the percent field of every row other
    than "Estimated Weekly Rent" is the empty string as well.  The row
    "Estimated Weekly Rent", which every table has, carries its text
    whatever the income is: "Overspending by $" and the formatted
    difference of the row's value and the affordable weekly rent when that
    difference is above 0, "Under by $" and the formatted absolute
    difference otherwise; so its percent field is never empty. *)
Theorem percent_empty_for_reserved_rows_and_without_income
    {num : Type} {N : Number num}
    (items : list item) (period : string) (d : row num) :
  In d (r_tableData (derive items period)) ->
  (rname d = "Earnings" \/ rname d = "Affordable Weekly Rent" -> percent d = "")
  /\ (isZero (r_income (derive items period)) = true ->
      rname d <> "Estimated Weekly Rent" -> percent d = "")
  /\ (rname d = "Estimated Weekly Rent" ->
      let diff := sub (rvalue d) (r_affordableWeekly (derive items period)) in
      percent d = (if ltb (int 0) diff then "Overspending by $" ++ formatAmount diff
                   else "Under by $" ++ formatAmount (abs diff))
      /\ percent d <> "")
  /\ (exists w : row num,
        In w (r_tableData (derive items period)) /\ rname w = "Estimated Weekly Rent").
Proof.
  intros H. split; [| split; [| split]]; [| | | apply weekly_row_in_table];
    revert H; unfold derive; cbn [r_tableData r_income r_affordableWeekly]; intros H;
    apply In_tableData in H; destruct H as [it [_ E]]; subst d;
    rewrite tableRow_name.
  - apply tableRow_percent_reserved.
  - intros Hz Hn. apply tableRow_percent_no_income; [| exact Hn].
    apply zero_falsy. exact Hz.
  - intros Hw. cbv zeta. rewrite tableRow_value, (tableRow_percent_weekly _ _ _ Hw).
    split; [reflexivity | destruct (ltb _ _); discriminate].
Qed.

Section Chart.
Context {num : Type} {N : Number num} {L : NumberLaws num}.
Open Scope js_scope.

Lemma below_excludes (x y : num) : (x <? y) = true -> (x >=? y) = false.
Proof. apply ltb_leb. Qed.

Lemma nan_below_nothing (y : num) : ((nan : num) >=? y) = false.
Proof.
  destruct (leb y nan) eqn:E; [| reflexivity].
  apply leb_defined in E. destruct E as [_ E]. rewrite nan_isNaN in E. discriminate.
Qed.

Lemma In_chartItems (table : list (row num)) (d : row num) :
  In d (chartItems table)
  <-> In d table /\ rname d <> "Earnings" /\ (parseFloat (percent d) >=? int 4) = true.
Proof.
  unfold chartItems. rewrite filter_In, andb_true_iff, negb_true_iff.
  split; intros [H1 [H2 H3]]; repeat split; try assumption.
  - intros E. rewrite E in H2. discriminate.
  - destruct (String.eqb_spec (rname d) "Earnings"); [contradiction | reflexivity].
Qed.

End Chart.

(** C5. The chart series holds exactly the rows of the report that are not
    named "Earnings" and whose percent field, read by [parseFloat] as the
    number its leading characters spell, is at least 4.  A row whose
    percent reads below 4 is not in the series, and neither is a row whose
    percent field is empty. *)
Theorem chart_series_keeps_percent_from_4
    {num : Type} {N : Number num} {L : NumberLaws num}
    (items : list item) (period : string) (d : row num) :
  let r := derive items period in
  (In d (r_chartItems r)
   <-> In d (r_tableData r) /\ rname d <> "Earnings"
       /\ leb (int 4) (parseFloat (percent d)) = true)
  /\ (ltb (parseFloat (percent d)) (int 4) = true -> ~ In d (r_chartItems r))
  /\ (percent d = "" -> ~ In d (r_chartItems r))
  /\ (rname d = "Earnings" -> ~ In d (r_chartItems r)).
Proof.
  intros r. subst r. unfold derive. cbn [r_chartItems r_tableData].
  split; [apply In_chartItems | split; [| split]].
  - intros Hlt Hin. apply In_chartItems in Hin. destruct Hin as [_ [_ Hge]].
    rewrite (below_excludes _ _ Hlt) in Hge. discriminate.
  - intros He Hin. apply In_chartItems in Hin. destruct Hin as [_ [_ Hge]].
    rewrite He in Hge. change (parseFloat "") with (nan : num) in Hge.
    rewrite nan_below_nothing in Hge. discriminate.
  - intros He Hin. apply In_chartItems in Hin. destruct Hin as [_ [Hn _]]. contradiction.
Qed.

(* ================================================================= *)
(** ** Parsing an amount *)

Section Parsing.
Context {num : Type} {N : Number num} {L : NumberLaws num}.
Open Scope js_scope.

Lemma remove_commas_app (a b : string) :
  remove_commas (a ++ b) = remove_commas a ++ remove_commas b.
Proof.
  induction a as [| c a IH]; [reflexivity |].
  cbn [String.append remove_commas]. rewrite IH.
  destruct (Ascii.eqb c comma); reflexivity.
Qed.

Lemma remove_commas_twice (s : string) : remove_commas (remove_commas s) = remove_commas s.
Proof.
  induction s as [| c s IH]; [reflexivity |].
  cbn [remove_commas]. destruct (Ascii.eqb c comma) eqn:E; [exact IH |].
  cbn [remove_commas]. rewrite E, IH. reflexivity.
Qed.

Lemma has_comma_removed (s : string) : has_comma (remove_commas s) = false.
Proof.
  induction s as [| c r IH]; [reflexivity |].
  cbn [remove_commas]. destruct (Ascii.eqb c comma) eqn:E; [exact IH |].
  cbn [has_comma]. rewrite E, IH. reflexivity.
Qed.

Lemma remove_commas_none (s : string) : has_comma s = false -> remove_commas s = s.
Proof.
  induction s as [| c r IH]; [reflexivity |].
  cbn [has_comma remove_commas]. intros H. apply orb_false_iff in H. destruct H as [Hc Hr].
  rewrite Hc, (IH Hr). reflexivity.
Qed.

Lemma parseAmount_defined (raw : string) : isNaN (parseAmount raw) = false.
Proof.
  unfold parseAmount, or_else.
  destruct (truthy (parseFloat (remove_commas raw))) eqn:E.
  - apply truthy_defined. exact E.
  - apply zero_defined.
Qed.

Lemma nan_falsy : truthy (nan : num) = false.
Proof. unfold truthy. rewrite nan_isNaN, orb_true_r. reflexivity. Qed.

End Parsing.

Section DigitStrings.

Lemma surely_digit (c : ascii) (r : string) (acc n : Z) :
  is_digit c = true -> digits (String c r) acc n = digits r (10 * acc + digit_value c) (n + 1).
Proof. intros H. cbn [digits]. rewrite H. reflexivity. Qed.

Lemma all_digits_uint (d : Decimal.uint) : all_digits (NilEmpty.string_of_uint d) = true.
Proof. induction d; cbn [NilEmpty.string_of_uint all_digits]; try rewrite IHd; reflexivity. Qed.

(** One digit read: the value of the digit is computed and the
    accumulator brought to the form the induction hypothesis has. *)
Ltac read_digit :=
  rewrite surely_digit by reflexivity;
  match goal with
  | |- context [digit_value ?c] =>
      let v := eval vm_compute in (digit_value c) in change (digit_value c) with v
  end.

Lemma digits_uint_acc (d : Decimal.uint) (rest : string) (acc : positive) (n : Z) :
  digits (NilEmpty.string_of_uint d ++ rest) (Zpos acc) n
  = digits rest (Zpos (Pos.of_uint_acc d acc)) (n + Z.of_nat (Decimal.nb_digits d)).
Proof.
  revert acc n. induction d; intros acc n;
    cbn [NilEmpty.string_of_uint String.append Pos.of_uint_acc Decimal.nb_digits].
  - f_equal. cbn. lia.
  - read_digit. replace (10 * Z.pos acc + 0) with (Z.pos (10 * acc)) by lia.
    rewrite IHd. f_equal. lia.
  - read_digit. replace (10 * Z.pos acc + 1) with (Z.pos (1 + 10 * acc)) by lia.
    rewrite IHd. f_equal. lia.
  - read_digit. replace (10 * Z.pos acc + 2) with (Z.pos (2 + 10 * acc)) by lia.
    rewrite IHd. f_equal. lia.
  - read_digit. replace (10 * Z.pos acc + 3) with (Z.pos (3 + 10 * acc)) by lia.
    rewrite IHd. f_equal. lia.
  - read_digit. replace (10 * Z.pos acc + 4) with (Z.pos (4 + 10 * acc)) by lia.
    rewrite IHd. f_equal. lia.
  - read_digit. replace (10 * Z.pos acc + 5) with (Z.pos (5 + 10 * acc)) by lia.
    rewrite IHd. f_equal. lia.
  - read_digit. replace (10 * Z.pos acc + 6) with (Z.pos (6 + 10 * acc)) by lia.
    rewrite IHd. f_equal. lia.
  - read_digit. replace (10 * Z.pos acc + 7) with (Z.pos (7 + 10 * acc)) by lia.
    rewrite IHd. f_equal. lia.
  - read_digit. replace (10 * Z.pos acc + 8) with (Z.pos (8 + 10 * acc)) by lia.
    rewrite IHd. f_equal. lia.
  - read_digit. replace (10 * Z.pos acc + 9) with (Z.pos (9 + 10 * acc)) by lia.
    rewrite IHd. f_equal. lia.
Qed.

Lemma digits_uint (d : Decimal.uint) (rest : string) (n : Z) :
  digits (NilEmpty.string_of_uint d ++ rest) 0 n
  = digits rest (Z.of_N (Pos.of_uint d)) (n + Z.of_nat (Decimal.nb_digits d)).
Proof.
  revert n. induction d; intros n;
    cbn [NilEmpty.string_of_uint String.append Pos.of_uint Decimal.nb_digits];
    try read_digit.
  - f_equal. cbn. lia.
  - change (10 * 0 + 0) with 0. rewrite IHd. f_equal. lia.
  - change (10 * 0 + 1) with (Zpos 1). rewrite digits_uint_acc. f_equal. lia.
  - change (10 * 0 + 2) with (Zpos 2). rewrite digits_uint_acc. f_equal. lia.
  - change (10 * 0 + 3) with (Zpos 3). rewrite digits_uint_acc. f_equal. lia.
  - change (10 * 0 + 4) with (Zpos 4). rewrite digits_uint_acc. f_equal. lia.
  - change (10 * 0 + 5) with (Zpos 5). rewrite digits_uint_acc. f_equal. lia.
  - change (10 * 0 + 6) with (Zpos 6). rewrite digits_uint_acc. f_equal. lia.
  - change (10 * 0 + 7) with (Zpos 7). rewrite digits_uint_acc. f_equal. lia.
  - change (10 * 0 + 8) with (Zpos 8). rewrite digits_uint_acc. f_equal. lia.
  - change (10 * 0 + 9) with (Zpos 9). rewrite digits_uint_acc. f_equal. lia.
Qed.

Lemma Z_digits_uint (z : Z) :
  Z_digits z = NilEmpty.string_of_uint (N.to_uint (Z.to_N z))
  /\ N.to_uint (Z.to_N z) <> Decimal.Nil.
Proof.
  unfold Z_digits, NilZero.string_of_uint.
  destruct (Z.to_N z) as [| p]; [split; [reflexivity | discriminate] |].
  cbn [N.to_uint]. pose proof (DecimalPos.Unsigned.to_uint_nonnil p) as H.
  destruct (Pos.to_uint p); [contradiction | ..]; split; try reflexivity; discriminate.
Qed.

(** The printed digits of [z >= 0] are at least one digit, and they read
    back as [z]. *)
Lemma Z_digits_shape (z : Z) :
  exists c r, Z_digits z = String c r /\ is_digit c = true /\ all_digits r = true.
Proof.
  destruct (Z_digits_uint z) as [E Hn]. rewrite E.
  pose proof (all_digits_uint (N.to_uint (Z.to_N z))) as H.
  destruct (NilEmpty.string_of_uint (N.to_uint (Z.to_N z))) as [| c r] eqn:Es.
  - destruct (N.to_uint (Z.to_N z)); try contradiction; discriminate.
  - cbn [all_digits] in H. apply andb_true_iff in H. exists c, r. tauto.
Qed.

Lemma digits_Z_digits (z : Z) (rest : string) :
  0 <= z ->
  exists len, 0 < len /\ forall n, digits (Z_digits z ++ rest) 0 n = digits rest z (n + len).
Proof.
  intros Hz. destruct (Z_digits_uint z) as [E Hn]. rewrite E.
  exists (Z.of_nat (Decimal.nb_digits (N.to_uint (Z.to_N z)))). split.
  - destruct (N.to_uint (Z.to_N z)); try contradiction; cbn [Decimal.nb_digits]; lia.
  - intros n. rewrite digits_uint.
    change (Pos.of_uint (N.to_uint (Z.to_N z))) with (N.of_uint (N.to_uint (Z.to_N z))).
    rewrite DecimalN.Unsigned.of_to, Z2N.id by exact Hz. reflexivity.
Qed.

End DigitStrings.

Section PlainText.

Lemma digit_cases (c : ascii) :
  is_digit c = true ->
  In c ["0"; "1"; "2"; "3"; "4"; "5"; "6"; "7"; "8"; "9"]%char.
Proof.
  destruct c as [[] [] [] [] [] [] [] []]; intros H; try discriminate H; simpl; tauto.
Qed.

Ltac by_digit c H :=
  apply digit_cases in H; simpl in H;
  repeat (destruct H as [H | H]; [subst c | ]); [.. | contradiction].

Lemma trim_start_digit (c : ascii) (r : string) :
  is_digit c = true -> trim_start (String c r) = String c r.
Proof.
  intros H. by_digit c H; destruct r as [| b [| c3 r3]]; reflexivity.
Qed.

Lemma trim_end_digits (s : string) : all_digits s = true -> trim_end s = s.
Proof.
  induction s as [| c r IH]; [reflexivity |].
  cbn [all_digits]. intros H. apply andb_true_iff in H. destruct H as [Hc Hr].
  cbn [trim_end]. rewrite (trim_start_digit c r Hc), (IH Hr). reflexivity.
Qed.

Lemma digit_is_no_sign (c : ascii) :
  is_digit c = true ->
  Ascii.eqb c "-" = false /\ Ascii.eqb c "+" = false /\ Ascii.eqb c comma = false
  /\ Ascii.eqb c dot = false.
Proof. intros H. by_digit c H; repeat split; reflexivity. Qed.

Lemma not_Infinity (c : ascii) (r : string) :
  is_digit c = true -> String.prefix "Infinity" (String c r) = false.
Proof. intros H. by_digit c H; reflexivity. Qed.

Lemma has_comma_digits (s : string) : all_digits s = true -> has_comma s = false.
Proof.
  induction s as [| c r IH]; [reflexivity |].
  cbn [all_digits has_comma]. intros H. apply andb_true_iff in H. destruct H as [Hc Hr].
  destruct (digit_is_no_sign c Hc) as [_ [_ [E _]]]. rewrite E, (IH Hr). reflexivity.
Qed.

Lemma split_dot_digits (s : string) : all_digits s = true -> split_dot s = [s].
Proof.
  induction s as [| c r IH]; [reflexivity |].
  cbn [all_digits split_dot]. intros H. apply andb_true_iff in H. destruct H as [Hc Hr].
  destruct (digit_is_no_sign c Hc) as [_ [_ [_ E]]]. rewrite E, (IH Hr). reflexivity.
Qed.

Lemma split_dot_point (s t : string) :
  all_digits s = true -> split_dot (s ++ String dot t) = s :: split_dot t.
Proof.
  induction s as [| c r IH]; [reflexivity |].
  cbn [all_digits String.append split_dot]. intros H.
  apply andb_true_iff in H. destruct H as [Hc Hr].
  destruct (digit_is_no_sign c Hc) as [_ [_ [_ E]]]. rewrite E, (IH Hr). reflexivity.
Qed.

Lemma remove_commas_group_from (s : string) (k : nat) :
  has_comma s = false -> remove_commas (group_from s k) = s.
Proof.
  revert k. induction s as [| c r IH]; intros k; [reflexivity |].
  cbn [has_comma]. intros H. apply orb_false_iff in H. destruct H as [Hc Hr].
  cbn [group_from]. destruct r as [| c2 r2].
  - cbn [remove_commas]. rewrite Hc. reflexivity.
  - destruct k as [| [| k]]; cbn [remove_commas]; rewrite Hc; try rewrite Ascii.eqb_refl;
      rewrite (IH _ Hr); reflexivity.
Qed.

Lemma remove_commas_group3 (s : string) : has_comma s = false -> remove_commas (group3 s) = s.
Proof. apply remove_commas_group_from. Qed.

Lemma append_empty (s : string) : s ++ "" = s.
Proof. induction s as [| c r IH]; [reflexivity |]. cbn [String.append]. rewrite IH. reflexivity. Qed.

Lemma two_digits_all : forallb two_digits_spell (map Z.of_nat (seq 0 100)) = true.
Proof. vm_compute. reflexivity. Qed.

Lemma two_digits (b : Z) :
  0 <= b < 100 ->
  exists c1 c2,
    pad_digits 2 b = String c1 (String c2 "")
    /\ is_digit c1 = true /\ is_digit c2 = true
    /\ 10 * digit_value c1 + digit_value c2 = b
    /\ (pad_digits 2 b = "00" -> b = 0).
Proof.
  intros Hb.
  assert (Hin : In b (map Z.of_nat (seq 0 100))).
  { rewrite <- (Z2Nat.id b) by lia. apply in_map, in_seq. lia. }
  pose proof two_digits_all as H. rewrite forallb_forall in H. specialize (H b Hin).
  unfold two_digits_spell in H.
  destruct (pad_digits 2 b) as [| c1 [| c2 [| c3 r]]] eqn:E; try discriminate H.
  apply andb_true_iff in H. destruct H as [H H4].
  apply andb_true_iff in H. destruct H as [H H3].
  apply andb_true_iff in H. destruct H as [H1 H2].
  exists c1, c2. repeat split; try assumption.
  - apply Z.eqb_eq. exact H3.
  - intros E0. rewrite E0 in H4. cbn [String.eqb Ascii.eqb Bool.eqb andb] in H4.
    apply negb_true_iff, negb_false_iff, Z.eqb_eq in H4. exact H4.
Qed.

End PlainText.

Section RoundTrip.
Context {num : Type} {N : Number num}.

(** A text of digits, whatever follows the digits, starts with the
    numeral the digits spell. *)
Lemma decimal_prefix_integer (a : Z) :
  0 <= a -> decimal_prefix (Z_digits a) = Some (NumDecimal false a 0, "").
Proof.
  intros Ha. destruct (Z_digits_shape a) as [c [r [E [Hc Hr]]]].
  destruct (digits_Z_digits a "" Ha) as [len [Hlen Hd]].
  rewrite append_empty in Hd.
  destruct (digit_is_no_sign c Hc) as [Em [Ep _]].
  unfold decimal_prefix. rewrite E, Em, Ep, <- E. unfold unsigned_decimal.
  rewrite E at 1. rewrite (not_Infinity c r Hc). rewrite Hd. cbn [digits].
  replace (0 + len =? 0) with false by (symmetry; apply Z.eqb_neq; lia).
  reflexivity.
Qed.

Lemma decimal_prefix_cents (a b : Z) :
  0 <= a -> 0 <= b < 100 ->
  decimal_prefix (Z_digits a ++ "." ++ pad_digits 2 b)
  = Some (NumDecimal false (100 * a + b) (-2), "").
Proof.
  intros Ha Hb. destruct (Z_digits_shape a) as [c [r [E [Hc Hr]]]].
  destruct (digits_Z_digits a ("." ++ pad_digits 2 b) Ha) as [len [Hlen Hd]].
  destruct (two_digits b Hb) as [c1 [c2 [E2 [H1 [H2 [Hv _]]]]]].
  destruct (digit_is_no_sign c Hc) as [Em [Ep _]].
  unfold decimal_prefix. rewrite E. cbn [String.append]. rewrite Em, Ep.
  unfold unsigned_decimal. rewrite (not_Infinity c _ Hc).
  change (String c (r ++ String "." (pad_digits 2 b)))
    with (String c r ++ "." ++ pad_digits 2 b).
  rewrite <- E, Hd. cbn [String.append digits is_digit nat_of_ascii].
  change (is_digit ".") with false. cbv iota.
  change (Ascii.eqb "." dot) with true. cbv iota.
  rewrite E2, (surely_digit c1 _ _ _ H1), (surely_digit c2 _ _ _ H2). cbn [digits].
  replace (0 + len =? 0) with false by (symmetry; apply Z.eqb_neq; lia).
  cbn [andb exponent_part].
  replace (10 * (10 * a + digit_value c1) + digit_value c2) with (100 * a + b) by lia.
  reflexivity.
Qed.

Lemma trim_start_Z_digits (a : Z) (t : string) : trim_start (Z_digits a ++ t) = Z_digits a ++ t.
Proof.
  destruct (Z_digits_shape a) as [c [r [E [Hc _]]]]. rewrite E. cbn [String.append].
  apply trim_start_digit. exact Hc.
Qed.

Lemma all_digits_Z_digits (a : Z) : all_digits (Z_digits a) = true.
Proof.
  destruct (Z_digits_shape a) as [c [r [E [Hc Hr]]]]. rewrite E. cbn [all_digits].
  rewrite Hc, Hr. reflexivity.
Qed.

Lemma toNumber_integer (a : Z) : 0 <= a -> toNumber (Z_digits a) = of_decimal false a 0.
Proof.
  intros Ha. unfold toNumber.
  pose proof (trim_start_Z_digits a "") as Ht. rewrite append_empty in Ht.
  rewrite Ht, (trim_end_digits _ (all_digits_Z_digits a)), (decimal_prefix_integer a Ha).
  destruct (Z_digits_shape a) as [c [r [E _]]]. rewrite E. reflexivity.
Qed.

Lemma parseFloat_integer (a : Z) : 0 <= a -> parseFloat (Z_digits a) = of_decimal false a 0.
Proof.
  intros Ha. unfold parseFloat.
  pose proof (trim_start_Z_digits a "") as Ht. rewrite append_empty in Ht.
  rewrite Ht, (decimal_prefix_integer a Ha). reflexivity.
Qed.

Lemma parseFloat_cents (a b : Z) :
  0 <= a -> 0 <= b < 100 ->
  parseFloat (Z_digits a ++ "." ++ pad_digits 2 b) = of_decimal false (100 * a + b) (-2).
Proof.
  intros Ha Hb. unfold parseFloat.
  rewrite trim_start_Z_digits, (decimal_prefix_cents a b Ha Hb). reflexivity.
Qed.

End RoundTrip.

Section LeadingNumeral.
Context {num : Type} {N : Number num} {L : NumberLaws num}.

Lemma ends_integer_fraction (s : string) : ends_integer s = true -> ends_fraction s = true.
Proof.
  destruct s as [| c r]; [reflexivity |]. cbn [ends_integer ends_fraction].
  rewrite !negb_true_iff, !orb_false_iff. tauto.
Qed.

Lemma digits_stop (s : string) (acc n : Z) :
  ends_fraction s = true -> digits s acc n = (acc, n, s).
Proof.
  destruct s as [| c r]; [reflexivity |]. cbn [ends_fraction digits].
  rewrite negb_true_iff, !orb_false_iff. intros [[H _] _]. rewrite H. reflexivity.
Qed.

Lemma exponent_part_stop (s : string) : ends_fraction s = true -> exponent_part s = (0, s).
Proof.
  destruct s as [| c r]; [reflexivity |]. cbn [ends_fraction]. unfold exponent_part.
  rewrite negb_true_iff, !orb_false_iff. intros [[_ H1] H2]. rewrite H1, H2. reflexivity.
Qed.

(** Digits followed by a text that does not continue them are the numeral
    at the head of the text. *)
Lemma unsigned_decimal_integer (neg : bool) (a : Z) (rest : string) :
  0 <= a -> ends_integer rest = true ->
  unsigned_decimal neg (Z_digits a ++ rest) = Some (NumDecimal neg a 0, rest).
Proof.
  intros Ha He. pose proof (ends_integer_fraction _ He) as Hf.
  destruct (Z_digits_shape a) as [c [r [E [Hc Hr]]]].
  destruct (digits_Z_digits a rest Ha) as [len [Hlen Hd]].
  unfold unsigned_decimal. rewrite E at 1. cbn [String.append].
  rewrite (not_Infinity c _ Hc), Hd, (digits_stop _ _ _ Hf).
  replace (0 + len =? 0) with false by (symmetry; apply Z.eqb_neq; lia).
  destruct rest as [| d rest'].
  - reflexivity.
  - cbn [ends_integer] in He. rewrite negb_true_iff, !orb_false_iff in He.
    destruct He as [_ Hdot]. rewrite Hdot. cbn [andb].
    rewrite (exponent_part_stop _ Hf). reflexivity.
Qed.

Lemma unsigned_decimal_cents (neg : bool) (a b : Z) (rest : string) :
  0 <= a -> 0 <= b < 100 -> ends_fraction rest = true ->
  unsigned_decimal neg (Z_digits a ++ "." ++ pad_digits 2 b ++ rest)
  = Some (NumDecimal neg (100 * a + b) (-2), rest).
Proof.
  intros Ha Hb Hf.
  destruct (Z_digits_shape a) as [c [r [E [Hc Hr]]]].
  destruct (digits_Z_digits a ("." ++ pad_digits 2 b ++ rest) Ha) as [len [Hlen Hd]].
  destruct (two_digits b Hb) as [c1 [c2 [E2 [H1 [H2 [Hv _]]]]]].
  unfold unsigned_decimal. rewrite E at 1. cbn [String.append].
  rewrite (not_Infinity c _ Hc).
  change (String "." (pad_digits 2 b ++ rest)) with ("." ++ pad_digits 2 b ++ rest).
  rewrite Hd. cbn [String.append digits].
  change (is_digit ".") with false. cbv iota.
  change (Ascii.eqb "." dot) with true. cbv iota.
  rewrite E2. cbn [String.append].
  rewrite (surely_digit c1 _ _ _ H1), (surely_digit c2 _ _ _ H2), (digits_stop _ _ _ Hf).
  replace (0 + len =? 0) with false by (symmetry; apply Z.eqb_neq; lia).
  cbn [andb]. rewrite (exponent_part_stop _ Hf).
  replace (10 * (10 * a + digit_value c1) + digit_value c2) with (100 * a + b) by lia.
  reflexivity.
Qed.

Lemma decimal_prefix_unsigned (a : Z) (t : string) :
  decimal_prefix (Z_digits a ++ t) = unsigned_decimal false (Z_digits a ++ t).
Proof.
  destruct (Z_digits_shape a) as [c [r [E [Hc _]]]].
  destruct (digit_is_no_sign c Hc) as [Em [Ep _]].
  rewrite E. cbn [String.append]. unfold decimal_prefix. rewrite Em, Ep. reflexivity.
Qed.

Lemma trim_start_minus (t : string) : trim_start (String "-" t) = String "-" t.
Proof. destruct t as [| b [| c r]]; reflexivity. Qed.

Lemma remove_commas_digits (a : Z) : remove_commas (Z_digits a) = Z_digits a.
Proof. apply remove_commas_none, has_comma_digits, all_digits_Z_digits. Qed.

Lemma remove_commas_cents (b : Z) : 0 <= b < 100 -> remove_commas (pad_digits 2 b) = pad_digits 2 b.
Proof.
  intros Hb. destruct (two_digits b Hb) as [c1 [c2 [E2 [H1 [H2 _]]]]].
  apply remove_commas_none, has_comma_digits. rewrite E2. cbn [all_digits].
  rewrite H1, H2. reflexivity.
Qed.

Lemma parseFloat_integer_then (a : Z) (rest : string) :
  0 <= a -> ends_integer rest = true ->
  parseFloat (Z_digits a ++ rest) = of_decimal false a 0
  /\ parseFloat ("-" ++ Z_digits a ++ rest) = of_decimal true a 0.
Proof.
  intros Ha He. unfold parseFloat. split.
  - rewrite trim_start_Z_digits, decimal_prefix_unsigned,
      (unsigned_decimal_integer false a rest Ha He). reflexivity.
  - change ("-" ++ Z_digits a ++ rest) with (String "-" (Z_digits a ++ rest)).
    rewrite trim_start_minus. cbn [decimal_prefix Ascii.eqb Bool.eqb].
    rewrite (unsigned_decimal_integer true a rest Ha He). reflexivity.
Qed.

Lemma parseFloat_cents_then (a b : Z) (rest : string) :
  0 <= a -> 0 <= b < 100 -> ends_fraction rest = true ->
  parseFloat (Z_digits a ++ "." ++ pad_digits 2 b ++ rest) = of_decimal false (100 * a + b) (-2).
Proof.
  intros Ha Hb Hf. unfold parseFloat.
  rewrite trim_start_Z_digits, decimal_prefix_unsigned,
    (unsigned_decimal_cents false a b rest Ha Hb Hf). reflexivity.
Qed.

(** The amount a text parses to, by the numeral at its head. *)
Lemma parseAmount_by_numeral (raw : string) :
  parseAmount (num := num) raw
  = match decimal_prefix (trim_start (remove_commas raw)) with
    | Some (NumDecimal neg m e, _) => or_else (of_decimal neg m e) (int 0)
    | Some (NumInfinity neg, _) => or_else (infinity neg) (int 0)
    | None => int 0
    end.
Proof.
  unfold parseAmount, parseFloat.
  destruct (decimal_prefix _) as [[[neg | neg m e] r] |]; try reflexivity.
  unfold or_else. rewrite nan_falsy. reflexivity.
Qed.

Lemma parseAmount_integer_then (a : Z) (rest : string) :
  0 <= a -> ends_integer (remove_commas rest) = true ->
  parseAmount (num := num) (Z_digits a ++ rest) = or_else (of_decimal false a 0) (int 0)
  /\ parseAmount (num := num) (group3 (Z_digits a) ++ rest) = or_else (of_decimal false a 0) (int 0)
  /\ parseAmount (num := num) ("-" ++ Z_digits a ++ rest) = or_else (of_decimal true a 0) (int 0).
Proof.
  intros Ha He. destruct (parseFloat_integer_then a _ Ha He) as [P M].
  unfold parseAmount. repeat split.
  - rewrite remove_commas_app, remove_commas_digits, P. reflexivity.
  - rewrite remove_commas_app,
      (remove_commas_group3 _ (has_comma_digits _ (all_digits_Z_digits a))), P. reflexivity.
  - rewrite !remove_commas_app, remove_commas_digits.
    change (remove_commas "-") with "-". rewrite M. reflexivity.
Qed.

Lemma parseAmount_cents_then (a b : Z) (rest : string) :
  0 <= a -> 0 <= b < 100 -> ends_fraction (remove_commas rest) = true ->
  parseAmount (num := num) (Z_digits a ++ "." ++ pad_digits 2 b ++ rest)
  = or_else (of_decimal false (100 * a + b) (-2)) (int 0)
  /\ parseAmount (num := num) (group3 (Z_digits a) ++ "." ++ pad_digits 2 b ++ rest)
     = or_else (of_decimal false (100 * a + b) (-2)) (int 0).
Proof.
  intros Ha Hb Hf. pose proof (parseFloat_cents_then a b _ Ha Hb Hf) as P.
  unfold parseAmount. split.
  - rewrite !remove_commas_app, remove_commas_digits, (remove_commas_cents b Hb).
    change (remove_commas ".") with ".". rewrite P. reflexivity.
  - rewrite !remove_commas_app,
      (remove_commas_group3 _ (has_comma_digits _ (all_digits_Z_digits a))),
      (remove_commas_cents b Hb).
    change (remove_commas ".") with ".". rewrite P. reflexivity.
Qed.

End LeadingNumeral.

Section DecimalTexts.
Context {num : Type} {N : Number num} {L : NumberLaws num}.

Lemma digits_all (f rest : string) (acc n : Z) :
  all_digits f = true ->
  digits (f ++ rest) acc n = digits rest (decimal_value f acc) (n + Z.of_nat (String.length f)).
Proof.
  revert acc n. induction f as [| c r IH]; intros acc n H.
  - cbn [String.append decimal_value String.length]. f_equal. cbn. lia.
  - cbn [all_digits] in H. apply andb_true_iff in H. destruct H as [Hc Hr].
    cbn [String.append decimal_value String.length].
    rewrite (surely_digit c _ _ _ Hc), (IH _ _ Hr). f_equal. lia.
Qed.

Lemma decimal_value_app (x y : string) (acc : Z) :
  decimal_value (x ++ y) acc = decimal_value y (decimal_value x acc).
Proof.
  revert acc. induction x as [| c r IH]; intros acc; [reflexivity |].
  cbn [String.append decimal_value]. apply IH.
Qed.

Lemma decimal_value_Z_digits (z : Z) : 0 <= z -> decimal_value (Z_digits z) 0 = z.
Proof.
  intros Hz. destruct (digits_Z_digits z "" Hz) as [len [_ Hd]].
  specialize (Hd 0). rewrite (digits_all _ _ _ _ (all_digits_Z_digits z)) in Hd.
  cbn [digits] in Hd. congruence.
Qed.

Lemma trim_start_blank (ws s : string) : blank ws = true -> trim_start (ws ++ s) = trim_start s.
Proof.
  induction ws as [| c r IH]; [reflexivity |].
  cbn [blank]. intros H. apply andb_true_iff in H. destruct H as [Hc Hr].
  cbn [String.append trim_start]. rewrite Hc. apply IH, Hr.
Qed.

Lemma remove_commas_blank (ws : string) : blank ws = true -> remove_commas ws = ws.
Proof.
  induction ws as [| c r IH]; [reflexivity |].
  cbn [blank]. intros H. apply andb_true_iff in H. destruct H as [Hc Hr].
  cbn [remove_commas]. rewrite (IH Hr).
  destruct (Ascii.eqb_spec c comma) as [E | _]; [| reflexivity].
  subst c. discriminate Hc.
Qed.

(** The head of a numeral: a sign, a digit or the point.  No white space
    is trimmed before it. *)
Lemma trim_start_ascii (c : ascii) (r : string) :
  ws1 c = false -> (nat_of_ascii c < 128)%nat -> trim_start (String c r) = String c r.
Proof.
  intros Hw Hc. cbn [trim_start]. rewrite Hw.
  destruct r as [| b [| c3 r3]]; try reflexivity; unfold ws2, ws3; cbv zeta.
  - replace (nat_of_ascii c =? 194)%nat with false by (symmetry; apply Nat.eqb_neq; lia).
    reflexivity.
  - replace (nat_of_ascii c =? 194)%nat with false by (symmetry; apply Nat.eqb_neq; lia).
    replace (nat_of_ascii c =? 225)%nat with false by (symmetry; apply Nat.eqb_neq; lia).
    replace (nat_of_ascii c =? 226)%nat with false by (symmetry; apply Nat.eqb_neq; lia).
    replace (nat_of_ascii c =? 227)%nat with false by (symmetry; apply Nat.eqb_neq; lia).
    replace (nat_of_ascii c =? 239)%nat with false by (symmetry; apply Nat.eqb_neq; lia).
    reflexivity.
Qed.

Lemma digit_plain (c : ascii) : is_digit c = true -> ws1 c = false /\ (nat_of_ascii c < 128)%nat.
Proof.
  intros H. apply digit_cases in H. simpl in H.
  repeat (destruct H as [H | H]; [subst c; split; [reflexivity | cbn; lia] |]). contradiction.
Qed.

(** Digits, and then a text that does not continue them. *)
Lemma unsigned_decimal_digits (neg : bool) (i rest : string) :
  all_digits i = true -> i <> "" -> ends_integer rest = true ->
  unsigned_decimal neg (i ++ rest) = Some (NumDecimal neg (decimal_value i 0) 0, rest).
Proof.
  intros Hi Hne He. pose proof (ends_integer_fraction _ He) as Hf.
  destruct i as [| c r]; [contradiction |].
  assert (Hc : is_digit c = true)
    by (cbn [all_digits] in Hi; apply andb_true_iff in Hi; apply Hi).
  unfold unsigned_decimal.
  change (String.prefix "Infinity" (String c r ++ rest))
    with (String.prefix "Infinity" (String c (r ++ rest))).
  rewrite (not_Infinity c _ Hc), (digits_all _ _ _ _ Hi), (digits_stop _ _ _ Hf).
  replace (0 + Z.of_nat (String.length (String c r)) =? 0) with false
    by (symmetry; apply Z.eqb_neq; cbn [String.length]; lia).
  destruct rest as [| d rest'].
  - reflexivity.
  - cbn [ends_integer] in He. rewrite negb_true_iff, !orb_false_iff in He.
    destruct He as [_ Hdot]. rewrite Hdot. cbn [andb].
    rewrite (exponent_part_stop _ Hf). reflexivity.
Qed.

(** Digits, the point and digits, at least one digit in all, and then a
    text that does not continue them. *)
Lemma unsigned_decimal_point (neg : bool) (i f rest : string) :
  all_digits i = true -> all_digits f = true -> i ++ f <> "" -> ends_fraction rest = true ->
  unsigned_decimal neg (i ++ "." ++ f ++ rest)
  = Some (NumDecimal neg (decimal_value (i ++ f) 0) (- Z.of_nat (String.length f)), rest).
Proof.
  intros Hi Hf Hne He. unfold unsigned_decimal.
  assert (HI : String.prefix "Infinity" (i ++ "." ++ f ++ rest) = false).
  { destruct i as [| c r]; [reflexivity |].
    assert (Hc : is_digit c = true)
      by (cbn [all_digits] in Hi; apply andb_true_iff in Hi; apply Hi).
    exact (not_Infinity c _ Hc). }
  rewrite HI, (digits_all _ _ _ _ Hi). cbn [String.append digits].
  change (is_digit ".") with false. cbv iota.
  change (Ascii.eqb "." dot) with true. cbv iota.
  rewrite (digits_all _ _ _ _ Hf), (digits_stop _ _ _ He), (exponent_part_stop _ He).
  rewrite decimal_value_app.
  destruct ((0 + Z.of_nat (String.length i) =? 0) && (0 + Z.of_nat (String.length f) =? 0)) eqn:E.
  - exfalso. apply andb_true_iff in E. destruct E as [E1 E2].
    apply Z.eqb_eq in E1, E2. apply Hne.
    destruct i; [| cbn [String.length] in E1; lia].
    destruct f; [reflexivity | cbn [String.length] in E2; lia].
  - reflexivity.
Qed.

(** What may stand before the digits: nothing or a sign. *)
Lemma decimal_prefix_signed (sg body : string) (c : ascii) (r : string) :
  sg = "" \/ sg = "+" \/ sg = "-" ->
  body = String c r -> is_digit c = true \/ c = "."%char ->
  trim_start (sg ++ body) = sg ++ body
  /\ decimal_prefix (sg ++ body) = unsigned_decimal (String.eqb sg "-") body.
Proof.
  intros Hs Hb Hc.
  assert (Hplain : trim_start body = body /\ Ascii.eqb c "-" = false /\ Ascii.eqb c "+" = false).
  { subst body. destruct Hc as [Hc | Hc].
    - destruct (digit_plain c Hc) as [Hw Hn]. destruct (digit_is_no_sign c Hc) as [Em [Ep _]].
      split; [apply trim_start_ascii; assumption | split; assumption].
    - subst c. split; [apply trim_start_ascii; [reflexivity | cbn; lia] | split; reflexivity]. }
  destruct Hplain as [Ht [Em Ep]].
  destruct Hs as [E | [E | E]]; subst sg.
  - cbn [String.append String.eqb]. split; [exact Ht |].
    subst body. unfold decimal_prefix. rewrite Em, Ep. reflexivity.
  - split; [apply trim_start_ascii; [reflexivity | cbn; lia] | reflexivity].
  - split; [apply trim_start_ascii; [reflexivity | cbn; lia] | reflexivity].
Qed.

Lemma parseFloat_digits (ws sg i rest : string) :
  blank ws = true -> sg = "" \/ sg = "+" \/ sg = "-" ->
  all_digits i = true -> i <> "" -> ends_integer rest = true ->
  parseFloat (ws ++ sg ++ i ++ rest) = of_decimal (String.eqb sg "-") (decimal_value i 0) 0.
Proof.
  intros Hw Hs Hi Hne He. unfold parseFloat. rewrite (trim_start_blank _ _ Hw).
  destruct i as [| c r] eqn:Ei; [contradiction |]. rewrite <- Ei in *.
  assert (Hc : is_digit c = true)
    by (rewrite Ei in Hi; cbn [all_digits] in Hi; apply andb_true_iff in Hi; apply Hi).
  destruct (decimal_prefix_signed sg (i ++ rest) c (r ++ rest) Hs
              ltac:(rewrite Ei; reflexivity) (or_introl Hc)) as [Ht Hd].
  rewrite Ht, Hd, (unsigned_decimal_digits _ i rest Hi Hne He). reflexivity.
Qed.

Lemma parseFloat_point (ws sg i f rest : string) :
  blank ws = true -> sg = "" \/ sg = "+" \/ sg = "-" ->
  all_digits i = true -> all_digits f = true -> i ++ f <> "" -> ends_fraction rest = true ->
  parseFloat (ws ++ sg ++ i ++ "." ++ f ++ rest)
  = of_decimal (String.eqb sg "-") (decimal_value (i ++ f) 0) (- Z.of_nat (String.length f)).
Proof.
  intros Hw Hs Hi Hf Hne He. unfold parseFloat. rewrite (trim_start_blank _ _ Hw).
  assert (Hhead : exists c r, i ++ "." ++ f ++ rest = String c r
                              /\ (is_digit c = true \/ c = "."%char)).
  { destruct i as [| c r].
    - exists "."%char, (f ++ rest). split; [reflexivity | right; reflexivity].
    - exists c, (r ++ "." ++ f ++ rest). split; [reflexivity | left].
      cbn [all_digits] in Hi. apply andb_true_iff in Hi. apply Hi. }
  destruct Hhead as [c [r [Eb Hc]]].
  destruct (decimal_prefix_signed sg _ c r Hs Eb Hc) as [Ht Hd].
  rewrite Ht, Hd, (unsigned_decimal_point _ i f rest Hi Hf Hne He). reflexivity.
Qed.

End DecimalTexts.

Section AmountTexts.
Context {num : Type} {N : Number num} {L : NumberLaws num}.

Lemma parseAmount_digits (raw ws sg i rest : string) :
  blank ws = true -> sg = "" \/ sg = "+" \/ sg = "-" ->
  all_digits i = true -> i <> "" -> ends_integer rest = true ->
  remove_commas raw = ws ++ sg ++ i ++ rest ->
  parseAmount (num := num) raw
  = or_else (of_decimal (String.eqb sg "-") (decimal_value i 0) 0) (int 0).
Proof.
  intros Hw Hs Hi Hne He E. unfold parseAmount.
  rewrite E, (parseFloat_digits ws sg i rest Hw Hs Hi Hne He). reflexivity.
Qed.

Lemma parseAmount_point (raw ws sg i f rest : string) :
  blank ws = true -> sg = "" \/ sg = "+" \/ sg = "-" ->
  all_digits i = true -> all_digits f = true -> i ++ f <> "" -> ends_fraction rest = true ->
  remove_commas raw = ws ++ sg ++ i ++ "." ++ f ++ rest ->
  parseAmount (num := num) raw
  = or_else (of_decimal (String.eqb sg "-") (decimal_value (i ++ f) 0)
                        (- Z.of_nat (String.length f)))
            (int 0).
Proof.
  intros Hw Hs Hi Hf Hne He E. unfold parseAmount.
  rewrite E, (parseFloat_point ws sg i f rest Hw Hs Hi Hf Hne He). reflexivity.
Qed.

Lemma parseAmount_blank (ws raw : string) :
  blank ws = true -> parseAmount (num := num) (ws ++ raw) = parseAmount raw.
Proof.
  intros Hw. unfold parseAmount, parseFloat.
  rewrite remove_commas_app, (remove_commas_blank _ Hw), (trim_start_blank _ _ Hw).
  reflexivity.
Qed.

End AmountTexts.

(** C7, as amended.  Parsing an amount removes every comma and reads the
    longest decimal numeral at the head of what is left, after leading
    white space, as a number; the text after the numeral is ignored.
    - The result is a number for every text, never [NaN], and nothing is
      raised: the function is total.
    - Commas change nothing, and neither does white space before the
      text.
    - The result is the number of the numeral at the head of the text,
      and 0 when no numeral leads the text or the numeral denotes 0.
    - Digits, with or without a sign before them, followed by a text that
      does not continue them, parse to the integer the digits spell
      whatever follows (12abc gives 12); digits, the point and digits
      parse to that decimal number whatever follows (1.5.5 gives 1.5).
    - In particular the digits of [a >= 0], plain or in groups of three
      separated by commas, parse to [a], and with a point and the two
      digits of [b < 100] after them to [a.bb]. *)
Theorem parseAmount_fails_soft_to_zero
    {num : Type} {N : Number num} {L : NumberLaws num} (raw : string) :
  isNaN (parseAmount raw) = false
  /\ parseAmount raw = parseAmount (remove_commas raw)
  /\ (forall a b : string, parseAmount (a ++ "," ++ b) = parseAmount (a ++ b))
  /\ (truthy (parseFloat (remove_commas raw)) = true ->
      parseAmount raw = parseFloat (remove_commas raw))
  /\ (isNaN (parseFloat (remove_commas raw)) = true -> parseAmount raw = int 0)
  /\ (decimal_prefix (trim_start (remove_commas raw)) = None -> parseAmount raw = int 0)
  /\ parseAmount raw
     = match decimal_prefix (trim_start (remove_commas raw)) with
       | Some (NumDecimal neg m e, _) => or_else (of_decimal neg m e) (int 0)
       | Some (NumInfinity neg, _) => or_else (infinity neg) (int 0)
       | None => int 0
       end
  /\ (forall (a : Z) (rest : string),
        0 <= a -> ends_integer (remove_commas rest) = true ->
        parseAmount (Z_digits a ++ rest) = or_else (of_decimal false a 0 : num) (int 0)
        /\ parseAmount (group3 (Z_digits a) ++ rest) = or_else (of_decimal false a 0 : num) (int 0)
        /\ parseAmount ("-" ++ Z_digits a ++ rest) = or_else (of_decimal true a 0 : num) (int 0))
  /\ (forall (a b : Z) (rest : string),
        0 <= a -> 0 <= b < 100 -> ends_fraction (remove_commas rest) = true ->
        parseAmount (Z_digits a ++ "." ++ pad_digits 2 b ++ rest)
        = or_else (of_decimal false (100 * a + b) (-2) : num) (int 0)
        /\ parseAmount (group3 (Z_digits a) ++ "." ++ pad_digits 2 b ++ rest)
           = or_else (of_decimal false (100 * a + b) (-2) : num) (int 0))
  /\ (forall ws sg i rest : string,
        blank ws = true -> sg = "" \/ sg = "+" \/ sg = "-" ->
        all_digits i = true -> i <> "" -> ends_integer rest = true ->
        remove_commas raw = ws ++ sg ++ i ++ rest ->
        parseAmount raw
        = or_else (of_decimal (String.eqb sg "-") (decimal_value i 0) 0) (int 0))
  /\ (forall ws sg i f rest : string,
        blank ws = true -> sg = "" \/ sg = "+" \/ sg = "-" ->
        all_digits i = true -> all_digits f = true -> i ++ f <> "" ->
        ends_fraction rest = true ->
        remove_commas raw = ws ++ sg ++ i ++ "." ++ f ++ rest ->
        parseAmount raw
        = or_else (of_decimal (String.eqb sg "-") (decimal_value (i ++ f) 0)
                              (- Z.of_nat (String.length f)))
                  (int 0))
  /\ (forall z : Z, 0 <= z -> decimal_value (Z_digits z) 0 = z)
  /\ (forall ws : string, blank ws = true -> parseAmount (ws ++ raw) = parseAmount raw).
Proof.
  split; [apply parseAmount_defined |].
  split; [unfold parseAmount; rewrite remove_commas_twice; reflexivity |].
  split; [intros a b; unfold parseAmount; rewrite !remove_commas_app; reflexivity |].
  split; [intros H; unfold parseAmount, or_else; rewrite H; reflexivity |].
  split; [intros H; unfold parseAmount, or_else, truthy; rewrite H, orb_true_r; reflexivity |].
  split; [intros H; rewrite parseAmount_by_numeral, H; reflexivity |].
  split; [apply parseAmount_by_numeral |].
  split; [apply parseAmount_integer_then |].
  split; [apply parseAmount_cents_then |].
  split; [intros ws sg i rest; apply parseAmount_digits |].
  split; [intros ws sg i f rest; apply parseAmount_point |].
  split; [apply decimal_value_Z_digits |].
  intros ws. apply parseAmount_blank.
Qed.

(* ================================================================= *)
(** ** Classification and the week count *)

Lemma weeks_cases (period : string) : weeks period = 13 \/ weeks period = 26 \/ weeks period = 52.
Proof.
  unfold weeks. destruct (startsWith period "Q"); [now left |].
  destruct (String.eqb period "6 Months"); [right; now left | right; now right].
Qed.

Section Classification.
Context {num : Type} {N : Number num} {L : NumberLaws num}.
Open Scope js_scope.

Lemma classify_ideal (p : num) : (p <=? int 30) = true -> getClassification p = "Ideal (≤30%)".
Proof. unfold getClassification. intros H. rewrite H. reflexivity. Qed.

Lemma classify_burdened (p : num) :
  (p >? int 30) = true -> (p <=? int 50) = true ->
  getClassification p = "Cost-burdened (30–50%)".
Proof.
  unfold getClassification. intros H1 H2. rewrite (ltb_leb _ _ H1), H2. reflexivity.
Qed.

Lemma classify_severe (p : num) :
  (p >? int 50) = true -> getClassification p = "Severely cost-burdened (>50%)".
Proof.
  unfold getClassification. intros H.
  pose proof (ltb_leb _ _ H) as H50. rewrite H50.
  destruct (p <=? int 30) eqn:H30; [| reflexivity].
  rewrite (leb_trans _ _ _ H30 thresholds) in H50. discriminate.
Qed.

Lemma classify_total (p : num) :
  isNaN p = false ->
  (p <=? int 30) = true
  \/ ((p >? int 30) = true /\ (p <=? int 50) = true)
  \/ (p >? int 50) = true.
Proof.
  intros Hp. destruct (leb_defined _ _ thresholds) as [D30 D50].
  destruct (p <=? int 30) eqn:H30; [now left | right].
  destruct (p <=? int 50) eqn:H50.
  - left. split; [| reflexivity]. apply leb_ltb; assumption.
  - right. apply leb_ltb; assumption.
Qed.

Lemma int_weeks_nonzero (period : string) : isZero (int (weeks period) : num) = false.
Proof.
  destruct weeks_nonzero as [H13 [H26 H52]].
  destruct (weeks_cases period) as [E | [E | E]]; rewrite E; assumption.
Qed.

End Classification.

Section Thresholds.
Context {loc : Locale}.

(** C2. For every percent [p >= 0] the classification is "Ideal" when
    [p <= 30], "Cost-burdened" when [30 < p <= 50] and "Severely
    cost-burdened" when [p > 50]; one of the three cases always applies and
    the three labels differ.  In binary64 and in exact arithmetic alike,
    30 is Ideal, 30.0001 and 50 are Cost-burdened and 50.0001 is Severely
    cost-burdened: each boundary belongs to the lower bucket. *)
Theorem classification_by_thresholds :
  (forall (num : Type) (N : Number num) (L : NumberLaws num) (p : num),
     leb (int 0) p = true ->
     (leb p (int 30) = true -> getClassification p = "Ideal (≤30%)")
     /\ (ltb (int 30) p = true -> leb p (int 50) = true ->
         getClassification p = "Cost-burdened (30–50%)")
     /\ (ltb (int 50) p = true -> getClassification p = "Severely cost-burdened (>50%)")
     /\ (leb p (int 30) = true
         \/ (ltb (int 30) p = true /\ leb p (int 50) = true)
         \/ ltb (int 50) p = true))
  /\ ("Ideal (≤30%)" <> "Cost-burdened (30–50%)"
      /\ "Cost-burdened (30–50%)" <> "Severely cost-burdened (>50%)"
      /\ "Ideal (≤30%)" <> "Severely cost-burdened (>50%)")
  /\ (getClassification (num := float) (int 30) = "Ideal (≤30%)"
      /\ getClassification (num := float) (dec 300001 4) = "Cost-burdened (30–50%)"
      /\ getClassification (num := float) (int 50) = "Cost-burdened (30–50%)"
      /\ getClassification (num := float) (dec 500001 4) = "Severely cost-burdened (>50%)")
  /\ (getClassification (num := Exact.xnum) (int 30) = "Ideal (≤30%)"
      /\ getClassification (num := Exact.xnum) (dec 300001 4) = "Cost-burdened (30–50%)"
      /\ getClassification (num := Exact.xnum) (int 50) = "Cost-burdened (30–50%)"
      /\ getClassification (num := Exact.xnum) (dec 500001 4) = "Severely cost-burdened (>50%)").
Proof.
  split; [| split; [| split]].
  - intros num N L p Hp. split; [| split; [| split]].
    + apply classify_ideal.
    + apply classify_burdened.
    + apply classify_severe.
    + apply classify_total. apply (leb_defined _ _ Hp).
  - repeat split; discriminate.
  - repeat split; vm_compute; reflexivity.
  - repeat split; vm_compute; reflexivity.
Qed.

End Thresholds.

(** C3, as amended.  The week count is 13 for every period that starts with
    the letter Q (Q1, Q2, Q3 and Q4 among them), 26 for "6 Months" and 52
    for "Full Year" and every other text that does not start with Q; it is
    one of the three for every text, so no period is rejected. *)
Theorem weeks_by_first_letter (period : string) :
  (startsWith period "Q" = true -> weeks period = 13)
  /\ (period = "6 Months" -> weeks period = 26)
  /\ (startsWith period "Q" = false -> period <> "6 Months" -> weeks period = 52)
  /\ (weeks period = 13 \/ weeks period = 26 \/ weeks period = 52)
  /\ (weeks "Q1" = 13 /\ weeks "Q2" = 13 /\ weeks "Q3" = 13 /\ weeks "Q4" = 13
      /\ weeks "6 Months" = 26 /\ weeks "Full Year" = 52)
  /\ (In period PERIOD_OPTIONS ->
      weeks period = if includes ["Q1"; "Q2"; "Q3"; "Q4"] period then 13
                     else if String.eqb period "6 Months" then 26 else 52).
Proof.
  split; [| split; [| split; [| split; [| split]]]].
  - unfold weeks. intros H. rewrite H. reflexivity.
  - intros H. subst period. reflexivity.
  - unfold weeks. intros H Hn. rewrite H.
    destruct (String.eqb_spec period "6 Months"); [contradiction | reflexivity].
  - apply weeks_cases.
  - repeat split; reflexivity.
  - unfold PERIOD_OPTIONS. simpl In.
    intros [H | [H | [H | [H | [H | [H | []]]]]]]; subst period; reflexivity.
Qed.

(* ================================================================= *)
(** ** The overspend of the whole period, in exact arithmetic *)

Section ExactOverspend.
Context {loc : Locale}.
Open Scope js_scope.

Lemma Qzero_eq (q : Q) : Qzero q = true -> (q == 0)%Q.
Proof.
  unfold Qzero, Qeq. intros H. apply Z.eqb_eq in H. rewrite H. reflexivity.
Qed.

Lemma XFin_eq (p q : Q) : (p == q)%Q -> XFin (Qred p) = XFin (Qred q).
Proof. intros H. f_equal. apply Qred_complete. exact H. Qed.

Lemma totalDiff_exact (np inc : Q) (w : Z) :
  w = 13 \/ w = 26 \/ w = 52 ->
  totalDiff (weeklyRent (XFin np) w) (affordableWeekly (XFin inc) w) w
  = XFin np - dec 3 1 * XFin inc.
Proof.
  intros Hw.
  unfold totalDiff, weeklyRent, affordableWeekly, truthy.
  cbn [isZero isNaN xnum_Number x_isZero x_isNaN sub mul div].
  rewrite orb_false_r.
  change (dec 3 1 : xnum) with (XFin (3 # 10)).
  change (int 0 : xnum) with (XFin (Qred 0)).
  destruct Hw as [E | [E | E]]; subst w.
  - change (int 13 : xnum) with (XFin (13 # 1)).
    destruct (Qzero inc) eqn:Hz; cbn [negb x_div x_sub x_mul Qzero Qnum Z.eqb];
      apply XFin_eq; rewrite ?Qred_correct.
    + apply Qzero_eq in Hz. rewrite Hz. field.
    + field.
  - change (int 26 : xnum) with (XFin (26 # 1)).
    destruct (Qzero inc) eqn:Hz; cbn [negb x_div x_sub x_mul Qzero Qnum Z.eqb];
      apply XFin_eq; rewrite ?Qred_correct.
    + apply Qzero_eq in Hz. rewrite Hz. field.
    + field.
  - change (int 52 : xnum) with (XFin (52 # 1)).
    destruct (Qzero inc) eqn:Hz; cbn [negb x_div x_sub x_mul Qzero Qnum Z.eqb];
      apply XFin_eq; rewrite ?Qred_correct.
    + apply Qzero_eq in Hz. rewrite Hz. field.
    + field.
Qed.

(** C9. In exact arithmetic the overspend or savings of the whole period,
    [(weeklyRent - affordableWeekly) * weeks], equals
    [nonPrincipal - 0.3 * income] for every income, non-principal total and
    period: the week count cancels, so the amount is the same whichever
    period is selected.  It holds for the amounts a derivation computes
    from the items as well. *)
Theorem period_overspend_is_independent_of_the_period :
  (forall (nonPrincipal income : Q) (period : string),
     totalDiff (weeklyRent (XFin nonPrincipal) (weeks period))
               (affordableWeekly (XFin income) (weeks period)) (weeks period)
     = sub (XFin nonPrincipal) (mul (dec 3 1) (XFin income))
     /\ sub (XFin nonPrincipal) (mul (dec 3 1) (XFin income))
        = XFin (Qred (nonPrincipal - (3 # 10) * income)))
  /\ (forall (nonPrincipal income : Q) (period1 period2 : string),
        totalDiff (weeklyRent (XFin nonPrincipal) (weeks period1))
                  (affordableWeekly (XFin income) (weeks period1)) (weeks period1)
        = totalDiff (weeklyRent (XFin nonPrincipal) (weeks period2))
                    (affordableWeekly (XFin income) (weeks period2)) (weeks period2))
  /\ (forall (items : list item) (period : string) (nonPrincipal income : Q),
        let r := derive (num := xnum) items period in
        r_nonPrincipal r = XFin nonPrincipal ->
        r_income r = XFin income ->
        totalDiff (r_weeklyRent r) (r_affordableWeekly r) (r_weeks r)
        = XFin (Qred (nonPrincipal - (3 # 10) * income))).
Proof.
  assert (H : forall (np inc : Q) (period : string),
             totalDiff (weeklyRent (XFin np) (weeks period))
                       (affordableWeekly (XFin inc) (weeks period)) (weeks period)
             = sub (XFin np) (mul (dec 3 1) (XFin inc))).
  { intros np inc period. apply totalDiff_exact. apply weeks_cases. }
  assert (E : forall np inc : Q,
             sub (XFin np) (mul (dec 3 1) (XFin inc)) = XFin (Qred (np - (3 # 10) * inc))).
  { intros np inc. change (dec 3 1 : xnum) with (XFin (3 # 10)).
    cbn [sub mul xnum_Number x_sub x_mul]. apply XFin_eq.
    rewrite Qred_correct. reflexivity. }
  split; [| split].
  - intros np inc period. split; [apply H | apply E].
  - intros np inc p1 p2. rewrite !H. reflexivity.
  - intros items period np inc r Hn Hi. subst r. unfold derive in *.
    cbn [r_nonPrincipal r_income r_weeklyRent r_affordableWeekly r_weeks] in *.
    rewrite Hn, Hi, H. apply E.
Qed.

(** In binary64 the two amounts can differ in the last place: for the
    items of the specification's example the product is not 100. *)
Remark period_overspend_rounds_in_binary64 :
  totalDiff (weeklyRent (int 400 : float) 52) (affordableWeekly (int 1000 : float) 52) 52
  <> sub (int 400 : float) (mul (dec 3 1) (int 1000)).
Proof.
  intros H. apply (f_equal (fun x => PrimFloat.eqb x (int 100))) in H.
  vm_compute in H. discriminate.
Qed.

End ExactOverspend.

(* ================================================================= *)
(** ** Division *)

Section NoDivisionByZero.
Context {num : Type} {N : Number num} {L : NumberLaws num}.
Variable z : num -> num -> num.
Open Scope js_scope.


Lemma div_by_nonzero (a b : num) :
  isZero b = false -> @div num (division_by_zero_is z) a b = a / b.
Proof.
  intros H. unfold division_by_zero_is, with_div. cbn [div]. rewrite H. reflexivity.
Qed.

Lemma pctIncome_same (income nonPrincipal : num) :
  @pctIncome num (division_by_zero_is z) income nonPrincipal = pctIncome income nonPrincipal.
Proof.
  unfold pctIncome. change (@truthy num (division_by_zero_is z) income) with (truthy income).
  destruct (truthy income) eqn:E; [| reflexivity].
  rewrite div_by_nonzero by (apply truthy_not_zero; exact E). reflexivity.
Qed.

Lemma weeklyRent_same (nonPrincipal : num) (period : string) :
  @weeklyRent num (division_by_zero_is z) nonPrincipal (weeks period) = weeklyRent nonPrincipal (weeks period).
Proof.
  unfold weeklyRent. change (@int num (division_by_zero_is z)) with (@int num N).
  apply div_by_nonzero. apply int_weeks_nonzero.
Qed.

Lemma affordableWeekly_same (income : num) (period : string) :
  @affordableWeekly num (division_by_zero_is z) income (weeks period) = affordableWeekly income (weeks period).
Proof.
  unfold affordableWeekly. change (@truthy num (division_by_zero_is z) income) with (truthy income).
  destruct (truthy income); [| reflexivity].
  change (@int num (division_by_zero_is z)) with (@int num N).
  rewrite div_by_nonzero by apply int_weeks_nonzero. reflexivity.
Qed.

Lemma tableRow_same (income affordableWeekly : num) (it : entry num) :
  @tableRow num (division_by_zero_is z) income affordableWeekly it = tableRow income affordableWeekly it.
Proof.
  unfold tableRow.
  destruct (String.eqb (ename it) "Estimated Weekly Rent"); [reflexivity |].
  destruct (includes _ (ename it)); [reflexivity |].
  change (@truthy num (division_by_zero_is z) income) with (truthy income).
  destruct (truthy income) eqn:E; [| reflexivity].
  rewrite div_by_nonzero by (apply truthy_not_zero; exact E). reflexivity.
Qed.

Lemma templates_same (period : string) (parsed : list (entry num))
    (income nonPrincipal pctIncome weeklyRent affordableWeekly : num) (weeks : Z) :
  @templates num (division_by_zero_is z) period parsed income nonPrincipal pctIncome weeklyRent affordableWeekly weeks
  = templates period parsed income nonPrincipal pctIncome weeklyRent affordableWeekly weeks.
Proof.
  unfold templates.
  destruct (find_first _ parsed) as [pp |]; [| reflexivity].
  change (@truthy num (division_by_zero_is z) income) with (truthy income).
  destruct (truthy income) eqn:E; [| reflexivity].
  rewrite div_by_nonzero by (apply truthy_not_zero; exact E). reflexivity.
Qed.

Lemma tableData_same (final : list (entry num)) (income affordableWeekly : num) :
  @tableData num (division_by_zero_is z) final income affordableWeekly = tableData final income affordableWeekly.
Proof. unfold tableData. apply map_ext. apply tableRow_same. Qed.

Lemma derive_same (items : list item) (period : string) :
  @derive num (division_by_zero_is z) items period = derive items period.
Proof.
  unfold derive.
  change (@parsed num (division_by_zero_is z) items) with (parsed items).
  change (@income num (division_by_zero_is z)) with (@income num N).
  change (@nonPrincipal num (division_by_zero_is z)) with (@nonPrincipal num N).
  change (@exp30 num (division_by_zero_is z)) with (@exp30 num N).
  change (@exp50 num (division_by_zero_is z)) with (@exp50 num N).
  change (@getClassification num (division_by_zero_is z)) with (@getClassification num N).
  change (@finalItems num (division_by_zero_is z)) with (@finalItems num N).
  change (@chartItems num (division_by_zero_is z)) with (@chartItems num N).
  rewrite pctIncome_same, weeklyRent_same, affordableWeekly_same, templates_same,
    tableData_same.
  reflexivity.
Qed.
End NoDivisionByZero.

(** Rounding to binary64 never gives [NaN]: the mantissa stays
    non-negative through the shifts. *)
Section Rounding.

Lemma shr_1_nonneg (mrs : shr_record) : 0 <= shr_m mrs -> 0 <= shr_m (shr_1 mrs).
Proof.
  destruct mrs as [m r s]. cbn [shr_m]. intros H.
  destruct m as [| [p | p |] | p]; cbn [shr_1 shr_m]; lia.
Qed.

Lemma iter_shr_1_nonneg (p : positive) (mrs : shr_record) :
  0 <= shr_m mrs -> 0 <= shr_m (iter_pos shr_1 p mrs).
Proof.
  revert mrs. induction p as [p IH | p IH |]; intros mrs H; cbn [iter_pos].
  - apply IH, IH, shr_1_nonneg, H.
  - apply IH, IH, H.
  - apply shr_1_nonneg, H.
Qed.

Lemma shr_fexp_nonneg (m e : Z) (l : location) :
  0 <= m -> 0 <= shr_m (fst (shr_fexp prec emax m e l)).
Proof.
  intros H. unfold shr_fexp, shr.
  assert (H0 : 0 <= shr_m (shr_record_of_loc m l)) by (destruct l as [| []]; exact H).
  destruct (fexp prec emax (Zdigits2 m + e) - e); cbn [fst]; try exact H0.
  apply iter_shr_1_nonneg, H0.
Qed.

Lemma round_nearest_even_nonneg (m : Z) (l : location) : 0 <= m -> 0 <= round_nearest_even m l.
Proof.
  intros H. destruct l as [| []]; cbn [round_nearest_even]; try exact H; [| lia].
  destruct (Z.even m); lia.
Qed.

Lemma binary_round_aux_not_nan (sx : bool) (mx ex : Z) (lx : location) :
  0 <= mx -> binary_round_aux prec emax sx mx ex lx <> S754_nan.
Proof.
  intros H. unfold binary_round_aux.
  pose proof (shr_fexp_nonneg mx ex lx H) as H1.
  destruct (shr_fexp prec emax mx ex lx) as [mrs' e']. cbn [fst] in H1.
  pose proof (shr_fexp_nonneg _ e' loc_Exact
                (round_nearest_even_nonneg _ (loc_of_shr_record mrs') H1)) as H2.
  destruct (shr_fexp prec emax (round_nearest_even (shr_m mrs') (loc_of_shr_record mrs')) e' loc_Exact)
    as [mrs'' e'']. cbn [fst] in H2.
  destruct (shr_m mrs'') as [| m | m]; [discriminate | | lia].
  destruct (e'' <=? emax - prec); discriminate.
Qed.

Lemma binary_normalize_not_nan (m e : Z) (szero : bool) :
  binary_normalize prec emax m e szero <> S754_nan.
Proof.
  unfold binary_normalize. destruct m as [| p | p]; [discriminate | |];
    unfold binary_round; destruct (shl_align _ _ _) as [mz ez];
    apply binary_round_aux_not_nan; lia.
Qed.

(** A product with a finite number that is not zero is [NaN] only when
    the other factor is. *)
Lemma SFmul_not_nan (x : spec_float) (s : bool) (m : positive) (e : Z) :
  x <> S754_nan -> SFmul prec emax x (S754_finite s m e) <> S754_nan.
Proof.
  intros Hx. destruct x as [sx | sx | | sx mx ex]; cbn [SFmul]; try discriminate.
  - contradiction.
  - apply binary_round_aux_not_nan. lia.
Qed.

(** A quotient by a finite number that is not zero is [NaN] only when the
    dividend is. *)
Lemma SFdiv_finite_not_nan (x : spec_float) (s : bool) (m : positive) (e : Z) :
  x <> S754_nan -> SFdiv prec emax x (S754_finite s m e) <> S754_nan.
Proof.
  intros Hx. destruct x as [sx | sx | | sx mx ex]; cbn [SFdiv]; try discriminate.
  - contradiction.
  - unfold SFdiv_core_binary.
    set (m' := match _ - _ - _ with Z0 => _ | Zpos _ => _ | Zneg _ => _ end).
    assert (Hm : 0 <= m').
    { subst m'. destruct (_ - _ - _); try lia. apply Z.shiftl_nonneg. lia. }
    pose proof (Z_div_mod m' (Zpos m) ltac:(lia)) as Hd.
    destruct (Z.div_eucl m' (Z.pos m)) as [q r].
    apply binary_round_aux_not_nan. destruct Hd as [Hd Hr]. nia.
Qed.

(** A quotient by an infinite number is [NaN] only when the dividend is
    [NaN] or infinite. *)
Lemma SFdiv_by_infinity_not_nan (x : spec_float) (s : bool) :
  x <> S754_nan -> (forall t, x <> S754_infinity t) ->
  SFdiv prec emax x (S754_infinity s) <> S754_nan.
Proof.
  intros Hx Hi. destruct x as [sx | sx | | sx mx ex]; cbn [SFdiv]; try discriminate.
  - exfalso. apply (Hi sx). reflexivity.
  - contradiction.
Qed.

(** A sum is [NaN] only when a term is [NaN] or both are infinite. *)
Lemma SFadd_not_nan (x y : spec_float) :
  x <> S754_nan -> y <> S754_nan -> (forall s, y <> S754_infinity s) ->
  SFadd prec emax x y <> S754_nan.
Proof.
  intros Hx Hy Hi.
  destruct x as [sx | sx | | sx mx ex]; destruct y as [sy | sy | | sy my ey];
    cbn [SFadd]; try discriminate; try contradiction;
    try (exfalso; apply (Hi sy); reflexivity).
  - destruct sx, sy; discriminate.
  - apply binary_normalize_not_nan.
Qed.

End Rounding.

Section FiniteResults.
Context {loc : Locale}.
Open Scope js_scope.

Lemma exact_quotients_finite (nonPrincipal income : Q) (period : string) :
  (exists q, pctIncome (XFin income) (XFin nonPrincipal) = XFin q)
  /\ (exists q, weeklyRent (XFin nonPrincipal) (weeks period) = XFin q)
  /\ (exists q, affordableWeekly (XFin income) (weeks period) = XFin q).
Proof.
  unfold pctIncome, weeklyRent, affordableWeekly, truthy.
  cbn [isZero isNaN xnum_Number x_isZero x_isNaN mul div].
  rewrite orb_false_r.
  change (int 0 : xnum) with (XFin (Qred 0)).
  change (int 100 : xnum) with (XFin (100 # 1)).
  change (dec 3 1 : xnum) with (XFin (3 # 10)).
  assert (W : exists w : Q, int (weeks period) = XFin w /\ Qzero w = false).
  { destruct (weeks_cases period) as [E | [E | E]]; rewrite E;
      [exists (13 # 1) | exists (26 # 1) | exists (52 # 1)]; split; reflexivity. }
  destruct W as [w [Ew Hw]]. rewrite Ew. cbn [x_div]. rewrite Hw.
  destruct (Qzero income) eqn:Hz; cbn [negb x_div x_mul]; try rewrite Hz;
    repeat split; eexists; reflexivity.
Qed.

Lemma is_infinity_spec (x : float) :
  PrimFloat.is_infinity x = true <-> exists s, Prim2SF x = S754_infinity s.
Proof.
  unfold PrimFloat.is_infinity. rewrite eqb_spec, abs_spec.
  change (Prim2SF PrimFloat.infinity) with (S754_infinity false).
  destruct (Prim2SF x) as [s | s | | s m e]; cbn; split.
  - discriminate.
  - intros [t H]. discriminate H.
  - intros _. exists s. reflexivity.
  - reflexivity.
  - discriminate.
  - intros [t H]. discriminate H.
  - discriminate.
  - intros [t H]. discriminate H.
Qed.

Lemma not_infinite_spec (x : float) :
  PrimFloat.is_infinity x = false -> forall s, Prim2SF x <> S754_infinity s.
Proof.
  intros H s E.
  assert (Hx : PrimFloat.is_infinity x = true) by (apply is_infinity_spec; exists s; exact E).
  congruence.
Qed.

Lemma nonzero_spec (x : float) : PrimFloat.is_zero x = false -> forall s, Prim2SF x <> S754_zero s.
Proof.
  unfold PrimFloat.is_zero. rewrite eqb_spec.
  change (Prim2SF PrimFloat.zero) with (S754_zero false).
  intros H s E. rewrite E in H. discriminate H.
Qed.

Lemma defined_spec (x : float) : PrimFloat.is_nan x = false -> Prim2SF x <> S754_nan.
Proof. intros H E. apply is_nan_spec in E. congruence. Qed.

Lemma weeks_finite (period : string) :
  exists s m e, Prim2SF (int (weeks period) : float) = S754_finite s m e.
Proof.
  destruct (weeks_cases period) as [E | [E | E]]; rewrite E;
    vm_compute; do 3 eexists; reflexivity.
Qed.

Lemma weeklyRent_defined (nonPrincipal : float) (period : string) :
  isNaN nonPrincipal = false -> isNaN (weeklyRent nonPrincipal (weeks period)) = false.
Proof.
  intros Hn. destruct (weeks_finite period) as [s [m [e E]]].
  apply not_nan_spec. unfold weeklyRent. cbn [div float_Number].
  rewrite div_spec, E. apply SFdiv_finite_not_nan, defined_spec, Hn.
Qed.

Lemma affordableWeekly_defined (income : float) (period : string) :
  isNaN income = false -> isNaN (affordableWeekly income (weeks period)) = false.
Proof.
  intros Hi. unfold affordableWeekly. destruct (truthy income); [| reflexivity].
  destruct (weeks_finite period) as [s [m [e E]]].
  assert (E3 : exists s m e, Prim2SF (dec 3 1 : float) = S754_finite s m e)
    by (vm_compute; do 3 eexists; reflexivity).
  destruct E3 as [s3 [m3 [e3 E3]]].
  apply not_nan_spec. cbn [mul div float_Number].
  rewrite mul_spec, E3. apply SFmul_not_nan.
  rewrite div_spec, E. apply SFdiv_finite_not_nan, defined_spec, Hi.
Qed.

Lemma pctIncome_defined (income nonPrincipal : float) :
  isNaN nonPrincipal = false -> isNaN income = false ->
  PrimFloat.is_infinity nonPrincipal && PrimFloat.is_infinity income = false ->
  isNaN (pctIncome income nonPrincipal) = false.
Proof.
  intros Hn Hi Hinf. unfold pctIncome. destruct (truthy income) eqn:Ht; [| reflexivity].
  assert (E100 : exists s m e, Prim2SF (int 100 : float) = S754_finite s m e)
    by (vm_compute; do 3 eexists; reflexivity).
  destruct E100 as [s1 [m1 [e1 E100]]].
  apply not_nan_spec. cbn [mul div float_Number].
  rewrite mul_spec, E100. apply SFmul_not_nan. rewrite div_spec.
  pose proof (defined_spec _ Hn) as Dn. pose proof (defined_spec _ Hi) as Di.
  pose proof (nonzero_spec _ (truthy_not_zero _ Ht)) as Zi.
  destruct (Prim2SF income) as [s | s | | s m e] eqn:Ei.
  - exfalso. apply (Zi s). reflexivity.
  - apply SFdiv_by_infinity_not_nan; [exact Dn |].
    assert (Hy : PrimFloat.is_infinity income = true)
      by (apply is_infinity_spec; exists s; exact Ei).
    rewrite Hy, andb_true_r in Hinf. apply not_infinite_spec. exact Hinf.
  - contradiction.
  - apply SFdiv_finite_not_nan. exact Dn.
Qed.

Lemma add_defined (x y : float) :
  isNaN x = false -> isNaN y = false -> PrimFloat.is_infinity y = false ->
  isNaN (x + y) = false.
Proof.
  intros Hx Hy Hi. apply not_nan_spec. cbn [add float_Number]. rewrite add_spec.
  apply SFadd_not_nan; [apply defined_spec, Hx | apply defined_spec, Hy |].
  apply not_infinite_spec. exact Hi.
Qed.

Lemma sum_defined (vs : list (entry float)) (total : float) :
  isNaN total = false ->
  (forall n, In n vs -> isNaN (value n) = false /\ PrimFloat.is_infinity (value n) = false) ->
  isNaN (fold_left (fun sum n => sum + value n) vs total) = false.
Proof.
  revert total. induction vs as [| n vs IH]; intros total Ht Hv; [exact Ht |].
  cbn [fold_left]. apply IH.
  - destruct (Hv n (or_introl eq_refl)) as [H1 H2]. apply add_defined; assumption.
  - intros m Hm. apply Hv. right. exact Hm.
Qed.

Lemma nonPrincipal_defined (items : list item) :
  (forall it, In it items -> PrimFloat.is_infinity (parseAmount (num := float) (amount it)) = false) ->
  isNaN (nonPrincipal (parsed (num := float) items)) = false.
Proof.
  intros H. unfold nonPrincipal. apply sum_defined; [reflexivity |].
  intros n Hn. apply filter_In in Hn. destruct Hn as [Hn _].
  unfold parsed in Hn. apply in_map_iff in Hn. destruct Hn as [it [E Hit]]. subst n.
  cbn [value]. split; [apply (parseAmount_defined (L := float_laws)) | apply H, Hit].
Qed.

Lemma value_of_defined (key : string) (ps : list (entry float)) :
  isNaN (value_of key ps) = false.
Proof.
  unfold value_of. destruct (find_first _ ps) as [n |]; [| reflexivity].
  unfold or_else. destruct (truthy (value n)) eqn:E; [| reflexivity].
  apply truthy_defined. exact E.
Qed.

Lemma value_of_not_infinite (key : string) (items : list item) :
  (forall it, In it items -> PrimFloat.is_infinity (parseAmount (num := float) (amount it)) = false) ->
  PrimFloat.is_infinity (value_of key (parsed (num := float) items)) = false.
Proof.
  intros H. unfold value_of, find_first.
  destruct (find _ (parsed items)) as [n |] eqn:E; [| reflexivity].
  apply find_some in E. destruct E as [Hn _].
  unfold parsed in Hn. apply in_map_iff in Hn. destruct Hn as [it [E Hit]]. subst n.
  cbn [value]. unfold or_else. destruct (truthy _); [apply H, Hit | reflexivity].
Qed.

(** C10, as amended.  Every division of the derivation has a divisor that
    is not zero.  The week count is 13, 26 or 52, never 0; a division by
    income is only evaluated under the guard [income ? ... : ...], which
    holds only for an income that is not zero, and without it the
    percentage of income and the affordable weekly rent are 0.  So the
    result of a derivation does not depend on what a division by zero
    would yield, for every input.  The three figures are numbers for
    every input whose amounts are finite: in exact arithmetic the
    percentage of income, the weekly rent and the affordable weekly rent
    of finite amounts are finite, and in binary64 they are not [NaN] when
    no parsed amount is infinite.  More precisely, in binary64 the weekly
    rent is a number when the non-principal total is one, the income and
    the affordable weekly rent are numbers for every input, and the
    percentage of income is a number when the total is one and total and
    income are not both infinite. *)
Theorem every_division_has_a_nonzero_divisor :
  (forall (num : Type) (N : Number num) (L : NumberLaws num),
     (forall period : string,
        (weeks period = 13 \/ weeks period = 26 \/ weeks period = 52)
        /\ isZero (int (weeks period) : num) = false)
     /\ (forall income : num, truthy income = true -> isZero income = false)
     /\ (forall income nonPrincipal : num,
           truthy income = false -> pctIncome income nonPrincipal = int 0)
     /\ (forall (income : num) (w : Z),
           truthy income = false -> affordableWeekly income w = int 0)
     /\ (forall (z : num -> num -> num) (items : list item) (period : string),
           derive (N := division_by_zero_is z) items period = derive items period))
  /\ (forall (nonPrincipal income : Q) (period : string),
        (exists q, pctIncome (XFin income) (XFin nonPrincipal) = XFin q)
        /\ (exists q, weeklyRent (XFin nonPrincipal) (weeks period) = XFin q)
        /\ (exists q, affordableWeekly (XFin income) (weeks period) = XFin q))
  /\ (forall (nonPrincipal income : float) (period : string),
        isNaN nonPrincipal = false -> isNaN income = false ->
        isNaN (weeklyRent nonPrincipal (weeks period)) = false
        /\ isNaN (affordableWeekly income (weeks period)) = false
        /\ (PrimFloat.is_infinity nonPrincipal && PrimFloat.is_infinity income = false ->
            isNaN (pctIncome income nonPrincipal) = false))
  /\ (forall (items : list item) (period : string),
        let r := derive (num := float) items period in
        isNaN (r_income r) = false
        /\ isNaN (r_affordableWeekly r) = false
        /\ ((forall it, In it items ->
               PrimFloat.is_infinity (parseAmount (num := float) (amount it)) = false) ->
            isNaN (r_nonPrincipal r) = false
            /\ isNaN (r_pctIncome r) = false
            /\ isNaN (r_weeklyRent r) = false)).
Proof.
  split; [| split; [| split]].
  - intros num N L. split; [| split; [| split; [| split]]].
    + intros period. split; [apply weeks_cases | apply int_weeks_nonzero].
    + apply truthy_not_zero.
    + intros income nonPrincipal H. unfold pctIncome. rewrite H. reflexivity.
    + intros income w H. unfold affordableWeekly. rewrite H. reflexivity.
    + intros z items period. apply derive_same.
  - apply exact_quotients_finite.
  - intros nonPrincipal income period Hn Hi. split; [| split].
    + apply weeklyRent_defined, Hn.
    + apply affordableWeekly_defined, Hi.
    + apply pctIncome_defined; assumption.
  - intros items period r. subst r. unfold derive.
    cbn [r_income r_affordableWeekly r_nonPrincipal r_pctIncome r_weeklyRent].
    pose proof (value_of_defined "Earnings" (parsed items)) as Hi.
    split; [exact Hi | split; [apply affordableWeekly_defined, Hi |]].
    intros Hfin. pose proof (nonPrincipal_defined items Hfin) as Hn.
    split; [exact Hn | split; [| apply weeklyRent_defined, Hn]].
    apply pctIncome_defined; [exact Hn | exact Hi |].
    unfold income. rewrite (value_of_not_infinite "Earnings" items Hfin).
    apply andb_false_r.
Qed.

End FiniteResults.

(* ================================================================= *)
(** ** The theorems at concrete inputs *)

(** The concrete inputs are evaluated in an environment whose locale is
    en-US. *)
#[export] Existing Instance en_US_locale.

Lemma reachable_run (ip iy : string) (events : list event) : reachable ip iy (run ip iy events).
Proof.
  unfold run. generalize (reach_initial ip iy). generalize (initialState ip iy) as s.
  induction events as [| e rest IH]; intros s Hs; [exact Hs |].
  cbn [fold_left]. apply IH. apply reach_step. exact Hs.
Qed.

(** The worked example of the specification, in binary64. *)
Example spec_example_binary64 :
  let r := derive (num := float) spec_items "Full Year" in
  r_nonPrincipal r = int 400
  /\ r_pctIncome r = int 40
  /\ r_classification r = "Cost-burdened (30–50%)"
  /\ toFixed2 (r_weeklyRent r) = "7.69"
  /\ toFixed2 (r_affordableWeekly r) = "5.77"
  /\ map rname (r_chartItems r)
     = ["Rent/Interest Paid"; "Insurance Paid"; "Principal Paid";
        "Total Non-Principal Housing Expense"; "Total Mortgage Outlay"]
  /\ r_templates r
     = ["Non-Principal Housing Expense (Full Year): $400 (40.00% of income)";
        "Classification: Cost-burdened (30–50%)";
        "Principal Paid: $100 (10.00% of income)";
        "Total overspending for Full Year: $100"].
Proof. vm_compute. repeat split; reflexivity. Qed.

(** What [parseFloat(...) || 0] makes of some texts, in binary64: commas
    are dropped, a numeral at the head is read and the rest ignored, and a
    text without one is 0. *)
Example parseAmount_examples :
  map (parseAmount (num := float)) ["1,234.50"; "abc"; ""; "12abc"; " 7"; "-0"; ".5"; "1e3"; "$40"]
  = [dec 12345 1; int 0; int 0; int 12; int 7; int 0; dec 5 1; int 1000; int 0].
Proof. vm_compute. reflexivity. Qed.

(** The chart threshold is applied to the printed percent: 3.996 percent
    prints as 4.00% and the row is kept, 3.99 percent is left out. *)
Example chart_threshold_on_printed_percent :
  map rname (r_chartItems (derive (num := float)
    [ {| name := "Earnings"; amount := "100000" |};
      {| name := "Insurance Paid"; amount := "3996" |};
      {| name := "Maintenance"; amount := "3990" |} ] "Full Year"))
  = ["Insurance Paid"; "Total Non-Principal Housing Expense"].
Proof. vm_compute. reflexivity. Qed.

Lemma nonPrincipal_witness :
  reachable "Full Year" "2024" (run "Full Year" "2024" example_session)
  /\ items (run "Full Year" "2024" example_session) = (spec_items ++ added_row :: [])%list
  /\ user_added (List.length spec_items) = true
  /\ interior (name added_row) = false
  /\ nonPrincipal (parsed (num := float) (items (run "Full Year" "2024" example_session)))
     = nonPrincipal (parsed (num := float) (spec_items ++ [])).
Proof.
  pose proof (reachable_run "Full Year" "2024" example_session) as Hr.
  assert (Hi : items (run "Full Year" "2024" example_session)
               = (spec_items ++ added_row :: [])%list) by reflexivity.
  assert (Hu : user_added (List.length spec_items) = true) by reflexivity.
  split; [exact Hr | split; [exact Hi | split; [exact Hu |]]].
  exact (proj2 (proj2 (proj2 (proj2 (proj2
           (nonPrincipal_is_sum_of_interior_categories (num := float))))))
           "Full Year" "2024" _ spec_items [] added_row Hr Hi Hu).
Defined.

Lemma classification_witness :
  leb (int 0 : float) (int 40) = true
  /\ ltb (int 30 : float) (int 40) = true
  /\ leb (int 40 : float) (int 50) = true
  /\ getClassification (int 40 : float) = "Cost-burdened (30–50%)".
Proof.
  assert (H0 : leb (int 0 : float) (int 40) = true) by reflexivity.
  assert (H1 : ltb (int 30 : float) (int 40) = true) by reflexivity.
  assert (H2 : leb (int 40 : float) (int 50) = true) by reflexivity.
  split; [exact H0 | split; [exact H1 | split; [exact H2 |]]].
  exact (proj1 (proj2 (proj1 classification_by_thresholds float _ _ (int 40) H0)) H1 H2).
Defined.

(** C3, the claim as stated fails: "Q5" is none of the six periods, yet its
    week count is 13 and not 52. *)
Lemma weeks_of_an_unlisted_period_in_Q :
  ~ In "Q5" PERIOD_OPTIONS /\ weeks "Q5" = 13 /\ weeks "Q5" <> 52.
Proof.
  split; [| split].
  - simpl. intros H. repeat (destruct H as [H | H]; [discriminate |]). exact H.
  - reflexivity.
  - discriminate.
Qed.

Lemma weeks_witness :
  startsWith "Quarterly" "Q" = true /\ weeks "Quarterly" = 13.
Proof.
  assert (H : startsWith "Quarterly" "Q" = true) by reflexivity.
  split; [exact H |].
  exact (proj1 (weeks_by_first_letter "Quarterly") H).
Defined.

(** C4, the claim as stated fails: with every amount empty the income is 0,
    and the row "Estimated Weekly Rent", which is neither "Earnings" nor
    "Affordable Weekly Rent", has the percent field "Under by $0". *)
Lemma estimated_weekly_rent_has_text_without_income :
  let d := {| rname := "Estimated Weekly Rent"; rvalue := int 0 : float;
              percent := "Under by $0" |} in
  In d (r_tableData (derive (num := float) initialItems "Full Year"))
  /\ r_income (derive (num := float) initialItems "Full Year") = int 0
  /\ rname d <> "Earnings"
  /\ rname d <> "Affordable Weekly Rent"
  /\ percent d <> "".
Proof.
  cbv zeta. split; [| split; [| split; [| split]]].
  - vm_compute. do 8 right. left. reflexivity.
  - vm_compute. reflexivity.
  - discriminate.
  - discriminate.
  - discriminate.
Qed.

Lemma percent_witness :
  let d := {| rname := "Rent/Interest Paid"; rvalue := int 520 : float; percent := "" |} in
  let w := {| rname := "Estimated Weekly Rent"; rvalue := int 40 : float;
              percent := "Overspending by $40" |} in
  In d (r_tableData (derive (num := float) items_without_income "Q1"))
  /\ isZero (r_income (derive (num := float) items_without_income "Q1")) = true
  /\ rname d <> "Estimated Weekly Rent"
  /\ percent d = ""
  /\ In w (r_tableData (derive (num := float) items_without_income "Q1"))
  /\ rname w = "Estimated Weekly Rent"
  /\ percent w <> "".
Proof.
  cbv zeta.
  set (d := {| rname := "Rent/Interest Paid"; rvalue := int 520 : float; percent := "" |}).
  set (w := {| rname := "Estimated Weekly Rent"; rvalue := int 40 : float;
               percent := "Overspending by $40" |}).
  assert (Hin : In d (r_tableData (derive (num := float) items_without_income "Q1"))).
  { vm_compute. right. left. reflexivity. }
  assert (Hz : isZero (r_income (derive (num := float) items_without_income "Q1")) = true)
    by reflexivity.
  assert (Hn : rname d <> "Estimated Weekly Rent") by discriminate.
  assert (Hw : In w (r_tableData (derive (num := float) items_without_income "Q1"))).
  { vm_compute. do 8 right. left. reflexivity. }
  assert (Ew : rname w = "Estimated Weekly Rent") by reflexivity.
  split; [exact Hin | split; [exact Hz | split; [exact Hn | split; [| split; [exact Hw | split; [exact Ew |]]]]]].
  - exact (proj1 (proj2 (percent_empty_for_reserved_rows_and_without_income
                           items_without_income "Q1" d Hin)) Hz Hn).
  - exact (proj2 (proj1 (proj2 (proj2 (percent_empty_for_reserved_rows_and_without_income
                                         items_without_income "Q1" w Hw))) Ew)).
Defined.

Lemma chart_witness :
  let r := derive (num := float) spec_items "Full Year" in
  let kept := {| rname := "Insurance Paid"; rvalue := int 50 : float; percent := "5.00%" |} in
  let dropped := {| rname := "Rates (Taxes)"; rvalue := int 30 : float; percent := "3.00%" |} in
  In kept (r_tableData r)
  /\ leb (int 4) (parseFloat (num := float) (percent kept)) = true
  /\ In kept (r_chartItems r)
  /\ In dropped (r_tableData r)
  /\ ltb (parseFloat (num := float) (percent dropped)) (int 4) = true
  /\ ~ In dropped (r_chartItems r).
Proof.
  cbv zeta.
  set (kept := {| rname := "Insurance Paid"; rvalue := int 50 : float; percent := "5.00%" |}).
  set (dropped := {| rname := "Rates (Taxes)"; rvalue := int 30 : float; percent := "3.00%" |}).
  assert (Hk : In kept (r_tableData (derive (num := float) spec_items "Full Year"))).
  { vm_compute. do 2 right. left. reflexivity. }
  assert (Hge : leb (int 4) (parseFloat (num := float) (percent kept)) = true) by reflexivity.
  assert (Hd : In dropped (r_tableData (derive (num := float) spec_items "Full Year"))).
  { vm_compute. do 4 right. left. reflexivity. }
  assert (Hlt : ltb (parseFloat (num := float) (percent dropped)) (int 4) = true) by reflexivity.
  assert (Hne : rname kept <> "Earnings") by discriminate.
  split; [exact Hk | split; [exact Hge | split; [| split; [exact Hd | split; [exact Hlt |]]]]].
  - exact (proj2 (proj1 (chart_series_keeps_percent_from_4 (L := float_laws)
                           spec_items "Full Year" kept))
                 (conj Hk (conj Hne Hge))).
  - exact (proj1 (proj2 (chart_series_keeps_percent_from_4 (L := float_laws)
                           spec_items "Full Year" dropped)) Hlt).
Defined.

Lemma narrative_witness :
  reachable "Q1" "2024" (run "Q1" "2024" example_session)
  /\ List.length (r_templates (derive (num := float)
       (items (run "Q1" "2024" example_session))
       (period (run "Q1" "2024" example_session)))) = 4%nat.
Proof.
  pose proof (reachable_run "Q1" "2024" example_session) as Hr.
  split; [exact Hr |].
  exact (proj2 (proj2 (narrative_line_count (num := float))) "Q1" "2024" _ Hr).
Defined.

(** C7, the claim as stated fails: the texts 12abc and 1.5.5 are no
    numbers ([Number] of them is [NaN]), yet parsing them as amounts gives
    12 and 1.5, not 0. *)
Lemma text_after_a_numeral_is_ignored :
  isNaN (toNumber (num := float) "12abc") = true
  /\ parseAmount (num := float) "12abc" = int 12
  /\ isZero (parseAmount (num := float) "12abc") = false
  /\ isNaN (toNumber (num := float) "1.5.5") = true
  /\ parseAmount (num := float) "1.5.5" = dec 15 1
  /\ isZero (parseAmount (num := float) "1.5.5") = false.
Proof. vm_compute. repeat split; reflexivity. Qed.

Lemma parseAmount_witness :
  (0 <= 12 /\ ends_integer (remove_commas "abc") = true
   /\ parseAmount (num := float) "12abc" = int 12)
  /\ (0 <= 1234 /\ 0 <= 50 < 100 /\ ends_fraction (remove_commas "") = true
      /\ parseAmount (num := float) "1,234.50" = dec 12345 1)
  /\ (blank " " = true /\ all_digits "1" = true /\ all_digits "5" = true
      /\ ends_fraction ".5" = true
      /\ remove_commas " -1.5.5" = " " ++ "-" ++ "1" ++ "." ++ "5" ++ ".5"
      /\ parseAmount (num := float) " -1.5.5" = dec (-15) 1)
  /\ (truthy (parseFloat (num := float) (remove_commas "1,234.50")) = true
      /\ parseAmount (num := float) "1,234.50" = parseFloat (remove_commas "1,234.50"))
  /\ (decimal_prefix (trim_start (remove_commas "n/a")) = None
      /\ parseAmount (num := float) "n/a" = int 0).
Proof.
  assert (H12 : 0 <= 12) by lia.
  assert (He : ends_integer (remove_commas "abc") = true) by reflexivity.
  assert (Ha : 0 <= 1234) by lia.
  assert (Hb : 0 <= 50 < 100) by lia.
  assert (Hf : ends_fraction (remove_commas "") = true) by reflexivity.
  assert (Hw : blank " " = true) by reflexivity.
  assert (Hs : "-" = "" \/ "-" = "+" \/ "-" = "-") by (right; right; reflexivity).
  assert (Hi : all_digits "1" = true) by reflexivity.
  assert (Hd : all_digits "5" = true) by reflexivity.
  assert (Hne : "1" ++ "5" <> "") by discriminate.
  assert (Hr : ends_fraction ".5" = true) by reflexivity.
  assert (Ec : remove_commas " -1.5.5" = " " ++ "-" ++ "1" ++ "." ++ "5" ++ ".5") by reflexivity.
  assert (Ht : truthy (parseFloat (num := float) (remove_commas "1,234.50")) = true)
    by reflexivity.
  assert (Hn : decimal_prefix (trim_start (remove_commas "n/a")) = None) by reflexivity.
  pose proof (parseAmount_fails_soft_to_zero (L := float_laws) "1,234.50")
    as [_ [_ [_ [H4 [_ [_ [_ [H8 [H9 _]]]]]]]]].
  pose proof (parseAmount_fails_soft_to_zero (L := float_laws) "n/a")
    as [_ [_ [_ [_ [_ [H6 _]]]]]].
  pose proof (parseAmount_fails_soft_to_zero (L := float_laws) " -1.5.5")
    as [_ [_ [_ [_ [_ [_ [_ [_ [_ [_ [H11 _]]]]]]]]]]].
  split; [| split; [| split; [| split]]].
  - split; [exact H12 | split; [exact He |]].
    change "12abc" with (Z_digits 12 ++ "abc").
    rewrite (proj1 (H8 12 "abc" H12 He)). vm_compute. reflexivity.
  - split; [exact Ha | split; [exact Hb | split; [exact Hf |]]].
    change "1,234.50" with (group3 (Z_digits 1234) ++ "." ++ pad_digits 2 50 ++ "").
    rewrite (proj2 (H9 1234 50 "" Ha Hb Hf)). vm_compute. reflexivity.
  - split; [exact Hw | split; [exact Hi | split; [exact Hd | split; [exact Hr | split; [exact Ec |]]]]].
    rewrite (H11 " " "-" "1" "5" ".5" Hw Hs Hi Hd Hne Hr Ec). vm_compute. reflexivity.
  - split; [exact Ht | exact (H4 Ht)].
  - split; [exact Hn | exact (H6 Hn)].
Defined.

Lemma overspend_witness :
  let r := derive (num := xnum) spec_items "Q1" in
  r_nonPrincipal r = XFin 400
  /\ r_income r = XFin 1000
  /\ totalDiff (r_weeklyRent r) (r_affordableWeekly r) (r_weeks r)
     = XFin (Qred (400 - (3 # 10) * 1000)).
Proof.
  cbv zeta.
  assert (Hn : r_nonPrincipal (derive (num := xnum) spec_items "Q1") = XFin 400) by reflexivity.
  assert (Hi : r_income (derive (num := xnum) spec_items "Q1") = XFin 1000) by reflexivity.
  split; [exact Hn | split; [exact Hi |]].
  exact (proj2 (proj2 period_overspend_is_independent_of_the_period)
           spec_items "Q1" 400%Q 1000%Q Hn Hi).
Defined.

(** C10, the claim as stated fails: the word Infinity is an amount like
    any other.  With infinite earnings and an infinite rent the income is
    not zero, so the guard holds, and the percentage of income is
    [Infinity / Infinity], which is [NaN]; with an infinite rent and an
    insurance of minus infinity the non-principal total is [NaN], and so
    is the weekly rent, although the week count is not zero. *)
Lemma infinite_amounts_are_not_well_defined :
  let r := derive (num := float) items_with_infinite_amounts "Full Year" in
  let r' := derive (num := float) items_with_opposite_infinities "Full Year" in
  items (run "Full Year" "2024" [TypeAmount 0 "Infinity"; TypeAmount 1 "Infinity"])
  = items_with_infinite_amounts
  /\ isZero (r_income r) = false
  /\ isNaN (r_income r) = false
  /\ isNaN (r_nonPrincipal r) = false
  /\ isNaN (r_pctIncome r) = true
  /\ isZero (int (r_weeks r') : float) = false
  /\ isNaN (r_weeklyRent r') = true.
Proof. vm_compute. repeat split; reflexivity. Qed.

Lemma division_witness :
  truthy (int 1000 : float) = true
  /\ isZero (int 1000 : float) = false
  /\ isZero (int (weeks "Q1") : float) = false
  /\ derive (N := division_by_zero_is (fun _ _ => PrimFloat.nan)) spec_items "Q1"
     = derive (num := float) spec_items "Q1"
  /\ isNaN (r_pctIncome (derive (num := float) spec_items "Q1")) = false.
Proof.
  assert (Ht : truthy (int 1000 : float) = true) by reflexivity.
  assert (Hfin : forall it, In it spec_items ->
                   PrimFloat.is_infinity (parseAmount (num := float) (amount it)) = false).
  { intros it Hin. simpl in Hin.
    repeat (destruct Hin as [Hin | Hin]; [subst it; reflexivity |]). contradiction. }
  pose proof (proj1 every_division_has_a_nonzero_divisor float _ float_laws)
    as [Hw [Hg [_ [_ Hd]]]].
  pose proof (proj2 (proj2 (proj2 every_division_has_a_nonzero_divisor)) spec_items "Q1")
    as [_ [_ Hn]].
  split; [exact Ht | split; [exact (Hg _ Ht) | split; [exact (proj2 (Hw "Q1")) | split]]].
  - exact (Hd (fun _ _ => PrimFloat.nan) spec_items "Q1").
  - exact (proj1 (proj2 (Hn Hfin))).
Defined.

(* ================================================================= *)
(** ** Editing the item list *)

Lemma nth_error_mapi_from {A B : Type} (f : A -> nat -> B) (i j : nat) (xs : list A) :
  nth_error (mapi_from f i xs) j = option_map (fun x => f x (i + j)%nat) (nth_error xs j).
Proof.
  revert i j. induction xs as [| x r IH]; intros i j.
  - destruct j; reflexivity.
  - destruct j as [| j]; cbn [mapi_from nth_error option_map].
    + rewrite Nat.add_0_r. reflexivity.
    + rewrite IH. rewrite Nat.add_succ_r. reflexivity.
Qed.

Lemma length_mapi_from {A B : Type} (f : A -> nat -> B) (i : nat) (xs : list A) :
  List.length (mapi_from f i xs) = List.length xs.
Proof.
  revert i. induction xs as [| x r IH]; intros i; [reflexivity |].
  cbn [mapi_from List.length]. rewrite IH. reflexivity.
Qed.

Lemma nth_error_handleChange (index : nat) (f : field) (v : string) (prev : list item) (j : nat) :
  nth_error (handleChange index f v prev) j
  = if Nat.eqb j index then option_map (fun it => set_field it f v) (nth_error prev j)
    else nth_error prev j.
Proof.
  unfold handleChange. rewrite nth_error_mapi_from. cbn [Nat.add].
  destruct (Nat.eqb j index); destruct (nth_error prev j); reflexivity.
Qed.

Lemma length_handleChange (index : nat) (f : field) (v : string) (prev : list item) :
  List.length (handleChange index f v prev) = List.length prev.
Proof. apply length_mapi_from. Qed.

Lemma list_eq_nth_error {A : Type} (l1 l2 : list A) :
  (forall j, nth_error l1 j = nth_error l2 j) -> l1 = l2.
Proof.
  revert l2. induction l1 as [| x r IH]; intros [| y r2] H.
  - reflexivity.
  - specialize (H 0%nat). discriminate.
  - specialize (H 0%nat). discriminate.
  - pose proof (H 0%nat) as H0. cbn in H0. injection H0 as ->.
    f_equal. apply IH. intros j. exact (H (S j)).
Qed.

Lemma set_field_twice (it : item) (f : field) (v1 v2 : string) :
  set_field (set_field it f v1) f v2 = set_field it f v2.
Proof. destruct f; reflexivity. Qed.

(** X1. [handleChange] edits one row and nothing else: the list keeps its
    length, the row at [index] gets the field set and every other row is as
    it was; an index outside the list changes nothing.  A second change of
    the same field of the same row overwrites the first, and changes of
    different rows can be made in either order. *)
Theorem handleChange_edits_one_row (index : nat) (f : field) (v : string) (prev : list item) :
  List.length (handleChange index f v prev) = List.length prev
  /\ (forall it, nth_error prev index = Some it ->
        nth_error (handleChange index f v prev) index = Some (set_field it f v))
  /\ (forall j, j <> index -> nth_error (handleChange index f v prev) j = nth_error prev j)
  /\ ((List.length prev <= index)%nat -> handleChange index f v prev = prev)
  /\ (forall v', handleChange index f v' (handleChange index f v prev)
                 = handleChange index f v' prev)
  /\ (forall index' f' v', index' <> index ->
        handleChange index' f' v' (handleChange index f v prev)
        = handleChange index f v (handleChange index' f' v' prev)).
Proof.
  split; [apply length_handleChange | split; [| split; [| split; [| split]]]].
  - intros it H. rewrite nth_error_handleChange, Nat.eqb_refl, H. reflexivity.
  - intros j H. rewrite nth_error_handleChange.
    apply Nat.eqb_neq in H. rewrite H. reflexivity.
  - intros H. apply list_eq_nth_error. intros j. rewrite nth_error_handleChange.
    destruct (Nat.eqb_spec j index) as [-> | _]; [| reflexivity].
    apply nth_error_None in H. rewrite H. reflexivity.
  - intros v'. apply list_eq_nth_error. intros j. rewrite !nth_error_handleChange.
    destruct (Nat.eqb j index); [| reflexivity].
    destruct (nth_error prev j); cbn [option_map]; [| reflexivity].
    rewrite set_field_twice. reflexivity.
  - intros index' f' v' Hne. apply list_eq_nth_error. intros j.
    rewrite !nth_error_handleChange.
    destruct (Nat.eqb_spec j index') as [E' | _]; destruct (Nat.eqb_spec j index) as [E | _];
      try reflexivity.
    subst j. contradiction.
Qed.

Lemma handleChange_witness :
  nth_error spec_items 1 = Some {| name := "Rent/Interest Paid"; amount := "300" |}
  /\ nth_error (handleChange 1 FieldAmount "450" spec_items) 1
     = Some {| name := "Rent/Interest Paid"; amount := "450" |}
  /\ (List.length spec_items <= 9)%nat
  /\ handleChange 9 FieldAmount "450" spec_items = spec_items.
Proof.
  assert (H1 : nth_error spec_items 1 = Some {| name := "Rent/Interest Paid"; amount := "300" |})
    by reflexivity.
  assert (H2 : (List.length spec_items <= 9)%nat) by (simpl; lia).
  split; [exact H1 | split; [| split; [exact H2 |]]].
  - exact (proj1 (proj2 (handleChange_edits_one_row 1 FieldAmount "450" spec_items)) _ H1).
  - exact (proj1 (proj2 (proj2 (proj2 (handleChange_edits_one_row 9 FieldAmount "450" spec_items)))) H2).
Defined.

(* ================================================================= *)
(** ** Sessions *)

Lemma handleChange_amount_no_comma (index : nat) (v : string) (prev : list item) :
  has_comma v = false ->
  Forall (fun it => has_comma (amount it) = false) prev ->
  Forall (fun it => has_comma (amount it) = false) (handleChange index FieldAmount v prev).
Proof.
  intros Hv. unfold handleChange. generalize 0%nat as i.
  induction prev as [| it rest IH]; intros i H; [constructor |].
  inversion H as [| ? ? Hit Hrest]; subst. cbn [mapi_from]. constructor.
  - destruct (Nat.eqb i index); [exact Hv | exact Hit].
  - apply IH. exact Hrest.
Qed.

Lemma reachable_no_comma (ip iy : string) (s : state) :
  reachable ip iy s -> Forall (fun it => has_comma (amount it) = false) (items s).
Proof.
  induction 1 as [| s e _ IH].
  - repeat constructor.
  - destruct e; cbn [step items]; try exact IH.
    + apply handleChange_amount_no_comma; [apply has_comma_removed | exact IH].
    + unfold handleAddRow. apply Forall_app. split; [exact IH | repeat constructor].
    + repeat constructor.
Qed.

(** X2. In every state of a session no stored amount holds a comma: the
    amount field stores what was typed with its commas removed.  So when
    the amounts are parsed the removal of commas finds nothing to remove,
    and each parsed value is [parseFloat] of the stored text, or 0. *)
Theorem stored_amounts_hold_no_comma {num : Type} {N : Number num}
    (ip iy : string) (s : state) (it : item) :
  reachable ip iy s -> In it (items s) ->
  has_comma (amount it) = false
  /\ remove_commas (amount it) = amount it
  /\ parseAmount (num := num) (amount it) = or_else (parseFloat (amount it)) (int 0).
Proof.
  intros Hr Hin.
  pose proof (reachable_no_comma ip iy s Hr) as H.
  rewrite Forall_forall in H. specialize (H it Hin).
  split; [exact H | split; [apply remove_commas_none; exact H |]].
  unfold parseAmount. rewrite (remove_commas_none _ H). reflexivity.
Qed.

Lemma stored_amounts_witness :
  reachable "Full Year" "2024" (run "Full Year" "2024" example_session)
  /\ In {| name := "Earnings"; amount := "1000" |} (items (run "Full Year" "2024" example_session))
  /\ has_comma "1000" = false
  /\ parseAmount (num := float) "1000" = or_else (parseFloat "1000") (int 0).
Proof.
  pose proof (reachable_run "Full Year" "2024" example_session) as Hr.
  assert (Hin : In {| name := "Earnings"; amount := "1000" |}
                   (items (run "Full Year" "2024" example_session))) by (left; reflexivity).
  pose proof (stored_amounts_hold_no_comma (num := float) _ _ _ _ Hr Hin) as [H1 [_ H3]].
  split; [exact Hr | split; [exact Hin | split; [exact H1 | exact H3]]].
Defined.

Lemma run_app (ip iy : string) (before after : list event) :
  run ip iy (before ++ after) = fold_left (step ip iy) after (run ip iy before).
Proof. unfold run. apply fold_left_app. Qed.

Lemma run_snoc (ip iy : string) (events : list event) (e : event) :
  run ip iy (events ++ [e]) = step ip iy (run ip iy events) e.
Proof. rewrite run_app. reflexivity. Qed.

Lemma rows_added_snoc (events : list event) (e : event) :
  rows_added (events ++ [e])
  = match e with
    | AddCategory => S (rows_added events)
    | ClearData => 0%nat
    | _ => rows_added events
    end.
Proof. unfold rows_added. rewrite fold_left_app. reflexivity. Qed.

Lemma run_names (ip iy : string) (events : list event) :
  map name (items (run ip iy events))
  = (INPUT_CATEGORIES ++ repeat EmptyString (rows_added events))%list.
Proof.
  induction events as [| e events IH] using rev_ind; [reflexivity |].
  rewrite run_snoc, rows_added_snoc.
  destruct e; cbn [step items]; try exact IH.
  - rewrite handleChange_amount_names. exact IH.
  - unfold handleAddRow. rewrite map_app, IH, <- app_assoc. cbn [map name].
    rewrite <- repeat_cons. reflexivity.
  - reflexivity.
Qed.

(** X3. The rows of a session: after any sequence of events the item list
    is the six reserved rows, in their order, followed by one unnamed row
    for each "Add Category" since the data was last cleared.  Clearing
    forgets everything before it: the state after it is the state of a
    fresh session that saw only the later events. *)
Theorem session_rows_and_clear (ip iy : string) (events : list event) :
  map name (items (run ip iy events))
  = (INPUT_CATEGORIES ++ repeat EmptyString (rows_added events))%list
  /\ List.length (items (run ip iy events)) = (6 + rows_added events)%nat
  /\ (forall later : list event,
        run ip iy (events ++ ClearData :: later) = run ip iy later).
Proof.
  split; [apply run_names | split].
  - rewrite <- (length_map name), run_names, length_app, repeat_length. reflexivity.
  - intros later. rewrite run_app. reflexivity.
Qed.

Section SessionTotals.
Context {num : Type} {N : Number num}.
Open Scope js_scope.

Lemma sum_interior_unnamed (total : num) (more : list item) :
  Forall (fun it => name it = EmptyString) more ->
  sum_interior total (parsed more) = total.
Proof.
  induction 1 as [| it more Hit _ IH]; [reflexivity |].
  cbn [parsed map sum_interior ename]. rewrite Hit. exact IH.
Qed.

Lemma parseAmount_or_zero (raw : string) : parseAmount raw ||| int 0 = parseAmount (num := num) raw.
Proof. unfold parseAmount. apply or_else_zero_twice. Qed.

Lemma session_shape (ip iy : string) (s : state) :
  reachable ip iy s ->
  exists a0 a1 a2 a3 a4 a5 more,
    items s = (reserved_rows a0 a1 a2 a3 a4 a5 ++ more)%list
    /\ Forall (fun it => name it = EmptyString) more.
Proof.
  intros Hr. destruct (reachable_names ip iy s Hr) as [k Hk].
  destruct (items s) as [| [n0 a0] [| [n1 a1] [| [n2 a2] [| [n3 a3] [| [n4 a4] [| [n5 a5] more]]]]]];
    try discriminate.
  cbn [map name] in Hk. unfold INPUT_CATEGORIES in Hk. cbn [app] in Hk.
  injection Hk as -> -> -> -> -> -> Hm.
  exists a0, a1, a2, a3, a4, a5, more. split; [reflexivity |].
  apply Forall_forall. intros it Hin.
  assert (Hn : In (name it) (map name more)) by (apply in_map; exact Hin).
  rewrite Hm in Hn. apply repeat_spec in Hn. exact Hn.
Qed.

Lemma session_totals (a0 a1 a2 a3 a4 a5 : string) (more : list item) :
  Forall (fun it => name it = EmptyString) more ->
  let ps := parsed (num := num) (reserved_rows a0 a1 a2 a3 a4 a5 ++ more) in
  income ps = parseAmount a0
  /\ nonPrincipal ps
     = int 0 + parseAmount a1 + parseAmount a2 + parseAmount a3 + parseAmount a4
  /\ value_of "Rent/Interest Paid" ps + value_of "Principal Paid" ps
     = parseAmount a1 + parseAmount a5.
Proof.
  intros Hm ps. subst ps. split; [| split].
  - unfold income, value_of, find_first. cbn. apply parseAmount_or_zero.
  - unfold nonPrincipal. rewrite fold_filter_interior, parsed_app.
    cbn [reserved_rows parsed map app sum_interior ename value name amount].
    cbn [interior String.eqb Ascii.eqb Bool.eqb orb].
    apply sum_interior_unnamed. exact Hm.
  - unfold value_of, find_first. cbn. rewrite !parseAmount_or_zero. reflexivity.
Qed.

End SessionTotals.

(** X4. What a session computes.  In every state of a session the items
    are the six reserved rows followed by unnamed rows, and for their
    amounts [a0] to [a5]: the income is the parsed amount of "Earnings";
    the non-principal total is 0 plus the parsed amounts of "Rent/Interest
    Paid", "Insurance Paid", "Maintenance" and "Rates (Taxes)", added in
    that order; and "Total Mortgage Outlay" is the parsed amount of
    "Rent/Interest Paid" plus that of "Principal Paid".  No added row
    enters any of them. *)
Theorem session_totals_from_reserved_rows {num : Type} {N : Number num}
    (ip iy : string) (s : state) :
  reachable ip iy s ->
  exists a0 a1 a2 a3 a4 a5 more,
    items s = (reserved_rows a0 a1 a2 a3 a4 a5 ++ more)%list
    /\ Forall (fun it => name it = EmptyString) more
    /\ forall p : string,
         let r := derive (num := num) (items s) p in
         r_income r = parseAmount a0
         /\ r_nonPrincipal r
            = add (add (add (add (int 0) (parseAmount a1)) (parseAmount a2)) (parseAmount a3))
                  (parseAmount a4)
         /\ nth_error (r_finalItems r) (List.length (items s) + 1)
            = Some {| ename := "Total Mortgage Outlay";
                      value := add (parseAmount a1) (parseAmount a5) |}.
Proof.
  intros Hr. destruct (session_shape ip iy s Hr) as [a0 [a1 [a2 [a3 [a4 [a5 [more [Hs Hm]]]]]]]].
  exists a0, a1, a2, a3, a4, a5, more. split; [exact Hs | split; [exact Hm |]].
  intros p r. subst r. rewrite Hs.
  destruct (session_totals (num := num) a0 a1 a2 a3 a4 a5 more Hm) as [Hi [Hn Ht]].
  unfold derive. cbn [r_income r_nonPrincipal r_finalItems].
  split; [exact Hi | split; [exact Hn |]].
  unfold finalItems. rewrite Ht.
  set (ps := parsed (reserved_rows a0 a1 a2 a3 a4 a5 ++ more)).
  assert (Hl : List.length (reserved_rows a0 a1 a2 a3 a4 a5 ++ more) = List.length ps)
    by (subst ps; unfold parsed; rewrite length_map; reflexivity).
  rewrite Hl, <- app_assoc, nth_error_app2 by lia.
  replace (List.length ps + 1 - List.length ps)%nat with 1%nat by lia.
  reflexivity.
Qed.

Lemma session_totals_witness :
  reachable "Full Year" "2024" (run "Full Year" "2024" example_session)
  /\ r_income (derive (num := float) (items (run "Full Year" "2024" example_session)) "Full Year")
     = int 1000
  /\ r_nonPrincipal (derive (num := float) (items (run "Full Year" "2024" example_session)) "Full Year")
     = int 400.
Proof.
  pose proof (reachable_run "Full Year" "2024" example_session) as Hr.
  destruct (session_totals_from_reserved_rows (num := float) _ _ _ Hr)
    as [a0 [a1 [a2 [a3 [a4 [a5 [more [Hs [_ H]]]]]]]]].
  injection Hs as <- <- <- <- <- <- _.
  destruct (H "Full Year") as [Hi [Hn _]].
  split; [exact Hr | split].
  - rewrite Hi. reflexivity.
  - rewrite Hn. reflexivity.
Defined.

(* ================================================================= *)
(** ** A report without income *)

Section NoIncome.
Context {num : Type} {N : Number num}.
Open Scope js_scope.

Lemma pctIncome_no_income (income nonPrincipal : num) :
  isZero income = true -> pctIncome income nonPrincipal = int 0.
Proof. intros H. unfold pctIncome. rewrite (zero_falsy _ H). reflexivity. Qed.

Lemma affordableWeekly_no_income (income : num) (w : Z) :
  isZero income = true -> affordableWeekly income w = int 0.
Proof. intros H. unfold affordableWeekly. rewrite (zero_falsy _ H). reflexivity. Qed.

Lemma parseFloat_overspending (x : string) :
  parseFloat (num := num) ("Overspending by $" ++ x) = nan.
Proof. reflexivity. Qed.

Lemma parseFloat_under (x : string) : parseFloat (num := num) ("Under by $" ++ x) = nan.
Proof. reflexivity. Qed.

Lemma tableRow_weekly_percent_unread (income affordableWeekly : num) (it : entry num) :
  ename it = "Estimated Weekly Rent" ->
  parseFloat (num := num) (percent (tableRow income affordableWeekly it)) = nan.
Proof.
  intros H. unfold tableRow. rewrite H. cbn [String.eqb Ascii.eqb Bool.eqb percent].
  destruct (_ >? _); [apply parseFloat_overspending | apply parseFloat_under].
Qed.

End NoIncome.

Section WithoutIncome.
Context {loc : Locale}.

(** X5. Without income the report still classifies.  When the income is 0
    (no earnings entered, or an amount that does not parse) the percentage
    of income and the affordable weekly rent are 0 and, in binary64 and in
    exact arithmetic alike, the classification is "Ideal", however large
    the expenses are. *)
Theorem no_income_is_classified_ideal :
  (forall (num : Type) (N : Number num) (items : list item) (p : string),
     let r := derive (num := num) items p in
     isZero (r_income r) = true ->
     r_pctIncome r = int 0
     /\ r_affordableWeekly r = int 0
     /\ r_classification r = getClassification (int 0 : num))
  /\ (forall (items : list item) (p : string),
        isZero (r_income (derive (num := float) items p)) = true ->
        r_classification (derive (num := float) items p) = "Ideal (≤30%)")
  /\ (forall (items : list item) (p : string),
        isZero (r_income (derive (num := xnum) items p)) = true ->
        r_classification (derive (num := xnum) items p) = "Ideal (≤30%)").
Proof.
  assert (G : forall (num : Type) (N : Number num) (items : list item) (p : string),
             let r := derive (num := num) items p in
             isZero (r_income r) = true ->
             r_pctIncome r = int 0
             /\ r_affordableWeekly r = int 0
             /\ r_classification r = getClassification (int 0 : num)).
  { intros num N items p r H. subst r. unfold derive in *.
    cbn [r_income r_pctIncome r_affordableWeekly r_classification] in *.
    rewrite (pctIncome_no_income _ _ H), (affordableWeekly_no_income _ _ H).
    repeat split; reflexivity. }
  split; [exact G | split].
  - intros items p H. destruct (G float _ items p H) as [_ [_ Hc]]. rewrite Hc. reflexivity.
  - intros items p H. destruct (G xnum _ items p H) as [_ [_ Hc]]. rewrite Hc. reflexivity.
Qed.

End WithoutIncome.

Lemma no_income_witness :
  isZero (r_income (derive (num := float) items_without_income "Q1")) = true
  /\ r_nonPrincipal (derive (num := float) items_without_income "Q1") = int 520
  /\ r_classification (derive (num := float) items_without_income "Q1") = "Ideal (≤30%)".
Proof.
  assert (H : isZero (r_income (derive (num := float) items_without_income "Q1")) = true)
    by reflexivity.
  split; [exact H | split; [reflexivity |]].
  exact (proj1 (proj2 no_income_is_classified_ideal) items_without_income "Q1" H).
Defined.

(** X6. The colour follows the thresholds.  [classificationColor] reads the
    bucket back off the label that [getClassification] built, and always
    recovers it: green for a percent up to 30, yellow up to 50, red beyond,
    and red for [NaN] as well. *)
Theorem classificationColor_of_percent {num : Type} {N : Number num} (percent : num) :
  classificationColor (getClassification percent)
  = if leb percent (int 30) then "text-green-600"
    else if leb percent (int 50) then "text-yellow-600"
    else "text-red-600".
Proof.
  unfold getClassification.
  destruct (leb percent (int 30)); [reflexivity |].
  destruct (leb percent (int 50)); reflexivity.
Qed.

(** X7. What the chart never shows.  A row named "Earnings", "Estimated
    Weekly Rent" or "Affordable Weekly Rent" is never a slice of the chart;
    and when the income is 0 the chart has no slice at all. *)
Theorem chart_without_income_is_empty
    {num : Type} {N : Number num} {L : NumberLaws num} (items : list item) (p : string) :
  let r := derive (num := num) items p in
  (forall d : row num,
     In d (r_chartItems r) ->
     rname d <> "Earnings" /\ rname d <> "Estimated Weekly Rent"
     /\ rname d <> "Affordable Weekly Rent")
  /\ (isZero (r_income r) = true -> r_chartItems r = []).
Proof.
  intros r. subst r. unfold derive. cbn [r_chartItems r_tableData r_income].
  set (inc := income (parsed items)).
  set (aw := affordableWeekly inc (weeks p)).
  set (final := finalItems _ _ _ _).
  split.
  - intros d Hd. apply In_chartItems in Hd. destruct Hd as [Hin [Hne Hge]].
    apply In_tableData in Hin. destruct Hin as [it [_ E]]. subst d.
    rewrite tableRow_name in *.
    split; [exact Hne | split]; intros Hn.
    + rewrite (tableRow_weekly_percent_unread _ _ _ Hn), nan_below_nothing in Hge. discriminate.
    + rewrite (tableRow_percent_reserved inc aw it (or_intror Hn)) in Hge.
      change (parseFloat "") with (nan : num) in Hge.
      rewrite nan_below_nothing in Hge. discriminate.
  - intros Hz. unfold chartItems, tableData.
    induction final as [| it rest IH]; [reflexivity |].
    cbn [map filter]. rewrite IH.
    replace (leb (int 4) (parseFloat (percent (tableRow inc aw it)))) with false.
    + rewrite andb_false_r. reflexivity.
    + symmetry. destruct (String.eqb_spec (ename it) "Estimated Weekly Rent") as [E | E].
      * rewrite (tableRow_weekly_percent_unread _ _ _ E). apply nan_below_nothing.
      * rewrite (tableRow_percent_no_income inc aw it (zero_falsy _ Hz) E).
        change (parseFloat "") with (nan : num). apply nan_below_nothing.
Qed.

Lemma chart_without_income_witness :
  isZero (r_income (derive (num := float) items_without_income "Q1")) = true
  /\ r_chartItems (derive (num := float) items_without_income "Q1") = [].
Proof.
  assert (H : isZero (r_income (derive (num := float) items_without_income "Q1")) = true)
    by reflexivity.
  split; [exact H |].
  exact (proj2 (chart_without_income_is_empty (L := float_laws) items_without_income "Q1") H).
Defined.

(* ================================================================= *)
(** ** Adding a category *)

Section AddCategory.
Context {num : Type} {N : Number num} {L : NumberLaws num}.
Open Scope js_scope.

Lemma parseAmount_empty : parseAmount (num := num) "" = int 0.
Proof.
  unfold parseAmount. change (parseFloat (remove_commas "")) with (nan : num).
  unfold or_else. rewrite nan_falsy. reflexivity.
Qed.

Lemma parsed_handleAddRow (items : list item) :
  parsed (num := num) (handleAddRow items)
  = (parsed items ++ [ {| ename := ""; value := int 0 |} ])%list.
Proof.
  unfold handleAddRow. rewrite parsed_app. cbn [parsed map name amount].
  rewrite parseAmount_empty. reflexivity.
Qed.

Lemma find_named_snoc_unnamed (key : string) (ps : list (entry num)) (v : num) :
  key <> EmptyString ->
  find_first (fun n => String.eqb (ename n) key) (ps ++ [ {| ename := ""; value := v |} ])
  = find_first (fun n => String.eqb (ename n) key) ps.
Proof.
  intros Hk. unfold find_first.
  induction ps as [| n rest IH]; cbn [app List.find ename].
  - destruct (String.eqb_spec "" key) as [E | _]; [symmetry in E; contradiction | reflexivity].
  - destruct (String.eqb (ename n) key); [reflexivity | exact IH].
Qed.

Lemma value_of_snoc_unnamed (key : string) (ps : list (entry num)) (v : num) :
  key <> EmptyString ->
  value_of key (ps ++ [ {| ename := ""; value := v |} ]) = value_of key ps.
Proof.
  intros Hk. unfold value_of. rewrite (find_named_snoc_unnamed key ps v Hk). reflexivity.
Qed.

Lemma nonPrincipal_snoc_unnamed (ps : list (entry num)) (v : num) :
  nonPrincipal (ps ++ [ {| ename := ""; value := v |} ]) = nonPrincipal ps.
Proof.
  rewrite (nonPrincipal_skip ps [] {| ename := ""; value := v |}) by reflexivity.
  rewrite app_nil_r. reflexivity.
Qed.

Lemma templates_snoc_unnamed (p : string) (ps : list (entry num)) (v : num)
    (income nonPrincipal pctIncome weeklyRent affordableWeekly : num) (w : Z) :
  templates p (ps ++ [ {| ename := ""; value := v |} ]) income nonPrincipal pctIncome
    weeklyRent affordableWeekly w
  = templates p ps income nonPrincipal pctIncome weeklyRent affordableWeekly w.
Proof.
  unfold templates. rewrite find_named_snoc_unnamed by discriminate. reflexivity.
Qed.

End AddCategory.

(** X8. "Add Category" changes no figure.  For every item list, adding a
    row leaves the income, the non-principal total, the percentage of
    income, the classification, both weekly rents and the whole narrative
    as they were; the report table gains one row, named by the empty text
    and of value 0, right after the rows of the items, and its other rows
    are unchanged. *)
Theorem add_category_changes_no_figure
    {num : Type} {N : Number num} {L : NumberLaws num} (items : list item) (p : string) :
  let r := derive (num := num) items p in
  let r' := derive (num := num) (handleAddRow items) p in
  r_income r' = r_income r
  /\ r_nonPrincipal r' = r_nonPrincipal r
  /\ r_pctIncome r' = r_pctIncome r
  /\ r_classification r' = r_classification r
  /\ r_weeklyRent r' = r_weeklyRent r
  /\ r_affordableWeekly r' = r_affordableWeekly r
  /\ r_templates r' = r_templates r
  /\ (exists blank : row num,
        rname blank = "" /\ rvalue blank = int 0
        /\ r_tableData r'
           = (firstn (List.length items) (r_tableData r) ++ blank
              :: skipn (List.length items) (r_tableData r))%list).
Proof.
  intros r r'. subst r r'. unfold derive.
  cbn [r_income r_nonPrincipal r_pctIncome r_classification r_weeklyRent r_affordableWeekly
       r_templates r_tableData].
  rewrite parsed_handleAddRow.
  assert (Hi : income (parsed items ++ [ {| ename := ""; value := int 0 : num |} ])
               = income (parsed items))
    by (apply value_of_snoc_unnamed; discriminate).
  rewrite Hi, nonPrincipal_snoc_unnamed, templates_snoc_unnamed.
  repeat (split; [reflexivity |]).
  set (inc := income (parsed items)).
  set (aw := affordableWeekly inc (weeks p)).
  exists (tableRow inc aw {| ename := ""; value := int 0 |}).
  split; [apply tableRow_name | split; [apply tableRow_value |]].
  unfold tableData, finalItems.
  rewrite !value_of_snoc_unnamed by discriminate.
  rewrite <- !app_assoc, !map_app.
  assert (Hl : List.length (map (tableRow inc aw) (parsed items)) = List.length items)
    by (unfold parsed; rewrite !length_map; reflexivity).
  rewrite <- Hl, firstn_app, skipn_app, firstn_all, skipn_all, Nat.sub_diag.
  cbn [firstn skipn app]. rewrite app_nil_r. reflexivity.
Qed.

Lemma add_category_witness :
  r_templates (derive (num := float) (handleAddRow spec_items) "Q1")
  = r_templates (derive (num := float) spec_items "Q1")
  /\ List.length (r_tableData (derive (num := float) (handleAddRow spec_items) "Q1")) = 11%nat.
Proof.
  pose proof (add_category_changes_no_figure (L := float_laws) spec_items "Q1")
    as [_ [_ [_ [_ [_ [_ [Ht [blank [_ [_ Hd]]]]]]]]]].
  split; [exact Ht |].
  rewrite Hd. reflexivity.
Defined.

(* ================================================================= *)
(** ** The table and the narrative *)

Section TableAndNarrative.
Context {loc : Locale}.
Open Scope js_scope.

Lemma Qle_bool_ext (a b c d : Q) : ((a <= b)%Q <-> (c <= d)%Q) -> Qle_bool a b = Qle_bool c d.
Proof.
  intros H. destruct (Qle_bool a b) eqn:E1; destruct (Qle_bool c d) eqn:E2; try reflexivity.
  - apply Qle_bool_iff, H, Qle_bool_iff in E1. congruence.
  - apply Qle_bool_iff, H, Qle_bool_iff in E2. congruence.
Qed.

(** The sign of the period's amount is the sign of the weekly difference. *)
Lemma totalDiff_sign (d : xnum) (w : Z) :
  w = 13 \/ w = 26 \/ w = 52 -> ltb (int 0) (mul d (int w)) = ltb (int 0) d.
Proof.
  intros Hw. change (int 0 : xnum) with (XFin 0).
  destruct Hw as [E | [E | E]]; subst w;
    [change (int 13 : xnum) with (XFin 13) | change (int 26 : xnum) with (XFin 26)
     | change (int 52 : xnum) with (XFin 52)];
    (destruct d as [| s | q]; [reflexivity | destruct s; reflexivity |]);
    cbn [ltb mul xnum_Number x_ltb x_mul]; f_equal; apply Qle_bool_ext;
    rewrite !Qred_correct; split; intros H; lra.
Qed.

Lemma startsWith_app (p x : string) : startsWith (p ++ x) p = true.
Proof.
  unfold startsWith. induction p as [| c p IH]; [destruct x; reflexivity |].
  cbn [String.append String.prefix]. destruct (ascii_dec c c) as [_ | H]; [exact IH |].
  exfalso. apply H. reflexivity.
Qed.

(** X10. The table and the narrative tell the same story, in exact
    arithmetic.  For every item list and period the row "Estimated Weekly
    Rent" of the table reads "Overspending by ..." exactly when the last
    line of the narrative reads "Total overspending for ...", and "Under
    by ..." exactly when it reads "Total savings for ...". *)
Theorem table_and_narrative_agree (items : list item) (p : string) :
  let r := derive (num := xnum) items p in
  exists (weekly : row xnum) (line : string),
    nth_error (r_tableData r) (List.length items + 2) = Some weekly
    /\ rname weekly = "Estimated Weekly Rent"
    /\ last (r_templates r) "" = line
    /\ startsWith (percent weekly) "Overspending by $"
       = startsWith line "Total overspending for "
    /\ startsWith (percent weekly) "Under by $" = startsWith line "Total savings for ".
Proof.
  intros r. subst r. unfold derive. cbn [r_tableData r_templates].
  set (ps := parsed items).
  set (inc := income ps). set (np := nonPrincipal ps).
  set (wr := weeklyRent np (weeks p)). set (aw := affordableWeekly inc (weeks p)).
  exists (tableRow inc aw {| ename := "Estimated Weekly Rent"; value := wr |}).
  eexists. split; [| split; [reflexivity | split; [reflexivity |]]].
  - unfold tableData, finalItems.
    assert (Hl : List.length items = List.length ps)
      by (subst ps; unfold parsed; rewrite length_map; reflexivity).
    rewrite Hl, nth_error_map, <- app_assoc, nth_error_app2 by lia.
    replace (List.length ps + 2 - List.length ps)%nat with 2%nat by lia. reflexivity.
  - unfold templates, push. rewrite last_last.
    unfold totalDiff. rewrite (totalDiff_sign _ _ (weeks_cases p)).
    unfold tableRow. cbn [ename value String.eqb Ascii.eqb Bool.eqb percent].
    destruct (ltb (int 0) (sub wr aw)); cbn [percent].
    + rewrite !startsWith_app. split; reflexivity.
    + rewrite !startsWith_app. split; reflexivity.
Qed.

End TableAndNarrative.

(** The percentage and the weekly figures are rounded separately, and in
    binary64 they can disagree: with earnings of 30 and a rent of 9 the
    percentage is exactly 30 and the classification "Ideal", yet the
    weekly rent exceeds the affordable weekly rent by a rounding error and
    the report reads "Overspending by $0". *)
Remark classification_and_weekly_text_in_binary64 :
  let r := derive (num := float)
             [ {| name := "Earnings"; amount := "30" |};
               {| name := "Rent/Interest Paid"; amount := "9" |} ] "Q1" in
  r_pctIncome r = int 30
  /\ r_classification r = "Ideal (≤30%)"
  /\ option_map percent (nth_error (r_tableData r) 4) = Some "Overspending by $0"
  /\ last (r_templates r) "" = "Total overspending for Q1: $0".
Proof. vm_compute. repeat split; reflexivity. Qed.

(* ================================================================= *)
(** ** Formatting an amount and reading it back *)


(** The text [formatAmount] builds from a printed amount, and the number
    that text parses to. *)
Lemma formatAmount_text_and_value
    {num : Type} {N : Number num} (x : num) (a b : Z) :
  0 <= a -> 0 <= b < 100 ->
  toFixed2 x = Z_digits a ++ "." ++ pad_digits 2 b ->
  format (of_decimal false a 0 : num) = group3 (Z_digits a) ->
  formatAmount x
  = group3 (Z_digits a) ++ (if b =? 0 then "" else "." ++ pad_digits 2 b)
  /\ parseAmount (num := num) (formatAmount x)
     = or_else (if b =? 0 then of_decimal false a 0 else of_decimal false (100 * a + b) (-2))
               (int 0).
Proof.
  intros Ha Hb Hfix Hfmt.
  destruct (two_digits b Hb) as [c1 [c2 [E2 [H1 [H2 [_ H00]]]]]].
  assert (Hp : all_digits (pad_digits 2 b) = true)
    by (rewrite E2; cbn [all_digits]; rewrite H1, H2; reflexivity).
  assert (Hform : formatAmount x
                  = group3 (Z_digits a) ++ (if b =? 0 then "" else "." ++ pad_digits 2 b)).
  { unfold formatAmount. rewrite Hfix.
    change (Z_digits a ++ "." ++ pad_digits 2 b)
      with (Z_digits a ++ String dot (pad_digits 2 b)).
    rewrite (split_dot_point _ _ (all_digits_Z_digits a)), (split_dot_digits _ Hp).
    cbn [hd nth_error].
    rewrite (toNumber_integer a Ha), Hfmt.
    destruct (Z.eqb_spec b 0) as [E0 | Hne].
    - subst b. rewrite append_empty. reflexivity.
    - clear Hfix.
      destruct (String.eqb_spec (pad_digits 2 b) "00") as [E00 | Hn00];
        [exfalso; apply Hne, H00, E00 |].
      rewrite E2 in *. cbn [show_opt].
      destruct c1 as [[] [] [] [] [] [] [] []]; try reflexivity;
        destruct c2 as [[] [] [] [] [] [] [] []]; try reflexivity.
      contradiction Hn00. reflexivity. }
  split; [exact Hform |].
  rewrite Hform. unfold parseAmount. rewrite remove_commas_app.
  rewrite (remove_commas_group3 _ (has_comma_digits _ (all_digits_Z_digits a))).
  destruct (Z.eqb_spec b 0) as [E0 | Hne].
  - cbn [remove_commas]. rewrite append_empty, (parseFloat_integer a Ha). reflexivity.
  - change (remove_commas ("." ++ pad_digits 2 b)) with (String dot (remove_commas (pad_digits 2 b))).
    rewrite (remove_commas_none _ (has_comma_digits _ Hp)).
    change (Z_digits a ++ String dot (pad_digits 2 b)) with (Z_digits a ++ "." ++ pad_digits 2 b).
    rewrite (parseFloat_cents a b Ha Hb). reflexivity.
Qed.

(** X11. Formatting an amount and reading it back.  Suppose [toFixed(2)]
    prints [x] as the digits of [a >= 0], a point and two digits that
    spell [b], and the locale's formatter prints the integer [a] as its
    digits in groups of three separated by commas (as en-US does).  Then
    [formatAmount x] is the grouped digits of [a], followed by the point
    and the two digits unless they are 00; and parsing that text as an
    amount gives the number its digits spell: [a] when the decimals are
    00 and [a.bb] otherwise.  The commas that formatting puts in are the
    ones parsing takes out. *)
Theorem formatAmount_reads_back
    {num : Type} {N : Number num} (x : num) (a b : Z) :
  0 <= a -> 0 <= b < 100 ->
  toFixed2 x = Z_digits a ++ "." ++ pad_digits 2 b ->
  format (of_decimal false a 0 : num) = group3 (Z_digits a) ->
  formatAmount x
  = group3 (Z_digits a) ++ (if b =? 0 then "" else "." ++ pad_digits 2 b)
  /\ parseAmount (num := num) (formatAmount x)
     = or_else (if b =? 0 then of_decimal false a 0 else of_decimal false (100 * a + b) (-2))
               (int 0).
Proof. apply formatAmount_text_and_value. Qed.

Lemma formatAmount_witness :
  0 <= 1234 /\ 0 <= 50 < 100
  /\ toFixed2 (dec 12345 1 : float) = Z_digits 1234 ++ "." ++ pad_digits 2 50
  /\ formatAmount (dec 12345 1 : float) = "1,234.50"
  /\ parseAmount (num := float) (formatAmount (dec 12345 1 : float)) = dec 12345 1.
Proof.
  assert (Ha : 0 <= 1234) by lia.
  assert (Hb : 0 <= 50 < 100) by lia.
  assert (Hfix : toFixed2 (dec 12345 1 : float) = Z_digits 1234 ++ "." ++ pad_digits 2 50)
    by (vm_compute; reflexivity).
  assert (Hfmt : format (of_decimal false 1234 0 : float) = group3 (Z_digits 1234))
    by (vm_compute; reflexivity).
  destruct (formatAmount_reads_back (dec 12345 1 : float) 1234 50 Ha Hb Hfix Hfmt) as [H1 H2].
  split; [exact Ha | split; [exact Hb | split; [exact Hfix | split]]].
  - rewrite H1. vm_compute. reflexivity.
  - rewrite H2. vm_compute. reflexivity.
Defined.

(** The locale matters to what is read back.  In an environment whose
    locale groups the digits with a point, as de-DE does, the amount
    1234.5 is displayed as 1.234.50, and that text parses to 1.234: the
    locale's formatter printing the digits in groups separated by commas
    is a hypothesis that cannot be dropped. *)
Remark formatAmount_in_a_locale_that_groups_with_points :
  formatAmount (N := float_Number (loc := de_DE_locale)) (dec 12345 1) = "1.234.50"
  /\ parseAmount (N := float_Number (loc := de_DE_locale)) "1.234.50" = dec 1234 3
  /\ formatAmount (N := float_Number (loc := en_US_locale)) (dec 12345 1) = "1,234.50"
  /\ parseAmount (N := float_Number (loc := en_US_locale)) "1,234.50" = dec 12345 1.
Proof. vm_compute. repeat split; reflexivity. Qed.
